(** * Contrarian detection and the author performance ledger

    A shallow embedding of the consensus and scoring code of
    [src/analyzers/contrarian_earnings_analyzer_production.py] and
    [src/analyzers/simplified_contrarian_analyzer.py], of the author ledger
    of [src/analyzers/master_contrarian_database.py], and of the call that
    feeds the one into the other in
    [src/analyzers/contrarian_csv_exporter.py].

    Modelling conventions.
    - Python [int] is [Z]. Python [float] is an exact rational [Q];
      [round(x, n)] is decimal rounding, half to even, of that rational.
    - A dict with a fixed set of keys is a record; a key that is only read
      with [d.get(k, default)] is an [option] field.
    - The dict keyed by [Author_ID] is a [gmap string AuthorRecord].
    - A data frame is the list of its rows. The master CSV file is the list
      of the rows written to it, or an unreadable file. [pd.read_csv] gives
      the numbers back as they were written, an empty cell (a [None]) as the
      float NaN, and a [Companies_List] that spells a missing value as NaN.
      The order of the rows is not modelled.
    - The other text columns are kept as written. For [Author_ID], the key
      of the dict, this is what pandas does when the text does not spell a
      missing value, a number or a boolean ([plain_id] below); the
      statements that follow one author through a reload assume it.
    - [datetime.now()] is an argument of the functions that read the clock.
    - Exceptions are values of [Py.result]: the [ZeroDivisionError] of the
      ledger arithmetic, the errors of [pd.read_csv] on a file it cannot
      parse or that is empty, the [TypeError] of [DataFrame.nlargest] on
      untyped columns, the [AttributeError] of [.split] on a NaN and the
      [FileNotFoundError] of [open] on a path through a directory that does
      not exist. *)

From Stdlib Require Import ZArith QArith Qround Qabs String Ascii List Lia Lqa Bool Sorted.
From stdpp Require Import gmap strings.

Import ListNotations.
#[local] Open Scope string_scope.
#[local] Open Scope Z_scope.

(** ** Python primitives used by the code *)

Module Py.

(** [a < b], [a >= b] on floats. *)
Definition lt (a b : Q) : bool :=
  match (a ?= b)%Q with Lt => true | _ => false end.
Definition ge (a b : Q) : bool := negb (lt a b).
Definition gt (a b : Q) : bool := lt b a.

(** Nearest integer, ties to the even neighbour. *)
Definition round_half_even (x : Q) : Z :=
  let f := Qfloor x in
  match ((x - inject_Z f) ?= (1 # 2))%Q with
  | Lt => f
  | Gt => f + 1
  | Eq => if Z.even f then f else f + 1
  end.

(** [round(x, ndigits)]. *)
Definition round (x : Q) (ndigits : nat) : Q :=
  let scale := inject_Z (10 ^ Z.of_nat ndigits) in
  Qred (inject_Z (round_half_even (x * scale)) / scale).

(** [int / int] (true division); every caller rules out a zero divisor
    first, or raises. *)
Definition truediv (a b : Z) : Q := (inject_Z a / inject_Z b)%Q.

(** [str.lower()] on the ASCII letters. *)
Definition lower_ascii (c : ascii) : ascii :=
  let n := nat_of_ascii c in
  if ((65 <=? n) && (n <=? 90))%nat then ascii_of_nat (n + 32) else c.

Fixpoint lower (s : string) : string :=
  match s with
  | EmptyString => EmptyString
  | String c s' => String (lower_ascii c) (lower s')
  end.

(** [s.replace(old, new)] for a one-character [old]. *)
Fixpoint replace (old : ascii) (new : string) (s : string) : string :=
  match s with
  | EmptyString => EmptyString
  | String c s' =>
      if Ascii.eqb c old then new ++ replace old new s'
      else String c (replace old new s')
  end.

(** [s.split(sep)] for a one-character [sep]. *)
Fixpoint split_acc (sep : ascii) (cur : string) (s : string) : list string :=
  match s with
  | EmptyString => [cur]
  | String c s' =>
      if Ascii.eqb c sep then cur :: split_acc sep EmptyString s'
      else split_acc sep (cur ++ String c EmptyString) s'
  end.
Definition split (sep : ascii) (s : string) : list string :=
  split_acc sep EmptyString s.

(** [sep.join(l)]. *)
Fixpoint join (sep : string) (l : list string) : string :=
  match l with
  | [] => EmptyString
  | [x] => x
  | x :: rest => x ++ sep ++ join sep rest
  end.

(** Truth value of a string. *)
Definition truthy (s : string) : bool :=
  match s with EmptyString => false | _ => true end.

(** [x in l] for a list of strings. *)
Definition contains (x : string) (l : list string) : bool :=
  existsb (String.eqb x) l.

(** [Counter(l)[x]]. *)
Definition Counter (l : list string) (x : string) : Z :=
  Z.of_nat (count_occ string_dec l x).

(** [c in s] for a one-character [c]. *)
Fixpoint has_char (c : ascii) (s : string) : bool :=
  match s with
  | EmptyString => false
  | String c' s' => Ascii.eqb c' c || has_char c s'
  end.

(** A float cell of a data frame: a number, or NaN. Every comparison with
    NaN is false. *)
Inductive float := Float (x : Q) | NaN.

Definition float_ge (a : float) (b : Q) : bool :=
  match a with Float x => ge x b | NaN => false end.
Definition float_lt (a : float) (b : Q) : bool :=
  match a with Float x => lt x b | NaN => false end.

(** A cell of a text column of a data frame: a [str], or the float NaN that
    [pd.read_csv] puts in the place of a missing value. *)
Inductive text_cell := Str (s : string) | NaNCell.

(** The texts that [pd.read_csv] takes for a missing value by default. *)
Definition na_values : list string :=
  [""; "#N/A"; "#N/A N/A"; "#NA"; "-1.#IND"; "-1.#QNAN"; "-NaN"; "-nan";
   "1.#IND"; "1.#QNAN"; "<NA>"; "N/A"; "NA"; "NULL"; "NaN"; "None"; "n/a";
   "nan"; "null"].

(** A text cell written by [csv.DictWriter] (NaN is written as [nan]) and
    read back by [pd.read_csv]. *)
Definition read_text (c : text_cell) : text_cell :=
  match c with
  | Str s => if contains s na_values then NaNCell else Str s
  | NaNCell => NaNCell
  end.

(** A float cell that may hold [None], written (as the empty cell) and read
    back. *)
Definition read_float (c : option float) : option float :=
  match c with
  | Some x => Some x
  | None => Some NaN
  end.

(** Exceptions raised by the modelled code. *)
Inductive exn :=
| ZeroDivisionError
| ParserError
| EmptyDataError
| TypeError
| AttributeError
| FileNotFoundError.

Inductive result (A : Type) :=
| Ok (a : A)
| Raise (e : exn).
Arguments Ok {A} a.
Arguments Raise {A} e.

Definition bind {A B} (m : result A) (k : A -> result B) : result B :=
  match m with
  | Ok a => k a
  | Raise e => Raise e
  end.

End Py.

Notation "'try!' x ':=' m 'in' k" := (Py.bind m (fun x => k))
  (at level 10, x name, m at level 100, k at level 200).

(** ** The author ledger ([master_contrarian_database.py]) *)

Module MasterContrarianDatabase.

(** One row of the master table (the 22 columns of
    [_initialize_master_csv]). [Contrarian_Success_Rate] is [None] in a row
    created without a resolved call, and a float, possibly NaN, otherwise;
    [Latest_Was_Correct = None] is the cell ['Unknown']. *)
Record AuthorRecord := {
  Author_ID : string;
  Author_Name : string;
  First_Seen_Date : string;
  Last_Seen_Date : string;
  Total_Earnings_Calls : Z;
  Total_Companies_Covered : Z;
  Total_Contrarian_Instances : Z;
  Successful_Contrarian_Calls : Z;
  Failed_Contrarian_Calls : Z;
  Contrarian_Success_Rate : option Py.float;
  Overall_Contrarian_Score : Q;
  Average_Contrarian_Score_Per_Call : Q;
  Companies_List : Py.text_cell;
  Latest_Company : string;
  Latest_Symbol : string;
  Latest_Earnings_Date : string;
  Latest_Contrarian_Type : string;
  Latest_Was_Correct : option bool;
  Repeat_Contrarian_Count : Z;
  Consistency_Score : Q;
  Risk_Level : string;
  Last_Updated : string
}.

(** One row of an author's history file ([_save_author_history]). *)
Record HistoryRow := {
  Date_Added : string;
  H_Author_Name : string;
  Company : string;
  Symbol : string;
  Earnings_Date : string;
  Sentiment : string;
  Earnings_Prediction : string;
  Contrarian_Type : string;
  Contrarian_Score : Q;
  Was_Minority_Sentiment : bool;
  Was_Minority_Prediction : bool;
  Was_Correct : option bool;
  Reasoning : string;
  Key_Concerns : string
}.

(** A contrarian dict as the ledger reads it: every key is read with
    [contrarian.get(key, default)], so every key may be missing. *)
Record Contrarian := {
  author : option string;
  sentiment : option string;
  earnings_prediction : option string;
  was_minority_sentiment : option bool;
  was_minority_prediction : option bool;
  contrarian_score : option Q;
  reasoning : option string;
  key_concerns : option (list string)
}.

(** The [actual_result] dict; the ledger reads its key ['result'] only. *)
Record ActualResult := { result : option string }.

(** [report_data]. [actual_result = None] stands for every falsy value of
    that key: missing (default [{}]), [None], or the empty dict. *)
Record ReportData := {
  company : option string;
  symbol : option string;
  earnings_date : option string;
  actual_result : option ActualResult
}.

(** What the master CSV file holds: the rows written under the header, or
    something [pd.read_csv] cannot read. *)
Inductive CsvFile :=
| Rows (rows : list AuthorRecord)
| Unreadable.

(** The files under [database_dir]: the master CSV ([None] when the file
    does not exist) and one history file per author id. *)
Record DbFiles := {
  master_csv : option CsvFile;
  author_histories : gmap string (list HistoryRow)
}.

Definition get {A} (o : option A) (default : A) : A :=
  match o with Some a => a | None => default end.

(** No file yet. *)
Definition no_files : DbFiles :=
  {| master_csv := None; author_histories := ∅ |}.

(** [_initialize_master_csv]: write the header row unless the file is
    there. *)
Definition _initialize_master_csv (fs : DbFiles) : DbFiles :=
  match master_csv fs with
  | Some _ => fs
  | None => {| master_csv := Some (Rows []); author_histories := author_histories fs |}
  end.

(** [_generate_author_id]. *)
Definition _generate_author_id (author_name : string) : string :=
  Py.replace "," "" (Py.replace "." "" (Py.replace " " "_" (Py.lower author_name))).

(** One row as [pd.read_csv] returns it. *)
Definition read_row (row : AuthorRecord) : AuthorRecord :=
  {| Author_ID := Author_ID row; Author_Name := Author_Name row;
     First_Seen_Date := First_Seen_Date row; Last_Seen_Date := Last_Seen_Date row;
     Total_Earnings_Calls := Total_Earnings_Calls row;
     Total_Companies_Covered := Total_Companies_Covered row;
     Total_Contrarian_Instances := Total_Contrarian_Instances row;
     Successful_Contrarian_Calls := Successful_Contrarian_Calls row;
     Failed_Contrarian_Calls := Failed_Contrarian_Calls row;
     Contrarian_Success_Rate := Py.read_float (Contrarian_Success_Rate row);
     Overall_Contrarian_Score := Overall_Contrarian_Score row;
     Average_Contrarian_Score_Per_Call := Average_Contrarian_Score_Per_Call row;
     Companies_List := Py.read_text (Companies_List row);
     Latest_Company := Latest_Company row;
     Latest_Symbol := Latest_Symbol row;
     Latest_Earnings_Date := Latest_Earnings_Date row;
     Latest_Contrarian_Type := Latest_Contrarian_Type row;
     Latest_Was_Correct := Latest_Was_Correct row;
     Repeat_Contrarian_Count := Repeat_Contrarian_Count row;
     Consistency_Score := Consistency_Score row;
     Risk_Level := Risk_Level row; Last_Updated := Last_Updated row |}.

(** [pd.read_csv(master_csv_path)]: the rows of the file. *)
Definition read_csv (file : CsvFile) : Py.result (list AuthorRecord) :=
  match file with
  | Rows rows => Py.Ok (map read_row rows)
  | Unreadable => Py.Raise Py.ParserError
  end.

(** [_load_existing_data]: the dict of the rows, keyed by their
    [Author_ID]; an exception is printed and leaves the dict empty. *)
Definition _load_existing_data (fs : DbFiles) : gmap string AuthorRecord :=
  match master_csv fs with
  | Some file =>
      match read_csv file with
      | Py.Ok df =>
          foldl (fun existing_data row => <[Author_ID row := row]> existing_data)
            ∅ df
      | Py.Raise _ => ∅
      end
  | None => ∅
  end.

(** [_evaluate_contrarian_accuracy]. *)
Definition _evaluate_contrarian_accuracy
    (contrarian : Contrarian) (actual_result : option ActualResult) : option bool :=
  match actual_result with
  | None => None
  | Some actual_result =>
      let prediction := Py.lower (get (earnings_prediction contrarian) "") in
      let actual_outcome := Py.lower (get (result actual_result) "") in
      if String.eqb prediction "beat" && String.eqb actual_outcome "beat" then Some true
      else if String.eqb prediction "miss" && String.eqb actual_outcome "miss" then Some true
      else if String.eqb prediction "meet" && String.eqb actual_outcome "meet" then Some true
      else if Py.truthy prediction && Py.truthy actual_outcome then Some false
      else None
  end.

(** [_determine_contrarian_type]. *)
Definition _determine_contrarian_type (contrarian : Contrarian) : string :=
  let sentiment_contrarian := get (was_minority_sentiment contrarian) false in
  let prediction_contrarian := get (was_minority_prediction contrarian) false in
  if sentiment_contrarian && prediction_contrarian then "Both_Sentiment_Prediction"
  else if sentiment_contrarian then "Sentiment_Only"
  else if prediction_contrarian then "Prediction_Only"
  else "Unknown".

(** [_calculate_risk_level]. The test [success_rate is None] does not see
    a NaN. *)
Definition _calculate_risk_level (author_data : AuthorRecord) : string :=
  let success_rate := Contrarian_Success_Rate author_data in
  let total_calls := Total_Contrarian_Instances author_data in
  let consistency := Consistency_Score author_data in
  match success_rate with
  | None => "Unknown"
  | Some success_rate =>
      if total_calls <? 2 then "Unknown"
      else if Py.float_ge success_rate 70 && (3 <=? total_calls) then "Low_Risk"
      else if Py.float_ge success_rate 50 && Py.ge consistency 50 then "Medium_Risk"
      else if Py.float_lt success_rate 30 || Py.lt consistency 20 then "High_Risk"
      else "Medium_Risk"
  end.

Definition set_Risk_Level (v : string) (d : AuthorRecord) : AuthorRecord :=
  {| Author_ID := Author_ID d; Author_Name := Author_Name d;
     First_Seen_Date := First_Seen_Date d; Last_Seen_Date := Last_Seen_Date d;
     Total_Earnings_Calls := Total_Earnings_Calls d;
     Total_Companies_Covered := Total_Companies_Covered d;
     Total_Contrarian_Instances := Total_Contrarian_Instances d;
     Successful_Contrarian_Calls := Successful_Contrarian_Calls d;
     Failed_Contrarian_Calls := Failed_Contrarian_Calls d;
     Contrarian_Success_Rate := Contrarian_Success_Rate d;
     Overall_Contrarian_Score := Overall_Contrarian_Score d;
     Average_Contrarian_Score_Per_Call := Average_Contrarian_Score_Per_Call d;
     Companies_List := Companies_List d; Latest_Company := Latest_Company d;
     Latest_Symbol := Latest_Symbol d;
     Latest_Earnings_Date := Latest_Earnings_Date d;
     Latest_Contrarian_Type := Latest_Contrarian_Type d;
     Latest_Was_Correct := Latest_Was_Correct d;
     Repeat_Contrarian_Count := Repeat_Contrarian_Count d;
     Consistency_Score := Consistency_Score d;
     Risk_Level := v; Last_Updated := Last_Updated d |}.

(** [_update_existing_author]. The dict is mutated in place in the source;
    here the updated row is returned. [now] is the reading of
    [datetime.now()]. A [Companies_List] that was read as NaN is truthy and
    has no [split]; the two unguarded divisions raise on a zero divisor. *)
Definition _update_existing_author
    (author_data : AuthorRecord) (company symbol earnings_date : string)
    (contrarian_type : string) (was_correct : option bool)
    (contrarian_score : Q) (now : string) : Py.result AuthorRecord :=
  (* Update basic counts *)
  let total_earnings_calls := Total_Earnings_Calls author_data + 1 in
  let total_contrarian_instances := Total_Contrarian_Instances author_data + 1 in
  (* Update company tracking *)
  try! companies_list :=
    match Companies_List author_data with
    | Py.Str s => Py.Ok (if Py.truthy s then Py.split ";" s else [])
    | Py.NaNCell => Py.Raise Py.AttributeError
    end in
  let is_new_company := negb (Py.contains company companies_list) in
  let total_companies_covered :=
    if is_new_company then Z.of_nat (length (companies_list ++ [company]))
    else Total_Companies_Covered author_data in
  let companies_list_cell :=
    if is_new_company then Py.Str (Py.join ";" (companies_list ++ [company]))
    else Companies_List author_data in
  (* Update accuracy tracking *)
  let successful :=
    match was_correct with
    | Some true => Successful_Contrarian_Calls author_data + 1
    | _ => Successful_Contrarian_Calls author_data
    end in
  let failed :=
    match was_correct with
    | Some false => Failed_Contrarian_Calls author_data + 1
    | _ => Failed_Contrarian_Calls author_data
    end in
  (* Calculate success rate *)
  let total_calls_with_results := successful + failed in
  let success_rate_cell :=
    if 0 <? total_calls_with_results
    then Some (Py.Float
                 (Py.round (Py.truediv successful total_calls_with_results * 100)%Q 1))
    else Contrarian_Success_Rate author_data in
  (* Update scores *)
  let current_total_score := Overall_Contrarian_Score author_data in
  let overall := Py.round (current_total_score + contrarian_score)%Q 2 in
  if total_contrarian_instances =? 0 then Py.Raise Py.ZeroDivisionError else
  let average := Py.round (overall / inject_Z total_contrarian_instances)%Q 2 in
  (* Check for repeat contrarian behavior *)
  let repeat_count :=
    if 1 <? total_contrarian_instances then total_contrarian_instances - 1
    else Repeat_Contrarian_Count author_data in
  (* Calculate consistency score *)
  if total_earnings_calls =? 0 then Py.Raise Py.ZeroDivisionError else
  let consistency := (Py.truediv total_contrarian_instances total_earnings_calls * 100)%Q in
  let updated :=
    {| Author_ID := Author_ID author_data;
       Author_Name := Author_Name author_data;
       First_Seen_Date := First_Seen_Date author_data;
       Last_Seen_Date := earnings_date;
       Total_Earnings_Calls := total_earnings_calls;
       Total_Companies_Covered := total_companies_covered;
       Total_Contrarian_Instances := total_contrarian_instances;
       Successful_Contrarian_Calls := successful;
       Failed_Contrarian_Calls := failed;
       Contrarian_Success_Rate := success_rate_cell;
       Overall_Contrarian_Score := overall;
       Average_Contrarian_Score_Per_Call := average;
       Companies_List := companies_list_cell;
       Latest_Company := company;
       Latest_Symbol := symbol;
       Latest_Earnings_Date := earnings_date;
       Latest_Contrarian_Type := contrarian_type;
       Latest_Was_Correct := was_correct;
       Repeat_Contrarian_Count := repeat_count;
       Consistency_Score := Py.round consistency 1;
       Risk_Level := Risk_Level author_data;
       Last_Updated := now |} in
  (* Determine risk level *)
  Py.Ok (set_Risk_Level (_calculate_risk_level updated) updated).

(** [_create_new_author_record]. *)
Definition _create_new_author_record
    (author_name author_id company symbol earnings_date : string)
    (contrarian_type : string) (was_correct : option bool)
    (contrarian_score : Q) (now : string) : AuthorRecord :=
  {| Author_ID := author_id;
     Author_Name := author_name;
     First_Seen_Date := earnings_date;
     Last_Seen_Date := earnings_date;
     Total_Earnings_Calls := 1;
     Total_Companies_Covered := 1;
     Total_Contrarian_Instances := 1;
     Successful_Contrarian_Calls :=
       match was_correct with Some true => 1 | _ => 0 end;
     Failed_Contrarian_Calls :=
       match was_correct with Some false => 1 | _ => 0 end;
     Contrarian_Success_Rate :=
       match was_correct with
       | Some true => Some (Py.Float 100)
       | Some false => Some (Py.Float 0)
       | None => None
       end;
     Overall_Contrarian_Score := contrarian_score;
     Average_Contrarian_Score_Per_Call := contrarian_score;
     Companies_List := Py.Str company;
     Latest_Company := company;
     Latest_Symbol := symbol;
     Latest_Earnings_Date := earnings_date;
     Latest_Contrarian_Type := contrarian_type;
     Latest_Was_Correct := was_correct;
     Repeat_Contrarian_Count := 0;
     Consistency_Score := 100%Q;
     Risk_Level := "New";
     Last_Updated := now |}.

(** [_save_author_history]: append one row to the author's history file
    (created when missing). The file is [author_id ++ "_history.csv"] in
    the directory of the histories, which holds no directory: [open] raises
    for an id with a [/]. *)
Definition _save_author_history
    (fs : DbFiles) (author_id author_name company symbol earnings_date : string)
    (contrarian_data : Contrarian) (was_correct : option bool)
    (now : string) : Py.result DbFiles :=
  if Py.has_char "/" author_id then Py.Raise Py.FileNotFoundError else
  let key_concerns_str := Py.join "; " (get (key_concerns contrarian_data) []) in
  let row :=
    {| Date_Added := now;
       H_Author_Name := author_name;
       Company := company;
       Symbol := symbol;
       Earnings_Date := earnings_date;
       Sentiment := get (sentiment contrarian_data) "N/A";
       Earnings_Prediction := get (earnings_prediction contrarian_data) "N/A";
       Contrarian_Type := _determine_contrarian_type contrarian_data;
       Contrarian_Score := get (contrarian_score contrarian_data) 0%Q;
       Was_Minority_Sentiment := get (was_minority_sentiment contrarian_data) false;
       Was_Minority_Prediction := get (was_minority_prediction contrarian_data) false;
       Was_Correct := was_correct;
       Reasoning := get (reasoning contrarian_data) "";
       Key_Concerns := key_concerns_str |} in
  Py.Ok
    {| master_csv := master_csv fs;
       author_histories :=
         <[author_id := (get (author_histories fs !! author_id) [] ++ [row])%list]>
           (author_histories fs) |}.

(** [_save_master_database]: rewrite the whole master file, one row per
    value of the dict. *)
Definition _save_master_database
    (fs : DbFiles) (data : gmap string AuthorRecord) : DbFiles :=
  {| master_csv := Some (Rows (map_to_list data).*2);
     author_histories := author_histories fs |}.

(** The body of the [for contrarian in contrarians] loop of
    [add_contrarian_analysis]: the state is [updated_data] and the files. *)
Definition process_contrarian
    (company symbol earnings_date : string) (actual_result : option ActualResult)
    (now : string) (st : gmap string AuthorRecord * DbFiles)
    (contrarian : Contrarian) : Py.result (gmap string AuthorRecord * DbFiles) :=
  let '(updated_data, fs) := st in
  let author_name := get (author contrarian) "Unknown" in
  let author_id := _generate_author_id author_name in
  (* Determine if this contrarian call was correct *)
  let was_correct := _evaluate_contrarian_accuracy contrarian actual_result in
  let contrarian_type := _determine_contrarian_type contrarian in
  let contrarian_score := get (contrarian_score contrarian) 0%Q in
  try! updated_data :=
    match updated_data !! author_id with
    | Some author_data =>
        try! author_data :=
          _update_existing_author author_data company symbol earnings_date
            contrarian_type was_correct contrarian_score now in
        Py.Ok (<[author_id := author_data]> updated_data)
    | None =>
        let author_data :=
          _create_new_author_record author_name author_id company symbol
            earnings_date contrarian_type was_correct contrarian_score now in
        Py.Ok (<[author_id := author_data]> updated_data)
    end in
  (* Save individual author history *)
  try! fs :=
    _save_author_history fs author_id author_name company symbol
      earnings_date contrarian was_correct now in
  Py.Ok (updated_data, fs).

Fixpoint process_contrarians
    (company symbol earnings_date : string) (actual_result : option ActualResult)
    (now : string) (st : gmap string AuthorRecord * DbFiles)
    (contrarians : list Contrarian) : Py.result (gmap string AuthorRecord * DbFiles) :=
  match contrarians with
  | [] => Py.Ok st
  | contrarian :: rest =>
      try! st := process_contrarian company symbol earnings_date actual_result
                   now st contrarian in
      process_contrarians company symbol earnings_date actual_result now st rest
  end.

(** [add_contrarian_analysis]: load, fold the batch in, save. An exception
    leaves the master file as it was; the history rows appended before it
    are not tracked. *)
Definition add_contrarian_analysis
    (fs : DbFiles) (report_data : ReportData) (contrarians : list Contrarian)
    (now : string) : Py.result DbFiles :=
  let company := get (company report_data) "Unknown" in
  let symbol := get (symbol report_data) "UNK" in
  let earnings_date := get (earnings_date report_data) "" in
  let actual_result := actual_result report_data in
  (* Load existing data *)
  let existing_data := _load_existing_data fs in
  let updated_data := existing_data in
  try! st := process_contrarians company symbol earnings_date actual_result now
               (updated_data, fs) contrarians in
  (* Save updated master database *)
  Py.Ok (_save_master_database (snd st) (fst st)).

(** *** Queries *)

(** The numeric columns of the master table. *)
Inductive NumericColumn :=
| Col_Total_Earnings_Calls
| Col_Total_Companies_Covered
| Col_Total_Contrarian_Instances
| Col_Successful_Contrarian_Calls
| Col_Failed_Contrarian_Calls
| Col_Contrarian_Success_Rate
| Col_Overall_Contrarian_Score
| Col_Average_Contrarian_Score_Per_Call
| Col_Repeat_Contrarian_Count
| Col_Consistency_Score.

(** The cell of a numeric column ([None]: a missing value). *)
Definition cell (c : NumericColumn) (r : AuthorRecord) : option Q :=
  match c with
  | Col_Total_Earnings_Calls => Some (inject_Z (Total_Earnings_Calls r))
  | Col_Total_Companies_Covered => Some (inject_Z (Total_Companies_Covered r))
  | Col_Total_Contrarian_Instances => Some (inject_Z (Total_Contrarian_Instances r))
  | Col_Successful_Contrarian_Calls => Some (inject_Z (Successful_Contrarian_Calls r))
  | Col_Failed_Contrarian_Calls => Some (inject_Z (Failed_Contrarian_Calls r))
  | Col_Contrarian_Success_Rate =>
      match Contrarian_Success_Rate r with
      | Some (Py.Float x) => Some x
      | _ => None
      end
  | Col_Overall_Contrarian_Score => Some (Overall_Contrarian_Score r)
  | Col_Average_Contrarian_Score_Per_Call => Some (Average_Contrarian_Score_Per_Call r)
  | Col_Repeat_Contrarian_Count => Some (inject_Z (Repeat_Contrarian_Count r))
  | Col_Consistency_Score => Some (Consistency_Score r)
  end.

Definition cell_ge (a b : option Q) : bool :=
  match a, b with
  | Some x, Some y => Py.ge x y
  | Some _, None => true
  | None, Some _ => false
  | None, None => true
  end.

Fixpoint insert_desc (c : NumericColumn) (x : AuthorRecord)
    (l : list AuthorRecord) : list AuthorRecord :=
  match l with
  | [] => [x]
  | y :: ys =>
      if cell_ge (cell c x) (cell c y) then x :: y :: ys
      else y :: insert_desc c x ys
  end.

(** [df.nlargest(n, column)]: the [n] first rows in descending order of
    the column, missing values last, ties in row order. The columns of a
    frame read from a file without rows have no numeric type, and
    [nlargest] raises on them. *)
Definition nlargest (n : Z) (c : NumericColumn)
    (df : list AuthorRecord) : Py.result (list AuthorRecord) :=
  match df with
  | [] => Py.Raise Py.TypeError
  | _ => Py.Ok (firstn (Z.to_nat n) (foldr (insert_desc c) [] df))
  end.

(** The queries only test [os.path.exists] and read: each returns its
    result, or the exception it raises, next to the files as they are after
    the call. *)

(** [get_author_history]: [None] when the author has no history file. *)
Definition get_author_history (fs : DbFiles) (author_name : string)
    : Py.result (option (list HistoryRow)) * DbFiles :=
  let author_id := _generate_author_id author_name in
  (Py.Ok (author_histories fs !! author_id), fs).

(** [get_top_contrarians]. *)
Definition get_top_contrarians (fs : DbFiles) (limit : Z) (sort_by : NumericColumn)
    : Py.result (list AuthorRecord) * DbFiles :=
  match master_csv fs with
  | Some file =>
      (try! df := read_csv file in nlargest limit sort_by df, fs)
  | None => (Py.Ok [], fs)
  end.

(** [get_repeat_contrarians]. *)
Definition get_repeat_contrarians (fs : DbFiles) (min_instances : Z)
    : Py.result (list AuthorRecord) * DbFiles :=
  match master_csv fs with
  | Some file =>
      (try! df := read_csv file in
       Py.Ok (List.filter
                (fun r => min_instances <=? Total_Contrarian_Instances r) df),
       fs)
  | None => (Py.Ok [], fs)
  end.

(** Ledgers that the code itself produces: a fresh database directory,
    then any number of batches merged without an exception. *)
Inductive reachable : DbFiles -> Prop :=
| reachable_init : reachable (_initialize_master_csv no_files)
| reachable_add fs report_data contrarians now fs' :
    reachable fs ->
    add_contrarian_analysis fs report_data contrarians now = Py.Ok fs' ->
    reachable fs'.

End MasterContrarianDatabase.

(** ** The production analyzer
    ([contrarian_earnings_analyzer_production.py]) *)

Module ProductionContrarianEarningsAnalyzer.

(** The [analysis] dict of an article: [sentiment] and
    [earnings_prediction] are indexed directly, the other keys are read
    with [.get]. *)
Module Analysis.
Record t := {
  sentiment : string;
  earnings_prediction : string;
  confidence : option string;
  prediction_confidence : option string;
  reasoning : option string;
  key_concerns : option (list string);
  contrarian_indicators : option (list string)
}.
End Analysis.

(** An analyzed article; [analysis = None] is a failed analysis. *)
Module Article.
Record t := {
  author : string;
  headline : string;
  date : string;
  url : string;
  section : option string;
  word_count : option Z;
  analysis : option Analysis.t
}.
End Article.

(** The dict returned by [get_actual_earnings_result] (the two keys that
    [identify_contrarians] reads). *)
Module ActualResult.
Record t := {
  price_change_percent : Q;
  result : string
}.
End ActualResult.

(** The dict appended to [contrarians]. *)
Module Contrarian.
Record t := {
  author : string;
  headline : string;
  date : string;
  url : string;
  section : string;
  word_count : Z;
  sentiment : string;
  prediction : string;
  sentiment_percentage : Q;
  prediction_percentage : Q;
  was_minority_sentiment : bool;
  was_minority_prediction : bool;
  sentiment_correct : bool;
  prediction_correct : bool;
  contrarian_score : Q;
  reasoning : string;
  key_concerns : list string;
  confidence : string;
  prediction_confidence : string;
  contrarian_indicators : list string;
  actual_result_available : bool
}.
End Contrarian.

Definition get {A} (o : option A) (default : A) : A :=
  match o with Some a => a | None => default end.

(** [analysis.get(key) == value]. *)
Definition get_eq (o : option string) (value : string) : bool :=
  match o with Some s => String.eqb s value | None => false end.

(** [[article for article in analyzed_articles if article.get('analysis')]],
    each article paired with its analysis. *)
Definition valid_articles (analyzed_articles : list Article.t)
    : list (Article.t * Analysis.t) :=
  omap (fun article => pair article <$> Article.analysis article) analyzed_articles.

(** The sentiment the actual price move stands for. *)
Definition actual_sentiment (actual_result : ActualResult.t) : string :=
  if Py.gt (ActualResult.price_change_percent actual_result) 3 then "bullish"
  else if Py.lt (ActualResult.price_change_percent actual_result) (-3) then "bearish"
  else "neutral".

(** The locals [sentiment_correct], [prediction_correct] and [was_correct]
    after the [if actual_result:] block. *)
Definition sentiment_correct (analysis : Analysis.t)
    (actual_result : option ActualResult.t) : bool :=
  match actual_result with
  | Some actual_result =>
      String.eqb (Analysis.sentiment analysis) (actual_sentiment actual_result)
  | None => false
  end.

Definition prediction_correct (analysis : Analysis.t)
    (actual_result : option ActualResult.t) : bool :=
  match actual_result with
  | Some actual_result =>
      String.eqb (Analysis.earnings_prediction analysis)
        (ActualResult.result actual_result)
  | None => false
  end.

Definition was_correct (analysis : Analysis.t)
    (actual_result : option ActualResult.t) : bool :=
  match actual_result with
  | Some _ =>
      sentiment_correct analysis actual_result
      || prediction_correct analysis actual_result
  | None => false
  end.

(** [20 if c == 'high' else 10 if c == 'medium' else 5]. *)
Definition confidence_bonus (c : option string) : Q :=
  if get_eq c "high" then 20 else if get_eq c "medium" then 10 else 5.

(** The body of the [for article in valid_articles] loop: the dict
    appended to [contrarians], if any. *)
Definition examine_article
    (sentiment_counts prediction_counts : string -> Z) (total_articles : Z)
    (actual_result : option ActualResult.t)
    (entry : Article.t * Analysis.t) : option Contrarian.t :=
  let '(article, analysis) := entry in
  let author_sentiment := Analysis.sentiment analysis in
  let author_prediction := Analysis.earnings_prediction analysis in
  (* Calculate minority status (threshold: less than 40% of total) *)
  let sentiment_percentage := Py.truediv (sentiment_counts author_sentiment) total_articles in
  let prediction_percentage := Py.truediv (prediction_counts author_prediction) total_articles in
  let is_minority_sentiment := Py.lt sentiment_percentage (4 # 10) in
  let is_minority_prediction := Py.lt prediction_percentage (4 # 10) in
  (* Check correctness against actual results *)
  let sentiment_correct := sentiment_correct analysis actual_result in
  let prediction_correct := prediction_correct analysis actual_result in
  if is_minority_sentiment || is_minority_prediction then
    let contrarian_score := 0%Q in
    let contrarian_score :=
      if is_minority_sentiment then
        let minority_factor := ((1 - sentiment_percentage) * 100)%Q in
        let confidence_bonus := confidence_bonus (Analysis.confidence analysis) in
        let base_score := (minority_factor + confidence_bonus)%Q in
        let base_score :=
          if bool_decide (is_Some actual_result) && sentiment_correct
          then (base_score * (15 # 10))%Q else base_score in
        (contrarian_score + base_score)%Q
      else contrarian_score in
    let contrarian_score :=
      if is_minority_prediction then
        let minority_factor := ((1 - prediction_percentage) * 100)%Q in
        let confidence_bonus :=
          confidence_bonus (Analysis.prediction_confidence analysis) in
        let base_score := (minority_factor + confidence_bonus)%Q in
        let base_score :=
          if bool_decide (is_Some actual_result) && prediction_correct
          then (base_score * (15 # 10))%Q else base_score in
        (contrarian_score + base_score)%Q
      else contrarian_score in
    Some {|
      Contrarian.author := Article.author article;
      Contrarian.headline := Article.headline article;
      Contrarian.date := Article.date article;
      Contrarian.url := Article.url article;
      Contrarian.section := get (Article.section article) "N/A";
      Contrarian.word_count := get (Article.word_count article) 0;
      Contrarian.sentiment := author_sentiment;
      Contrarian.prediction := author_prediction;
      Contrarian.sentiment_percentage := Py.round (sentiment_percentage * 100)%Q 1;
      Contrarian.prediction_percentage := Py.round (prediction_percentage * 100)%Q 1;
      Contrarian.was_minority_sentiment := is_minority_sentiment;
      Contrarian.was_minority_prediction := is_minority_prediction;
      Contrarian.sentiment_correct := sentiment_correct;
      Contrarian.prediction_correct := prediction_correct;
      Contrarian.contrarian_score := Py.round contrarian_score 2;
      Contrarian.reasoning := get (Analysis.reasoning analysis) "";
      Contrarian.key_concerns := get (Analysis.key_concerns analysis) [];
      Contrarian.confidence := get (Analysis.confidence analysis) "unknown";
      Contrarian.prediction_confidence :=
        get (Analysis.prediction_confidence analysis) "unknown";
      Contrarian.contrarian_indicators :=
        get (Analysis.contrarian_indicators analysis) [];
      Contrarian.actual_result_available := bool_decide (is_Some actual_result)
    |}
  else None.

(** [contrarians.sort(key=lambda x: x['contrarian_score'], reverse=True)]:
    a stable sort, highest score first. *)
Fixpoint insert_by_score (x : Contrarian.t) (l : list Contrarian.t)
    : list Contrarian.t :=
  match l with
  | [] => [x]
  | y :: ys =>
      if Py.ge (Contrarian.contrarian_score x) (Contrarian.contrarian_score y)
      then x :: y :: ys
      else y :: insert_by_score x ys
  end.

Definition sort_by_score (l : list Contrarian.t) : list Contrarian.t :=
  foldr insert_by_score [] l.

(** [identify_contrarians]. *)
Definition identify_contrarians (analyzed_articles : list Article.t)
    (actual_result : option ActualResult.t) : list Contrarian.t :=
  let valid_articles := valid_articles analyzed_articles in
  match valid_articles with
  | [] => []
  | _ =>
      (* Count distributions *)
      let sentiment_counts :=
        Py.Counter (map (fun e => Analysis.sentiment (snd e)) valid_articles) in
      let prediction_counts :=
        Py.Counter (map (fun e => Analysis.earnings_prediction (snd e)) valid_articles) in
      let total_articles := Z.of_nat (length valid_articles) in
      let contrarians :=
        omap (examine_article sentiment_counts prediction_counts total_articles
                actual_result) valid_articles in
      sort_by_score contrarians
  end.

End ProductionContrarianEarningsAnalyzer.

(** ** The simplified analyzer ([simplified_contrarian_analyzer.py]) *)

Module SimplifiedContrarianAnalyzer.

Module Analysis.
Record t := {
  sentiment : string;
  earnings_prediction : string
}.
End Analysis.

Module Article.
Record t := {
  author : string;
  headline : string;
  url : string;
  company : option string;
  symbol : option string;
  earnings_date : option string;
  analysis : option Analysis.t
}.
End Article.

Module ActualResult.
Record t := {
  price_change_percent : Q;
  result : string
}.
End ActualResult.

(** The dataclass [ContrarianRecord]. *)
Module ContrarianRecord.
Record t := {
  author : string;
  company : string;
  symbol : string;
  earnings_date : string;
  prediction : string;
  sentiment : string;
  was_contrarian : bool;
  was_correct : bool;
  actual_result : string;
  date_analyzed : string;
  headline : string;
  url : string
}.
End ContrarianRecord.

Definition get {A} (o : option A) (default : A) : A :=
  match o with Some a => a | None => default end.

Definition valid_articles (analyzed_articles : list Article.t)
    : list (Article.t * Analysis.t) :=
  omap (fun article => pair article <$> Article.analysis article) analyzed_articles.

(** [Counter(l).most_common(1)[0][0]] for a non-empty [l]: the most
    frequent element, the first one seen among equals. *)
Definition most_common (l : list string) (default : string) : string :=
  fold_left
    (fun best x => if Py.Counter l best <? Py.Counter l x then x else best)
    l (hd default l).

(** The local [was_correct] of the loop body. *)
Definition was_correct (analysis : Analysis.t)
    (actual_result : option ActualResult.t) : bool :=
  match actual_result with
  | Some actual_result =>
      let prediction_correct :=
        String.eqb (Analysis.earnings_prediction analysis)
          (ActualResult.result actual_result) in
      let actual_sentiment :=
        if Py.gt (ActualResult.price_change_percent actual_result) 3 then "bullish"
        else if Py.lt (ActualResult.price_change_percent actual_result) (-3) then "bearish"
        else "neutral" in
      let sentiment_correct :=
        String.eqb (Analysis.sentiment analysis) actual_sentiment in
      prediction_correct || sentiment_correct
  | None => false
  end.

(** [identify_contrarians]; [today] is the reading of [datetime.now()]. *)
Definition identify_contrarians (analyzed_articles : list Article.t)
    (actual_result : option ActualResult.t) (today : string)
    : list ContrarianRecord.t :=
  let valid_articles := valid_articles analyzed_articles in
  match valid_articles with
  | [] => []
  | _ =>
      (* Determine consensus (most common view) *)
      let consensus_sentiment :=
        most_common (map (fun e => Analysis.sentiment (snd e)) valid_articles) "" in
      let consensus_prediction :=
        most_common (map (fun e => Analysis.earnings_prediction (snd e)) valid_articles) "" in
      map (fun '(article, analysis) =>
             (* Simple contrarian identification *)
             let is_contrarian :=
               negb (String.eqb (Analysis.sentiment analysis) consensus_sentiment)
               || negb (String.eqb (Analysis.earnings_prediction analysis)
                          consensus_prediction) in
             {| ContrarianRecord.author := Article.author article;
                ContrarianRecord.company := get (Article.company article) "";
                ContrarianRecord.symbol := get (Article.symbol article) "";
                ContrarianRecord.earnings_date := get (Article.earnings_date article) "";
                ContrarianRecord.prediction := Analysis.earnings_prediction analysis;
                ContrarianRecord.sentiment := Analysis.sentiment analysis;
                ContrarianRecord.was_contrarian := is_contrarian;
                ContrarianRecord.was_correct := was_correct analysis actual_result;
                ContrarianRecord.actual_result :=
                  match actual_result with
                  | Some actual_result => ActualResult.result actual_result
                  | None => "unknown"
                  end;
                ContrarianRecord.date_analyzed := today;
                ContrarianRecord.headline := Article.headline article;
                ContrarianRecord.url := Article.url article |})
          valid_articles
  end.

End SimplifiedContrarianAnalyzer.

(** Short names for the modules. *)
Module P := ProductionContrarianEarningsAnalyzer.
Module S := SimplifiedContrarianAnalyzer.
Module L := MasterContrarianDatabase.

(** ** From the analyzer's report to the ledger
    ([contrarian_csv_exporter.py], [update_master_contrarian_database]) *)

Module ContrarianCSVExporter.

(** The keys of the report of [analyze_company_earnings] that the ledger
    reads. *)
Record Report := {
  company : string;
  symbol : string;
  earnings_date : string;
  actual_result : option P.ActualResult.t;
  contrarian_analysts : list P.Contrarian.t
}.

(** A dict of [report['contrarian_analysts']] read through the keys the
    ledger asks for. The analyzer stores the prediction under the key
    ['prediction']; the ledger asks for ['earnings_prediction'], which the
    dict does not have. *)
Definition ledger_contrarian (c : P.Contrarian.t) : L.Contrarian :=
  {| L.author := Some (P.Contrarian.author c);
     L.sentiment := Some (P.Contrarian.sentiment c);
     L.earnings_prediction := None;
     L.was_minority_sentiment := Some (P.Contrarian.was_minority_sentiment c);
     L.was_minority_prediction := Some (P.Contrarian.was_minority_prediction c);
     L.contrarian_score := Some (P.Contrarian.contrarian_score c);
     L.reasoning := Some (P.Contrarian.reasoning c);
     L.key_concerns := Some (P.Contrarian.key_concerns c) |}.

Definition ledger_report (report_data : Report) : L.ReportData :=
  {| L.company := Some (company report_data);
     L.symbol := Some (symbol report_data);
     L.earnings_date := Some (earnings_date report_data);
     L.actual_result :=
       (fun r => {| L.result := Some (P.ActualResult.result r) |})
         <$> actual_result report_data |}.

(** [update_master_contrarian_database]: nothing to do without contrarians;
    an exception is printed and swallowed (the master file is as it was;
    the history rows appended before the exception are not tracked). *)
Definition update_master_contrarian_database
    (fs : L.DbFiles) (report_data : Report) (now : string) : L.DbFiles :=
  match contrarian_analysts report_data with
  | [] => fs
  | contrarians =>
      match L.add_contrarian_analysis fs (ledger_report report_data)
              (map ledger_contrarian contrarians) now with
      | Py.Ok fs' => fs'
      | Py.Raise _ => fs
      end
  end.

End ContrarianCSVExporter.

Module X := ContrarianCSVExporter.

(** * Definitions used by the statements *)

(** ** The risk tier *)

(** The risk tier as the specification words it: unknown with fewer than 2
    contrarian instances or an undefined success rate; low-risk from a
    success rate of 70 with 3 instances; high-risk below a success rate of
    30 or a consistency of 20; medium-risk otherwise. *)
Definition spec_risk_tier
    (success_rate : option Q) (instances : Z) (consistency : Q) : string :=
  match success_rate with
  | None => "Unknown"
  | Some success_rate =>
      if instances <? 2 then "Unknown"
      else if Py.ge success_rate 70 && (3 <=? instances) then "Low_Risk"
      else if Py.lt success_rate 30 || Py.lt consistency 20 then "High_Risk"
      else "Medium_Risk"
  end.

(** The success rate as the specification has it: a number, or
    undefined. *)
Definition defined_rate (author_data : L.AuthorRecord) : option Q :=
  match L.Contrarian_Success_Rate author_data with
  | Some (Py.Float r) => Some r
  | _ => None
  end.

(** ** The scoring formula in words *)

(** The confidence bonus: +20 for high, +10 for medium, +5 for anything
    else, a missing confidence included. *)
Definition amended_confidence_bonus (confidence : option string) : Q :=
  match confidence with
  | Some c =>
      if String.eqb c "high" then 20 else if String.eqb c "medium" then 10 else 5
  | None => 5
  end.

(** What one dimension adds to the score: nothing unless it is minority;
    otherwise (1 - share) x 100 plus the bonus, times 1.5 when an outcome
    exists and the dimension is correct. *)
Definition dimension_contribution
    (minority : bool) (share : Q) (confidence : option string)
    (outcome_exists correct : bool) : Q :=
  if minority
  then (((1 - share) * 100 + amended_confidence_bonus confidence)
        * (if outcome_exists && correct then 15 # 10 else 1))%Q
  else 0%Q.

(** The share of a batch that holds the sentiment, or the prediction, of an
    analysis. *)
Definition sentiment_share
    (valid : list (P.Article.t * P.Analysis.t)) (analysis : P.Analysis.t) : Q :=
  Py.truediv
    (Py.Counter (map (fun e => P.Analysis.sentiment (snd e)) valid)
       (P.Analysis.sentiment analysis))
    (Z.of_nat (length valid)).

Definition prediction_share
    (valid : list (P.Article.t * P.Analysis.t)) (analysis : P.Analysis.t) : Q :=
  Py.truediv
    (Py.Counter (map (fun e => P.Analysis.earnings_prediction (snd e)) valid)
       (P.Analysis.earnings_prediction analysis))
    (Z.of_nat (length valid)).

(** The sum of the contributions of the two dimensions, minority below a
    share of 0.4. *)
Definition sum_of_contributions
    (valid : list (P.Article.t * P.Analysis.t))
    (actual_result : option P.ActualResult.t) (analysis : P.Analysis.t) : Q :=
  let outcome_exists := bool_decide (is_Some actual_result) in
  (dimension_contribution (Py.lt (sentiment_share valid analysis) (4 # 10))
     (sentiment_share valid analysis) (P.Analysis.confidence analysis)
     outcome_exists (P.sentiment_correct analysis actual_result)
   + dimension_contribution (Py.lt (prediction_share valid analysis) (4 # 10))
       (prediction_share valid analysis)
       (P.Analysis.prediction_confidence analysis)
       outcome_exists (P.prediction_correct analysis actual_result))%Q.

(** The score in words: that sum, rounded to two decimals. *)
Definition amended_score
    (valid : list (P.Article.t * P.Analysis.t))
    (actual_result : option P.ActualResult.t) (analysis : P.Analysis.t) : Q :=
  Py.round (sum_of_contributions valid actual_result analysis) 2.

(** ** Texts that the CSV file gives back *)

(** Every character of [s] passes [p]. *)
Fixpoint all_chars (p : ascii -> bool) (s : string) : bool :=
  match s with
  | EmptyString => true
  | String c s' => p c && all_chars p s'
  end.

Definition letter (c : ascii) : bool :=
  let n := nat_of_ascii c in
  ((65 <=? n) && (n <=? 90) || (97 <=? n) && (n <=? 122))%nat.

Definition printable (c : ascii) : bool :=
  let n := nat_of_ascii c in ((32 <=? n) && (n <=? 126))%nat.

(** The lower-case spellings that [pd.read_csv] reads as a missing value,
    a boolean or a float. *)
Definition reserved_words : list string :=
  ["na"; "nan"; "null"; "none"; "n/a"; "inf"; "infinity"; "true"; "false"].

(** A text that [pd.read_csv] gives back as it was written, whatever the
    other cells of its column hold: printable ASCII that starts with a
    letter and is none of the reserved words. *)
Definition plain_text (s : string) : bool :=
  match s with
  | EmptyString => false
  | String c _ =>
      letter c && all_chars printable s
      && negb (Py.contains (Py.lower s) reserved_words)
  end.

(** An author id under which a row is found again after a reload and that
    names a history file: plain text of at most 200 characters without
    [/]. *)
Definition plain_id (id : string) : bool :=
  plain_text id && negb (Py.has_char "/" id) && (String.length id <=? 200)%nat.

(** ** Well-formed ledgers *)

Section LedgerDefinitions.

Import MasterContrarianDatabase.
#[local] Open Scope Q_scope.

(** The key under which a contrarian is merged. *)
Definition contrarian_id (c : Contrarian) : string :=
  _generate_author_id (get (author c) "Unknown").

(** Every row sits under its own [Author_ID]. *)
Definition keys_ok (t : gmap string AuthorRecord) : Prop :=
  forall id e, t !! id = Some e -> Author_ID e = id.

Definition keyed (row : AuthorRecord) : string * AuthorRecord :=
  (Author_ID row, row).

(** What every row written by the code satisfies. Both counters of step 1
    move together, so the consistency score never leaves 100. *)
Record entry_ok (e : AuthorRecord) : Prop := {
  ok_calls : Total_Earnings_Calls e = Total_Contrarian_Instances e;
  ok_instances : (1 <= Total_Contrarian_Instances e)%Z;
  ok_successful : (0 <= Successful_Contrarian_Calls e)%Z;
  ok_failed : (0 <= Failed_Contrarian_Calls e)%Z;
  ok_rate :
    match Contrarian_Success_Rate e with
    | Some (Py.Float r) =>
        (0 < Successful_Contrarian_Calls e + Failed_Contrarian_Calls e)%Z
        /\ r = Py.round
                 (Py.truediv (Successful_Contrarian_Calls e)
                    (Successful_Contrarian_Calls e + Failed_Contrarian_Calls e)
                  * 100) 1
    | _ => (Successful_Contrarian_Calls e + Failed_Contrarian_Calls e = 0)%Z
    end;
  ok_consistency : Consistency_Score e = 100
}.

Definition table_ok (t : gmap string AuthorRecord) : Prop :=
  forall id e, t !! id = Some e -> entry_ok e.

(** The success and failure counters found under an identity (0 and 0 when
    there is no row). *)
Definition tally (t : gmap string AuthorRecord) (id : string) : Z * Z :=
  match t !! id with
  | Some e => (Successful_Contrarian_Calls e, Failed_Contrarian_Calls e)
  | None => (0, 0)%Z
  end.

End LedgerDefinitions.

(** ** Sample data ([demos/demo_master_contrarian_tracking.py]) *)

Module Demo.

Import MasterContrarianDatabase.

Definition john_smith_aapl : Contrarian :=
  {| author := Some "John Smith";
     sentiment := Some "bullish";
     earnings_prediction := Some "beat";
     was_minority_sentiment := Some true;
     was_minority_prediction := Some true;
     contrarian_score := Some (85 # 10)%Q;
     reasoning := Some "Strong iPhone sales expected despite market pessimism";
     key_concerns := Some ["Supply chain improvements"; "Holiday sales momentum"] |}.

Definition sarah_johnson_aapl : Contrarian :=
  {| author := Some "Sarah Johnson";
     sentiment := Some "bearish";
     earnings_prediction := Some "beat";
     was_minority_sentiment := Some false;
     was_minority_prediction := Some true;
     contrarian_score := Some (72 # 10)%Q;
     reasoning := Some "Earnings will beat but stock overvalued";
     key_concerns := Some ["Valuation concerns"; "Market saturation"] |}.

Definition john_smith_msft : Contrarian :=
  {| author := Some "John Smith";
     sentiment := Some "bearish";
     earnings_prediction := Some "miss";
     was_minority_sentiment := Some true;
     was_minority_prediction := Some true;
     contrarian_score := Some (91 # 10)%Q;
     reasoning := Some "Cloud growth slowing, Azure competition intensifying";
     key_concerns := Some ["Azure growth deceleration"; "Increased competition"] |}.

Definition aapl_report : ReportData :=
  {| company := Some "Apple Inc.";
     symbol := Some "AAPL";
     earnings_date := Some "2024-01-25";
     actual_result := Some {| result := Some "beat" |} |}.

Definition msft_report : ReportData :=
  {| company := Some "Microsoft Corporation";
     symbol := Some "MSFT";
     earnings_date := Some "2024-01-24";
     actual_result := Some {| result := Some "miss" |} |}.

(** The Apple report before the earnings are out. *)
Definition aapl_report_unresolved : ReportData :=
  {| company := Some "Apple Inc.";
     symbol := Some "AAPL";
     earnings_date := Some "2024-01-25";
     actual_result := None |}.

Definition fresh : DbFiles := _initialize_master_csv no_files.

(** The ledger after the Apple report, or the fresh one if that raised. *)
Definition after_aapl : DbFiles :=
  match add_contrarian_analysis fresh aapl_report
          [john_smith_aapl; sarah_johnson_aapl] "2024-01-26 09:00:00" with
  | Py.Ok fs => fs
  | Py.Raise _ => fresh
  end.

End Demo.

(** ** Sample batches *)

Module Batch.

Definition analysis (sentiment prediction : string)
    (confidence prediction_confidence : option string) : P.Analysis.t :=
  {| P.Analysis.sentiment := sentiment;
     P.Analysis.earnings_prediction := prediction;
     P.Analysis.confidence := confidence;
     P.Analysis.prediction_confidence := prediction_confidence;
     P.Analysis.reasoning := None;
     P.Analysis.key_concerns := None;
     P.Analysis.contrarian_indicators := None |}.

Definition article (author : string) (a : option P.Analysis.t) : P.Article.t :=
  {| P.Article.author := author;
     P.Article.headline := "Earnings preview";
     P.Article.date := "2024-10-20";
     P.Article.url := "https://example.org/preview";
     P.Article.section := None;
     P.Article.word_count := None;
     P.Article.analysis := a |}.

(** One bullish voice that expects a miss, stated without any confidence,
    among four bearish ones that expect a beat. *)
Definition alice : P.Article.t :=
  article "Alice Moore" (Some (analysis "bullish" "miss" None None)).

Definition crowd (name : string) : P.Article.t :=
  article name (Some (analysis "bearish" "beat" (Some "high") (Some "high"))).

Definition five : list P.Article.t :=
  [crowd "Bob Lee"; alice; crowd "Carol Diaz"; crowd "Dan Wu"; crowd "Eve Park"].

(** The same batch where only the sentiment of the lone voice differs. *)
Definition five_sentiment_only : list P.Article.t :=
  [crowd "Bob Lee";
   article "Alice Moore" (Some (analysis "bullish" "beat" None None));
   crowd "Carol Diaz"; crowd "Dan Wu"; crowd "Eve Park"].

(** The stock rose by 5%: the move reads as bullish, the result as a
    beat. *)
Definition rose : P.ActualResult.t :=
  {| P.ActualResult.price_change_percent := 5; P.ActualResult.result := "beat" |}.

Definition report (actual_result : option P.ActualResult.t)
    : ContrarianCSVExporter.Report :=
  {| ContrarianCSVExporter.company := "Apple Inc.";
     ContrarianCSVExporter.symbol := "AAPL";
     ContrarianCSVExporter.earnings_date := "2024-11-01";
     ContrarianCSVExporter.actual_result := actual_result;
     ContrarianCSVExporter.contrarian_analysts :=
       P.identify_contrarians five actual_result |}.

Definition simple_article (author sentiment prediction : string) : S.Article.t :=
  {| S.Article.author := author;
     S.Article.headline := "Earnings preview";
     S.Article.url := "https://example.org/preview";
     S.Article.company := Some "Apple Inc.";
     S.Article.symbol := Some "AAPL";
     S.Article.earnings_date := Some "2024-11-01";
     S.Article.analysis :=
       Some {| S.Analysis.sentiment := sentiment;
               S.Analysis.earnings_prediction := prediction |} |}.

(** The lone voice of [Batch.five] as a dict that does carry the key
    ['earnings_prediction'], in the layout of the demo reports. *)
Definition alice_with_prediction_key : L.Contrarian :=
  {| L.author := Some "Alice Moore";
     L.sentiment := Some "bullish";
     L.earnings_prediction := Some "miss";
     L.was_minority_sentiment := Some true;
     L.was_minority_prediction := Some true;
     L.contrarian_score := Some (425 # 2);
     L.reasoning := None;
     L.key_concerns := None |}.

End Batch.

(** * Further definitions for the ledger *)

Section LedgerCounting.

Import MasterContrarianDatabase.

(** A counter of the row found under an identity, 0 without a row. *)
Definition field_or_zero (field : AuthorRecord -> Z)
    (t : gmap string AuthorRecord) (id : string) : Z :=
  match t !! id with
  | Some e => field e
  | None => 0
  end.

(** The findings of a batch that are merged under an identity, in batch
    order. *)
Definition findings_of (id : string) (contrarians : list Contrarian)
    : list Contrarian :=
  List.filter (fun c => String.eqb (contrarian_id c) id) contrarians.

(** Those of them that the ledger evaluates as [verdict]. *)
Definition findings_with_verdict (actual_result : option ActualResult)
    (verdict : option bool) (id : string) (contrarians : list Contrarian)
    : list Contrarian :=
  List.filter
    (fun c =>
       bool_decide (_evaluate_contrarian_accuracy c actual_result = verdict))
    (findings_of id contrarians).

(** Every row of a table sits under a plain id. *)
Definition plain_ids (t : gmap string AuthorRecord) : Prop :=
  map_Forall (fun id _ => plain_id id = true) t.


(** What merging the finding [c] of a report writes into the "latest"
    fields of the author's row. *)
Definition latest_from (company symbol earnings_date : string)
    (actual_result : option ActualResult) (now : string)
    (c : Contrarian) (e' : AuthorRecord) : Prop :=
  Last_Seen_Date e' = earnings_date
  /\ Latest_Earnings_Date e' = earnings_date
  /\ Latest_Company e' = company
  /\ Latest_Symbol e' = symbol
  /\ Latest_Contrarian_Type e' = _determine_contrarian_type c
  /\ Latest_Was_Correct e' = _evaluate_contrarian_accuracy c actual_result
  /\ Last_Updated e' = now.

(** The history of an author, empty without a history file. *)
Definition history_of (fs : DbFiles) (id : string) : list HistoryRow :=
  get (author_histories fs !! id) [].

(** What every row of a ledger produced by the code satisfies, besides
    [entry_ok]. *)
Record row_ok (id : string) (e : AuthorRecord) : Prop := {
  row_key : Author_ID e = id;
  row_name : _generate_author_id (Author_Name e) = id;
  row_repeat : Repeat_Contrarian_Count e = Total_Contrarian_Instances e - 1;
  row_new : Risk_Level e = "New" <-> Total_Contrarian_Instances e = 1;
  row_latest : Latest_Earnings_Date e = Last_Seen_Date e;
  row_companies : 1 <= Total_Companies_Covered e
}.

(** The files of a ledger produced by the code: the master file exists and
    lists the values of a dict of well-formed rows, and the history of an
    author has one row per contrarian instance. *)
Record files_ok (fs : DbFiles) : Prop := {
  files_master :
    exists t, keys_ok t /\ master_csv fs = Some (Rows (map_to_list t).*2);
  files_rows :
    forall id e, _load_existing_data fs !! id = Some e -> entry_ok e /\ row_ok id e;
  files_history :
    forall id,
      Z.of_nat (length (history_of fs id))
      = field_or_zero Total_Contrarian_Instances (_load_existing_data fs) id;
  files_history_dom :
    forall id,
      is_Some (author_histories fs !! id) <-> is_Some (_load_existing_data fs !! id)
}.

End LedgerCounting.

(** ** Orders used by the sorts *)

(** Highest cell first, empty cells last. *)
Definition by_cell_desc (c : L.NumericColumn) (x y : L.AuthorRecord) : Prop :=
  L.cell_ge (L.cell c x) (L.cell c y) = true.

(** Highest score first. *)
Definition by_score_desc (x y : P.Contrarian.t) : Prop :=
  Py.ge (P.Contrarian.contrarian_score x) (P.Contrarian.contrarian_score y) = true.

(** * Further parts of the code *)

(** ** Characters of a string *)

(** A character of the ASCII range, on which [str.lower] lowers the letters
    A to Z and nothing else. *)
Definition ascii_char (c : ascii) : bool := (nat_of_ascii c <? 128)%nat.

(** A character that [_generate_author_id] leaves alone: no upper-case
    letter, no space, full stop or comma. *)
Definition id_char (c : ascii) : bool :=
  Ascii.eqb (Py.lower_ascii c) c
  && negb (Ascii.eqb c " ") && negb (Ascii.eqb c ".") && negb (Ascii.eqb c ",").

(** A string without the character [sep]. *)
Definition no_separator (sep : ascii) (s : string) : bool :=
  all_chars (fun c => negb (Ascii.eqb c sep)) s.

(** A string without the separator of [Companies_List]. *)
Definition no_semicolon (s : string) : bool := no_separator ";" s.

(** The sum of [g] over a list. *)
Definition sum_over {A} (g : A -> Z) (l : list A) : Z :=
  foldr (fun a acc => g a + acc) 0 l.

(** ** The companies of a ledger row *)

(** What [_update_existing_author] splits [Companies_List] into (nothing
    for a cell that was read as NaN). *)
Definition companies_of (e : L.AuthorRecord) : list string :=
  match L.Companies_List e with
  | Py.Str s => Py.split ";" s
  | Py.NaNCell => []
  end.

(** [Total_Companies_Covered] counts the entries of [Companies_List], and
    no company is listed twice. *)
Definition companies_ok (e : L.AuthorRecord) : Prop :=
  L.Total_Companies_Covered e = Z.of_nat (length (companies_of e))
  /\ NoDup (companies_of e).

(** The [Companies_List] of a row is read back as it is. *)
Definition companies_read_back (e : L.AuthorRecord) : Prop :=
  Py.read_text (L.Companies_List e) = L.Companies_List e.

(** Both together: what a merge keeps of the companies of a row. *)
Definition companies_fine (e : L.AuthorRecord) : Prop :=
  companies_ok e /\ companies_read_back e.

(** The findings of a batch that state a prediction under the key the
    ledger reads. *)
Definition with_prediction (contrarians : list L.Contrarian) : list L.Contrarian :=
  List.filter (fun c => Py.truthy (L.get (L.earnings_prediction c) "")) contrarians.

(** ** The ledger update of the pipeline ([core/automated_pipeline.py]) *)

Module AutomatedPipeline.

(** The keys of [current_run_data] that
    [_update_master_contrarian_database] reads: the contrarian dicts, the
    key [target_companies] of [run_config] ([None]: the key is missing) and
    [start_time] ([None]: the value [None]). *)
Record RunData := {
  contrarians : list L.Contrarian;
  target_companies : option (list string);
  start_time : option string
}.

(** How the call ends: nothing to merge, the batch merged, or an exception
    caught and appended to [current_run_data['errors']] (the master file is
    as it was; the history rows appended before the exception are not
    tracked). *)
Inductive Outcome :=
| NothingToUpdate
| Updated
| UpdateFailed.

(** The [report_data] dict; [None] is the [IndexError] of [[...][0]] on an
    empty [target_companies]. *)
Definition report_data (run : RunData) : option L.ReportData :=
  match head (L.get (target_companies run) ["Unknown"]),
        head (L.get (target_companies run) ["UNK"]) with
  | Some company, Some symbol =>
      Some {| L.company := Some company;
              L.symbol := Some symbol;
              L.earnings_date :=
                Some match start_time run with
                     | Some start_time =>
                         if Py.truthy start_time then substring 0 10 start_time
                         else ""
                     | None => ""
                     end;
              L.actual_result := Some {| L.result := Some "unknown" |} |}
  | _, _ => None
  end.

(** [_update_master_contrarian_database]. *)
Definition _update_master_contrarian_database
    (fs : L.DbFiles) (run : RunData) (now : string) : L.DbFiles * Outcome :=
  match contrarians run with
  | [] => (fs, NothingToUpdate)
  | contrarians =>
      match report_data run with
      | Some report_data =>
          match L.add_contrarian_analysis fs report_data contrarians now with
          | Py.Ok fs' => (fs', Updated)
          | Py.Raise _ => (fs, UpdateFailed)
          end
      | None => (fs, UpdateFailed)
      end
  end.

End AutomatedPipeline.

(** ** The actual result ([get_actual_earnings_result]) *)

(** The two analyzers read the outcome from the closing prices around the
    earnings date. The functions below start from the price history:
    [close] is the column [hist['Close']], [earnings_price_idx] the index
    of the trading day nearest to the earnings date. An index outside the
    column is the [IndexError] that the code catches and turns into
    [None]. A closing price of 0, for which numpy yields an infinity or a
    NaN, is outside the model. *)

Module ActualEarnings.

(** [((post - pre) / pre) * 100]. *)
Definition price_change (pre_earnings_price post_earnings_price : Q) : Q :=
  ((post_earnings_price - pre_earnings_price) / pre_earnings_price * 100)%Q.

(** The [if price_change > 3: ... elif price_change < -3: ... else: ...]
    of both analyzers. *)
Definition classify (price_change : Q) : string :=
  if Py.gt price_change 3 then "beat"
  else if Py.lt price_change (-3) then "miss"
  else "meet".

End ActualEarnings.

(** [get_actual_earnings_result] of
    [contrarian_earnings_analyzer_production.py]. *)
Module ProductionActualEarnings.

Definition get_actual_earnings_result (close : list Q) (earnings_price_idx : nat)
    : option P.ActualResult.t :=
  if (2 <=? length close)%nat then
    if (0 <? earnings_price_idx)%nat then
      match close !! (earnings_price_idx - 1)%nat,
            close !! (Nat.min (earnings_price_idx + 1) (length close - 1))%nat with
      | Some pre_earnings_price, Some post_earnings_price =>
          let price_change :=
            ActualEarnings.price_change pre_earnings_price post_earnings_price in
          Some {| P.ActualResult.price_change_percent := Py.round price_change 2;
                  P.ActualResult.result := ActualEarnings.classify price_change |}
      | _, _ => None
      end
    else None
  else None.

End ProductionActualEarnings.

(** [get_actual_earnings_result] of [simplified_contrarian_analyzer.py]:
    the price after is the one of the nearest trading day itself. *)
Module SimplifiedActualEarnings.

Definition get_actual_earnings_result (close : list Q) (earnings_price_idx : nat)
    : option S.ActualResult.t :=
  if (2 <=? length close)%nat then
    if (0 <? earnings_price_idx)%nat then
      match close !! (earnings_price_idx - 1)%nat, close !! earnings_price_idx with
      | Some pre_earnings_price, Some post_earnings_price =>
          let price_change :=
            ActualEarnings.price_change pre_earnings_price post_earnings_price in
          Some {| S.ActualResult.price_change_percent := Py.round price_change 2;
                  S.ActualResult.result := ActualEarnings.classify price_change |}
      | _, _ => None
      end
    else None
  else None.

End SimplifiedActualEarnings.

(** ** The first analyzer ([contrarian_earnings_analyzer.py]) *)

Module ContrarianEarningsAnalyzer.

(** The [analysis] dict; all four keys are indexed directly. *)
Module Analysis.
Record t := {
  sentiment : string;
  earnings_prediction : string;
  reasoning : string;
  key_concerns : list string
}.
End Analysis.

(** An analyzed article; [analysis = None] is a falsy [analysis]. *)
Module Article.
Record t := {
  author : string;
  headline : string;
  date : string;
  url : string;
  analysis : option Analysis.t
}.
End Article.

Module ActualResult.
Record t := {
  price_change_percent : Q;
  result : string
}.
End ActualResult.

(** The dict appended to [contrarians]. *)
Module Contrarian.
Record t := {
  author : string;
  headline : string;
  date : string;
  url : string;
  sentiment : string;
  prediction : string;
  was_minority_sentiment : bool;
  was_minority_prediction : bool;
  contrarian_score : Q;
  reasoning : string;
  key_concerns : list string
}.
End Contrarian.

(** [get_actual_earnings_result], from the quarterly earnings and the
    price history on: the price change runs from the first to the last
    closing price of the window, and is 0 with fewer than two prices. *)
Definition get_actual_earnings_result (earnings_empty : bool) (close : list Q)
    : option ActualResult.t :=
  if earnings_empty then None
  else
    let price_change :=
      if (2 <=? length close)%nat
      then ((List.last close 0 - List.hd 0 close) / List.hd 0 close * 100)%Q
      else 0%Q in
    Some {| ActualResult.price_change_percent := Py.round price_change 2;
            ActualResult.result :=
              if Py.gt price_change 2 then "beat"
              else if Py.lt price_change (-2) then "miss"
              else "meet" |}.

(** The analyses that are counted. *)
Definition valid_analyses (analyzed_articles : list Article.t) : list Analysis.t :=
  omap Article.analysis analyzed_articles.

Definition actual_sentiment (actual_result : ActualResult.t) : string :=
  if Py.gt (ActualResult.price_change_percent actual_result) 2 then "bullish"
  else if Py.lt (ActualResult.price_change_percent actual_result) (-2) then "bearish"
  else "neutral".

(** The body of the [for article in analyzed_articles] loop: the dict
    appended to [contrarians], if any. Without an actual result
    [was_correct] stays [False] and the two other flags are never read. *)
Definition examine_article
    (sentiment_counts prediction_counts : string -> Z) (total_articles : Z)
    (actual_result : option ActualResult.t)
    (article : Article.t) : option Contrarian.t :=
  match Article.analysis article with
  | None => None
  | Some analysis =>
      (* Check if this author was contrarian *)
      let author_sentiment := Analysis.sentiment analysis in
      let author_prediction := Analysis.earnings_prediction analysis in
      (* Determine if author was minority *)
      let is_minority_sentiment :=
        Py.lt (Py.truediv (sentiment_counts author_sentiment) total_articles) (3 # 10) in
      let is_minority_prediction :=
        Py.lt (Py.truediv (prediction_counts author_prediction) total_articles) (3 # 10) in
      (* Check if author was correct *)
      let sentiment_correct :=
        match actual_result with
        | Some actual_result => String.eqb author_sentiment (actual_sentiment actual_result)
        | None => false
        end in
      let prediction_correct :=
        match actual_result with
        | Some actual_result =>
            String.eqb author_prediction (ActualResult.result actual_result)
        | None => false
        end in
      let was_correct :=
        match actual_result with
        | Some _ => sentiment_correct || prediction_correct
        | None => false
        end in
      (* Identify contrarians *)
      if (is_minority_sentiment || is_minority_prediction) && was_correct then
        let contrarian_score := 0%Q in
        let contrarian_score :=
          if is_minority_sentiment && sentiment_correct
          then (contrarian_score
                + (1 - Py.truediv (sentiment_counts author_sentiment) total_articles)
                  * 100)%Q
          else contrarian_score in
        let contrarian_score :=
          if is_minority_prediction && prediction_correct
          then (contrarian_score
                + (1 - Py.truediv (prediction_counts author_prediction) total_articles)
                  * 100)%Q
          else contrarian_score in
        Some {|
          Contrarian.author := Article.author article;
          Contrarian.headline := Article.headline article;
          Contrarian.date := Article.date article;
          Contrarian.url := Article.url article;
          Contrarian.sentiment := author_sentiment;
          Contrarian.prediction := author_prediction;
          Contrarian.was_minority_sentiment := is_minority_sentiment;
          Contrarian.was_minority_prediction := is_minority_prediction;
          Contrarian.contrarian_score := Py.round contrarian_score 2;
          Contrarian.reasoning := Analysis.reasoning analysis;
          Contrarian.key_concerns := Analysis.key_concerns analysis
        |}
      else None
  end.

(** [contrarians.sort(key=lambda x: x['contrarian_score'], reverse=True)]. *)
Fixpoint insert_by_score (x : Contrarian.t) (l : list Contrarian.t)
    : list Contrarian.t :=
  match l with
  | [] => [x]
  | y :: ys =>
      if Py.ge (Contrarian.contrarian_score x) (Contrarian.contrarian_score y)
      then x :: y :: ys
      else y :: insert_by_score x ys
  end.

Definition sort_by_score (l : list Contrarian.t) : list Contrarian.t :=
  foldr insert_by_score [] l.

(** [identify_contrarians]. *)
Definition identify_contrarians (analyzed_articles : list Article.t)
    (actual_result : option ActualResult.t) : list Contrarian.t :=
  (* Count overall sentiment distribution *)
  let sentiment_counts :=
    Py.Counter (map Analysis.sentiment (valid_analyses analyzed_articles)) in
  let prediction_counts :=
    Py.Counter (map Analysis.earnings_prediction (valid_analyses analyzed_articles)) in
  let total_articles := Z.of_nat (length (valid_analyses analyzed_articles)) in
  let contrarians :=
    omap (examine_article sentiment_counts prediction_counts total_articles
            actual_result) analyzed_articles in
  sort_by_score contrarians.

End ContrarianEarningsAnalyzer.

Module O := ContrarianEarningsAnalyzer.

(** The article dicts of the first analyzer as the production analyzer
    reads them: the keys it asks for with [.get] and does not find are
    missing. *)
Definition as_production_analysis (a : O.Analysis.t) : P.Analysis.t :=
  {| P.Analysis.sentiment := O.Analysis.sentiment a;
     P.Analysis.earnings_prediction := O.Analysis.earnings_prediction a;
     P.Analysis.confidence := None;
     P.Analysis.prediction_confidence := None;
     P.Analysis.reasoning := Some (O.Analysis.reasoning a);
     P.Analysis.key_concerns := Some (O.Analysis.key_concerns a);
     P.Analysis.contrarian_indicators := None |}.

Definition as_production_article (a : O.Article.t) : P.Article.t :=
  {| P.Article.author := O.Article.author a;
     P.Article.headline := O.Article.headline a;
     P.Article.date := O.Article.date a;
     P.Article.url := O.Article.url a;
     P.Article.section := None;
     P.Article.word_count := None;
     P.Article.analysis := as_production_analysis <$> O.Article.analysis a |}.

(** ** The database of the simplified analyzer
    ([simplified_contrarian_analyzer.py]) *)

Module Pandas.

(** [series.unique()]: the distinct values in order of first appearance. *)
Fixpoint unique_from (seen : list string) (l : list string) : list string :=
  match l with
  | [] => []
  | x :: rest =>
      if Py.contains x seen then unique_from seen rest
      else x :: unique_from (x :: seen) rest
  end.

Definition unique (l : list string) : list string := unique_from [] l.

(** [df.tail(n)] and [df.head(n)]. *)
Definition tail {A} (n : nat) (df : list A) : list A :=
  skipn (length df - n) df.

Definition head {A} (n : nat) (df : list A) : list A := firstn n df.

End Pandas.

Module SimplifiedContrarianDatabase.

(** A row of [author_statistics.csv]. *)
Module AuthorStats.
Record t := {
  author : string;
  total_predictions : Z;
  contrarian_predictions : Z;
  correct_predictions : Z;
  correct_contrarian_predictions : Z;
  overall_accuracy : Q;
  contrarian_accuracy : Q;
  last_updated : string;
  recent_streak : Z;
  companies_covered : Z;
  specialization : string
}.
End AuthorStats.

(** [save_records]: the records are appended to the records file. *)
Definition save_records (records_file records : list S.ContrarianRecord.t)
    : list S.ContrarianRecord.t :=
  (records_file ++ records)%list.

(** The body of the [for author in df['author'].unique()] loop of
    [update_author_statistics]; [today] is the reading of
    [datetime.now()]. *)
Definition author_stats (df : list S.ContrarianRecord.t) (today : string)
    (author : string) : AuthorStats.t :=
  let author_records :=
    List.filter (fun r => String.eqb (S.ContrarianRecord.author r) author) df in
  let total_predictions := Z.of_nat (length author_records) in
  let contrarian_predictions :=
    Z.of_nat (length (List.filter S.ContrarianRecord.was_contrarian author_records)) in
  let correct_predictions :=
    Z.of_nat (length (List.filter S.ContrarianRecord.was_correct author_records)) in
  let correct_contrarian :=
    Z.of_nat (length (List.filter
                        (fun r => S.ContrarianRecord.was_contrarian r
                                  && S.ContrarianRecord.was_correct r)
                        author_records)) in
  let overall_accuracy :=
    if 0 <? total_predictions
    then (Py.truediv correct_predictions total_predictions * 100)%Q else 0%Q in
  let contrarian_accuracy :=
    if 0 <? contrarian_predictions
    then (Py.truediv correct_contrarian contrarian_predictions * 100)%Q else 0%Q in
  (* Calculate recent streak (last 5 predictions) *)
  let recent_records := Pandas.tail 5 author_records in
  let recent_streak :=
    Z.of_nat (length (List.filter S.ContrarianRecord.was_correct recent_records)) in
  let companies_covered :=
    Z.of_nat (length (Pandas.unique (map S.ContrarianRecord.company author_records))) in
  (* Determine specialization *)
  let specialization :=
    if companies_covered =? 1
    then List.hd "" (map S.ContrarianRecord.company author_records)
    else if companies_covered <=? 3 then "focused"
    else "generalist" in
  {| AuthorStats.author := author;
     AuthorStats.total_predictions := total_predictions;
     AuthorStats.contrarian_predictions := contrarian_predictions;
     AuthorStats.correct_predictions := correct_predictions;
     AuthorStats.correct_contrarian_predictions := correct_contrarian;
     AuthorStats.overall_accuracy := Py.round overall_accuracy 1;
     AuthorStats.contrarian_accuracy := Py.round contrarian_accuracy 1;
     AuthorStats.last_updated := today;
     AuthorStats.recent_streak := recent_streak;
     AuthorStats.companies_covered := companies_covered;
     AuthorStats.specialization := specialization |}.

(** [update_author_statistics]: the rows written to [author_statistics.csv],
    one per author of the records file, in order of first appearance. *)
Definition update_author_statistics (df : list S.ContrarianRecord.t)
    (today : string) : list AuthorStats.t :=
  map (author_stats df today) (Pandas.unique (map S.ContrarianRecord.author df)).

(** [sort_values('contrarian_accuracy', ascending=False)]; rows of equal
    accuracy are kept in file order here. *)
Fixpoint insert_by_accuracy (x : AuthorStats.t) (l : list AuthorStats.t)
    : list AuthorStats.t :=
  match l with
  | [] => [x]
  | y :: ys =>
      if Py.ge (AuthorStats.contrarian_accuracy x) (AuthorStats.contrarian_accuracy y)
      then x :: y :: ys
      else y :: insert_by_accuracy x ys
  end.

Definition sort_by_accuracy (l : list AuthorStats.t) : list AuthorStats.t :=
  foldr insert_by_accuracy [] l.

(** The [signals] dict; an entry of [top_contrarians] holds the columns
    [author], [contrarian_accuracy] and [contrarian_predictions]. *)
Record Signals := {
  reliable_contrarians_count : Z;
  top_contrarians : list (string * Q * Z);
  recommendation : string;
  confidence : string
}.

(** The mask [(df['contrarian_accuracy'] > 60) &
    (df['contrarian_predictions'] >= 3)]. *)
Definition reliable (r : AuthorStats.t) : bool :=
  Py.gt (AuthorStats.contrarian_accuracy r) 60
  && (3 <=? AuthorStats.contrarian_predictions r).

(** [get_investment_signals], on the rows of [author_statistics.csv]
    ([company_symbol] is not read). *)
Definition get_investment_signals (df : list AuthorStats.t) : Signals :=
  let reliable_contrarians := sort_by_accuracy (List.filter reliable df) in
  let count := Z.of_nat (length reliable_contrarians) in
  let signals := ("MONITOR", "LOW") in
  let signals := if 3 <=? count then ("CONSIDER", "MEDIUM") else signals in
  let signals := if 5 <=? count then ("STRONG_SIGNAL", "HIGH") else signals in
  {| reliable_contrarians_count := count;
     top_contrarians :=
       map (fun r => (AuthorStats.author r, AuthorStats.contrarian_accuracy r,
                      AuthorStats.contrarian_predictions r))
         (Pandas.head 5 reliable_contrarians);
     recommendation := fst signals;
     confidence := snd signals |}.

(** The [summary] of the report of [analyze_company_earnings]. *)
Record Summary := {
  total_articles_analyzed : Z;
  contrarians_identified : Z;
  correct_contrarians : Z;
  summary_contrarian_accuracy : Q
}.

(** The report; [contrarian_authors] holds the records its entries are
    built from. *)
Record Report := {
  summary : Summary;
  contrarian_authors : list S.ContrarianRecord.t;
  investment_signals : Signals
}.

(** [analyze_company_earnings] from step 4 on: [analyzed_articles] and
    [actual_result] are what steps 1 to 3 obtained, [records_file] the rows
    of [contrarian_records.csv] before the call. The report and the rows of
    the file after the call are returned. Without any author
    [update_author_statistics] leaves [author_statistics.csv] empty, and
    the [pd.read_csv] of [get_investment_signals] raises. *)
Definition analyze_company_earnings
    (records_file : list S.ContrarianRecord.t)
    (analyzed_articles : list S.Article.t)
    (actual_result : option S.ActualResult.t) (today : string)
    : Py.result (Report * list S.ContrarianRecord.t) :=
  (* Step 4: Identify contrarians *)
  let contrarian_records := S.identify_contrarians analyzed_articles actual_result today in
  (* Step 5: Save to database *)
  let records_file := save_records records_file contrarian_records in
  let author_stats_file := update_author_statistics records_file today in
  (* Step 6: Generate signals *)
  match author_stats_file with
  | [] => Py.Raise Py.EmptyDataError
  | _ =>
  let investment_signals := get_investment_signals author_stats_file in
  (* Generate simple report *)
  let contrarians_found :=
    List.filter S.ContrarianRecord.was_contrarian contrarian_records in
  let correct_contrarians :=
    List.filter S.ContrarianRecord.was_correct contrarians_found in
  Py.Ok
  ({| summary :=
        {| total_articles_analyzed := Z.of_nat (length analyzed_articles);
           contrarians_identified := Z.of_nat (length contrarians_found);
           correct_contrarians := Z.of_nat (length correct_contrarians);
           summary_contrarian_accuracy :=
             match contrarians_found with
             | [] => 0%Q
             | _ =>
                 Py.round (Py.truediv (Z.of_nat (length correct_contrarians))
                             (Z.of_nat (length contrarians_found)) * 100)%Q 1
             end |};
      contrarian_authors := contrarians_found;
      investment_signals := investment_signals |},
   records_file)
  end.

End SimplifiedContrarianDatabase.

Module D := SimplifiedContrarianDatabase.

(** Highest score first, for the findings of the first analyzer. *)
Definition by_first_score_desc (x y : O.Contrarian.t) : Prop :=
  Py.ge (O.Contrarian.contrarian_score x) (O.Contrarian.contrarian_score y) = true.

(** Highest contrarian accuracy first, for the rows of [author_statistics.csv]. *)
Definition by_accuracy_desc (x y : D.AuthorStats.t) : Prop :=
  Py.ge (D.AuthorStats.contrarian_accuracy x) (D.AuthorStats.contrarian_accuracy y)
  = true.

(** The contrarian rows of the records file, and the correct ones among
    them. *)
Definition contrarian_rows (df : list S.ContrarianRecord.t) : list S.ContrarianRecord.t :=
  List.filter S.ContrarianRecord.was_contrarian df.

Definition correct_contrarian_rows (df : list S.ContrarianRecord.t)
    : list S.ContrarianRecord.t :=
  List.filter
    (fun r => S.ContrarianRecord.was_contrarian r && S.ContrarianRecord.was_correct r)
    df.

(** ** The signal generator of the pipeline ([core/automated_pipeline.py]) *)

Module SignalGenerator.







End SignalGenerator.

(** ** The report of the production analyzer
    ([contrarian_earnings_analyzer_production.py], [analyze_company_earnings]) *)

Module ProductionReport.

(** The counts of [report['data_collection']] that depend on the analyses. *)
Record DataCollection := {
  articles_analyzed : Z;
  successful_analyses : Z;
  failed_analyses : Z
}.

(** [report['summary']]; a distribution is the dict of a [Counter], its
    keys in order of first appearance. *)
Record Summary := {
  top_contrarian : option P.Contrarian.t;
  avg_contrarian_score : Q;
  sentiment_distribution : list (string * Z);
  prediction_distribution : list (string * Z)
}.

Record t := {
  company : string;
  symbol : string;
  earnings_date : string;
  data_collection : DataCollection;
  actual_result : option P.ActualResult.t;
  contrarians_found : Z;
  contrarian_analysts : list P.Contrarian.t;
  analyzed_articles : list P.Article.t;
  summary : Summary
}.

(** [sum(...)] of floats: from 0, left to right. *)
Definition sum (l : list Q) : Q := fold_left Qplus l 0%Q.

(** [dict(Counter(l))]. *)
Definition counter_dict (l : list string) : list (string * Z) :=
  map (fun key => (key, Py.Counter l key)) (Pandas.unique l).

(** [analyze_company_earnings] from step 3 on: [analyzed_articles] are the
    articles with the analyses of step 2 ([None]: a failed analysis),
    [actual_result] is what step 3 obtained. *)
Definition analyze_company_earnings (company_name company_symbol earnings_date : string)
    (analyzed_articles : list P.Article.t)
    (actual_result : option P.ActualResult.t) : t :=
  let failed_analyses :=
    Z.of_nat (length (List.filter
                        (fun article =>
                           match P.Article.analysis article with
                           | None => true
                           | Some _ => false
                           end)
                        analyzed_articles)) in
  (* Step 4: Identify contrarians *)
  let contrarians := P.identify_contrarians analyzed_articles actual_result in
  (* Step 5: Generate comprehensive report *)
  {| company := company_name;
     symbol := company_symbol;
     earnings_date := earnings_date;
     data_collection :=
       {| articles_analyzed := Z.of_nat (length analyzed_articles);
          successful_analyses := Z.of_nat (length analyzed_articles) - failed_analyses;
          failed_analyses := failed_analyses |};
     actual_result := actual_result;
     contrarians_found := Z.of_nat (length contrarians);
     contrarian_analysts := contrarians;
     analyzed_articles := analyzed_articles;
     summary :=
       {| top_contrarian := head contrarians;
          avg_contrarian_score :=
            match contrarians with
            | [] => 0%Q
            | _ =>
                Py.round (sum (map P.Contrarian.contrarian_score contrarians)
                          / inject_Z (Z.of_nat (length contrarians)))%Q 2
            end;
          sentiment_distribution :=
            counter_dict (map (fun e => P.Analysis.sentiment (snd e))
                            (P.valid_articles analyzed_articles));
          prediction_distribution :=
            counter_dict (map (fun e => P.Analysis.earnings_prediction (snd e))
                            (P.valid_articles analyzed_articles)) |} |}.

(** The report as the exporter reads it. *)
Definition as_exporter_report (report : t) : X.Report :=
  {| X.company := company report;
     X.symbol := symbol report;
     X.earnings_date := earnings_date report;
     X.actual_result := actual_result report;
     X.contrarian_analysts := contrarian_analysts report |}.

End ProductionReport.

(** ** Proof automation *)

(** Inversion of a successful [_update_existing_author]. *)
Ltac update_inv H :=
  unfold MasterContrarianDatabase._update_existing_author in H;
  match type of H with
  | Py.bind (match ?cell with _ => _ end) _ = _ =>
      let s := fresh "companies" in
      let Ec := fresh "Ecompanies" in
      destruct cell as [s |] eqn:Ec; [| discriminate H];
      unfold Py.bind in H
  end;
  match type of H with
  | (if ?b then _ else _) = _ =>
      let Ei := fresh "Einst" in
      destruct b eqn:Ei; [discriminate H |];
      match type of H with
      | (if ?c then _ else _) = _ =>
          let Ec := fresh "Ecalls" in
          destruct c eqn:Ec; [discriminate H |];
          injection H as H
      end
  end.

(** Inversion of an [examine_article] that yields a finding. *)
Ltac examine_inv H :=
  unfold ProductionContrarianEarningsAnalyzer.examine_article in H;
  match type of H with
  | context [let '(_, _) := ?entry in _] => destruct entry as [?article ?analysis]
  end;
  cbv zeta in H;
  match type of H with
  | (if ?b then _ else _) = _ =>
      let E := fresh "Eminority" in
      destruct b eqn:E; [| discriminate H];
      injection H as H
  end.

(** * Properties *)

(** ** The primitives on examples *)

Example round_examples :
  Py.round (200 # 3) 1 = (667 # 10)%Q /\ Py.round (5 # 100) 1 = 0%Q /\
  Py.round (15 # 100) 1 = (1 # 5)%Q /\ Py.round 100 1 = 100%Q.
Proof. repeat split; vm_compute; reflexivity. Qed.

Example split_join_examples :
  Py.split ";" "Apple Inc.;Microsoft" = ["Apple Inc."; "Microsoft"] /\
  Py.join ";" ["a"; "b"; "c"] = "a;b;c" /\ Py.split ";" "" = [""].
Proof. repeat split. Qed.

Example generate_author_id_example :
  L._generate_author_id "Dr. J, Smith" = "dr_j_smith".
Proof. reflexivity. Qed.

(** The worked example of the specification: five opinions, sentiments
    bullish 1, bearish 3, neutral 1, predictions beat 1, miss 3, meet 1, and
    a stock that fell by 5 percent (a miss). The bullish voice that expected
    a beat is minority on both dimensions at a share of 20 percent, wrong on
    both, and scores (80 + 20) + (80 + 20) without the 1.5 factor. *)
Example worked_example_of_the_specification :
  let confident s p := Batch.analysis s p (Some "high") (Some "high") in
  let batch :=
    [Batch.article "A" (Some (confident "bullish" "beat"));
     Batch.article "B" (Some (confident "bearish" "miss"));
     Batch.article "C" (Some (confident "bearish" "miss"));
     Batch.article "D" (Some (confident "bearish" "miss"));
     Batch.article "E" (Some (confident "neutral" "meet"))] in
  let fell :=
    {| P.ActualResult.price_change_percent := -5; P.ActualResult.result := "miss" |} in
  map (fun f => (P.Contrarian.author f, P.Contrarian.contrarian_score f,
                 P.Contrarian.sentiment_correct f, P.Contrarian.prediction_correct f))
    (P.identify_contrarians batch (Some fell))
  = [("A", 200%Q, false, false); ("E", 200%Q, false, false)].
Proof. vm_compute. reflexivity. Qed.

(** ** Facts about the Python primitives *)

Section PyFacts.

#[local] Open Scope Q_scope.

Lemma lt_true a b : Py.lt a b = true <-> a < b.
Proof.
  unfold Py.lt. rewrite Qlt_alt.
  destruct (a ?= b); split; congruence.
Qed.

Lemma lt_false a b : Py.lt a b = false <-> b <= a.
Proof.
  rewrite <- not_true_iff_false, lt_true. split.
  - apply Qnot_lt_le.
  - apply Qle_not_lt.
Qed.

Lemma ge_true a b : Py.ge a b = true <-> b <= a.
Proof. unfold Py.ge. rewrite negb_true_iff. apply lt_false. Qed.

Lemma ge_false a b : Py.ge a b = false <-> a < b.
Proof. unfold Py.ge. rewrite negb_false_iff. apply lt_true. Qed.

Lemma round_half_even_comp x y :
  x == y -> Py.round_half_even x = Py.round_half_even y.
Proof.
  intros E. unfold Py.round_half_even.
  rewrite (Qfloor_comp _ _ E).
  assert (E' : x - inject_Z (Qfloor y) == y - inject_Z (Qfloor y))
    by (rewrite E; reflexivity).
  rewrite (Qcompare_comp _ _ E' (1 # 2) (1 # 2) (Qeq_refl _)).
  reflexivity.
Qed.

Lemma round_comp x y n : x == y -> Py.round x n = Py.round y n.
Proof.
  intros E. unfold Py.round.
  rewrite (round_half_even_comp (x * _) (y * inject_Z (10 ^ Z.of_nat n))).
  - reflexivity.
  - rewrite E. reflexivity.
Qed.

Lemma round_half_even_lower (m : Z) y :
  inject_Z m <= y -> (m <= Py.round_half_even y)%Z.
Proof.
  intros H. apply Qfloor_resp_le in H. rewrite Qfloor_Z in H.
  unfold Py.round_half_even.
  destruct (_ ?= _); [destruct (Z.even _) | |]; lia.
Qed.

Lemma round_half_even_upper (m : Z) y :
  y <= inject_Z m -> (Py.round_half_even y <= m)%Z.
Proof.
  intros H. pose proof (Qfloor_resp_le _ _ H) as Hf. rewrite Qfloor_Z in Hf.
  unfold Py.round_half_even.
  destruct (Z.eq_dec (Qfloor y) m) as [E | Hne].
  - assert (Hlt : y - inject_Z (Qfloor y) < 1 # 2).
    { rewrite E. apply Qle_lt_trans with 0; [| reflexivity].
      apply (Qplus_le_l _ _ (inject_Z m)). ring_simplify. exact H. }
    cbv zeta.
    replace (y - inject_Z (Qfloor y) ?= 1 # 2) with Lt
      by (symmetry; apply Qlt_alt; exact Hlt).
    lia.
  - destruct (_ ?= _); [destruct (Z.even _) | |]; lia.
Qed.

(** The nearest integer is at most one half away. *)
Lemma round_half_even_close y :
  - (1 # 2) <= inject_Z (Py.round_half_even y) - y <= 1 # 2.
Proof.
  pose proof (Qfloor_le y) as Hl. pose proof (Qlt_floor y) as Hu.
  unfold Py.round_half_even. cbv zeta.
  rewrite inject_Z_plus in Hu. change (inject_Z 1) with 1 in Hu.
  destruct (Qcompare_spec (y - inject_Z (Qfloor y)) (1 # 2)) as [E | E | E].
  - destruct (Z.even _);
      [| rewrite inject_Z_plus; change (inject_Z 1) with 1]; split; lra.
  - split; lra.
  - rewrite inject_Z_plus; change (inject_Z 1) with 1. split; lra.
Qed.

(** Rounding to two decimals moves a value by at most half a hundredth. *)
Lemma round_close x : Qabs (Py.round x 2 - x) <= 1 # 200.
Proof.
  unfold Py.round. rewrite Qred_correct.
  change (inject_Z (10 ^ Z.of_nat 2)) with 100.
  pose proof (round_half_even_close (x * 100)) as [H1 H2].
  set (m := inject_Z (Py.round_half_even (x * 100))) in *.
  apply Qabs_Qle_condition.
  assert (E : m / 100 == m * (1 # 100)) by field.
  rewrite E. split; lra.
Qed.

Lemma scale_pos n : 0 < inject_Z (10 ^ Z.of_nat n).
Proof.
  change 0 with (inject_Z 0). rewrite <- Zlt_Qlt.
  apply Z.pow_pos_nonneg; lia.
Qed.

(** Rounding to [n] decimals keeps a value between two integers there. *)
Lemma round_between (lo hi : Z) x n :
  inject_Z lo <= x <= inject_Z hi ->
  inject_Z lo <= Py.round x n <= inject_Z hi.
Proof.
  intros [Hlo Hhi]. unfold Py.round.
  set (s := inject_Z (10 ^ Z.of_nat n)).
  assert (Hs : 0 < s) by apply scale_pos.
  assert (Hs' : ~ s == 0) by (intros E; rewrite E in Hs; discriminate).
  rewrite Qred_correct.
  assert (L : (lo * 10 ^ Z.of_nat n <= Py.round_half_even (x * s))%Z).
  { apply round_half_even_lower. rewrite inject_Z_mult. fold s.
    apply Qmult_le_compat_r; [exact Hlo | apply Qlt_le_weak, Hs]. }
  assert (U : (Py.round_half_even (x * s) <= hi * 10 ^ Z.of_nat n)%Z).
  { apply round_half_even_upper. rewrite inject_Z_mult. fold s.
    apply Qmult_le_compat_r; [exact Hhi | apply Qlt_le_weak, Hs]. }
  rewrite Zle_Qle, inject_Z_mult in L, U. fold s in L, U.
  split.
  - apply Qle_shift_div_l; assumption.
  - apply Qle_shift_div_r; assumption.
Qed.

Lemma Qred_inject_Z z : Qred (inject_Z z) = inject_Z z.
Proof.
  unfold Qred, inject_Z.
  pose proof (Z.ggcd_gcd z 1) as Hg.
  pose proof (Z.ggcd_correct_divisors z 1) as Hd.
  destruct (Z.ggcd z 1) as [g [aa bb]]. simpl in *.
  rewrite Z.gcd_1_r in Hg. subst g. destruct Hd as [Ha Hb].
  assert (Ea : aa = z) by lia. assert (Eb : bb = 1%Z) by lia.
  rewrite Ea, Eb. reflexivity.
Qed.

(** An integer value rounds to itself. *)
Lemma round_integer (z : Z) x n : x == inject_Z z -> Py.round x n = inject_Z z.
Proof.
  intros E. rewrite (round_comp _ _ n E).
  assert (B : inject_Z z <= Py.round (inject_Z z) n <= inject_Z z)
    by (apply round_between; split; apply Qle_refl).
  assert (Q : Py.round (inject_Z z) n == inject_Z z)
    by (apply Qle_antisym; tauto).
  unfold Py.round in *. rewrite Qred_correct in Q.
  rewrite (Qred_complete _ _ Q). apply Qred_inject_Z.
Qed.

End PyFacts.

Section LedgerFacts.

Import MasterContrarianDatabase.

(** On a success rate that is [None] or a number, the extra [Medium_Risk]
    branch of the code is subsumed by the last two: the code computes the
    function of the specification. *)
Lemma calculate_risk_level_refines d :
  Contrarian_Success_Rate d <> Some Py.NaN ->
  _calculate_risk_level d =
  spec_risk_tier (defined_rate d) (Total_Contrarian_Instances d)
    (Consistency_Score d).
Proof.
  intros Hn. unfold _calculate_risk_level, spec_risk_tier, defined_rate.
  destruct (Contrarian_Success_Rate d) as [[r |] |];
    [| congruence | reflexivity].
  simpl.
  destruct (_ <? 2); [reflexivity |].
  destruct (Py.ge r 70 && _); [reflexivity |].
  destruct (Py.ge r 50 && Py.ge (Consistency_Score d) 50) eqn:E; [| reflexivity].
  apply andb_true_iff in E as [Er Ec].
  apply ge_true in Er, Ec.
  assert (Hr : Py.lt r 30 = false)
    by (apply lt_false; apply Qle_trans with 50%Q; [discriminate | exact Er]).
  assert (Hc : Py.lt (Consistency_Score d) 20 = false)
    by (apply lt_false; apply Qle_trans with 50%Q; [discriminate | exact Ec]).
  rewrite Hr, Hc. reflexivity.
Qed.

(** On a NaN the three comparisons of the rate are false: only the
    instances and the consistency score decide. *)
Lemma calculate_risk_level_nan d :
  Contrarian_Success_Rate d = Some Py.NaN ->
  _calculate_risk_level d =
  if Total_Contrarian_Instances d <? 2 then "Unknown"
  else if Py.lt (Consistency_Score d) 20 then "High_Risk"
  else "Medium_Risk".
Proof.
  intros Hn. unfold _calculate_risk_level. rewrite Hn. reflexivity.
Qed.

Lemma Risk_Level_set v d : Risk_Level (set_Risk_Level v d) = v.
Proof. reflexivity. Qed.

(** The update raises on a [Companies_List] that is not a text, and when
    one of its two divisors is zero. *)
Lemma update_existing_author_Ok
    d company symbol earnings_date contrarian_type was_correct score now s :
  Companies_List d = Py.Str s ->
  Total_Contrarian_Instances d + 1 <> 0 ->
  Total_Earnings_Calls d + 1 <> 0 ->
  exists d',
    _update_existing_author d company symbol earnings_date contrarian_type
      was_correct score now = Py.Ok d'.
Proof.
  intros Hs Hi Hc. unfold _update_existing_author. rewrite Hs. simpl.
  apply Z.eqb_neq in Hi, Hc. rewrite Hi, Hc. eauto.
Qed.

Lemma update_existing_author_nan
    d company symbol earnings_date contrarian_type was_correct score now :
  Companies_List d = Py.NaNCell ->
  _update_existing_author d company symbol earnings_date contrarian_type
    was_correct score now = Py.Raise Py.AttributeError.
Proof. intros Hs. unfold _update_existing_author. rewrite Hs. reflexivity. Qed.

(** Plain text is not taken for a missing value. *)
Lemma plain_text_read s : plain_text s = true -> Py.read_text (Py.Str s) = Py.Str s.
Proof.
  intros Hp. unfold Py.read_text.
  destruct (Py.contains s Py.na_values) eqn:E; [| reflexivity].
  exfalso. unfold Py.contains in E. apply existsb_exists in E as (v & Hv & Ev).
  apply String.eqb_eq in Ev. subst v.
  simpl in Hv.
  repeat (destruct Hv as [<- | Hv]; [vm_compute in Hp; discriminate Hp |]).
  destruct Hv.
Qed.

Lemma plain_id_no_slash id : plain_id id = true -> Py.has_char "/" id = false.
Proof.
  unfold plain_id. intros H.
  apply andb_true_iff in H as [H _]. apply andb_true_iff in H as [_ H].
  apply negb_true_iff in H. exact H.
Qed.

Lemma plain_id_read id : plain_id id = true -> plain_text id = true.
Proof.
  unfold plain_id. intros H.
  apply andb_true_iff in H as [H _]. apply andb_true_iff in H as [H _]. exact H.
Qed.

(** Reading a row that was read changes nothing. *)
Lemma read_text_idem c : Py.read_text (Py.read_text c) = Py.read_text c.
Proof.
  destruct c as [s |]; [| reflexivity].
  assert (H : Py.read_text (Py.Str s)
              = if Py.contains s Py.na_values then Py.NaNCell else Py.Str s)
    by reflexivity.
  rewrite H. destruct (Py.contains s Py.na_values) eqn:E; [reflexivity |].
  exact H.
Qed.

Lemma read_float_idem c : Py.read_float (Py.read_float c) = Py.read_float c.
Proof. destruct c; reflexivity. Qed.

Lemma read_row_idem row : read_row (read_row row) = read_row row.
Proof.
  unfold read_row. simpl. rewrite read_text_idem, read_float_idem. reflexivity.
Qed.

End LedgerFacts.

(** ** The ledger invariant *)

Section LedgerInvariant.

Import MasterContrarianDatabase.
#[local] Open Scope Q_scope.

Lemma ratio_bounds (s f : Z) :
  (0 <= s)%Z -> (0 <= f)%Z -> (0 < s + f)%Z ->
  inject_Z 0 <= Py.truediv s (s + f) * 100 <= inject_Z 100.
Proof.
  intros Hs Hf Hsf. unfold Py.truediv.
  assert (Hd : 0 < inject_Z (s + f))
    by (change 0 with (inject_Z 0); rewrite <- Zlt_Qlt; exact Hsf).
  assert (L : 0 <= inject_Z s / inject_Z (s + f)).
  { apply Qle_shift_div_l; [exact Hd |]. rewrite Qmult_0_l.
    change 0 with (inject_Z 0). rewrite <- Zle_Qle. exact Hs. }
  assert (U : inject_Z s / inject_Z (s + f) <= 1).
  { apply Qle_shift_div_r; [exact Hd |]. rewrite Qmult_1_l.
    rewrite <- Zle_Qle. lia. }
  change (inject_Z 0) with 0. change (inject_Z 100) with 100.
  split.
  - apply Qmult_le_0_compat; [exact L | discriminate].
  - apply Qle_trans with (1 * 100); [| discriminate].
    apply Qmult_le_compat_r; [exact U | discriminate].
Qed.

Lemma full_consistency (n : Z) :
  n <> 0%Z -> Py.round (Py.truediv n n * 100) 1 = 100.
Proof.
  intros Hn. apply (round_integer 100). unfold Py.truediv.
  assert (Hq : ~ inject_Z n == 0).
  { change 0 with (inject_Z 0). rewrite inject_Z_injective. exact Hn. }
  change (inject_Z 100) with 100. field. exact Hq.
Qed.

Lemma create_new_author_record_ok
    author_name author_id company symbol earnings_date contrarian_type
    was_correct score now :
  entry_ok (_create_new_author_record author_name author_id company symbol
              earnings_date contrarian_type was_correct score now).
Proof.
  split; simpl; try lia; try reflexivity.
  - destruct was_correct as [[|] |]; lia.
  - destruct was_correct as [[|] |]; lia.
  - destruct was_correct as [[|] |]; simpl;
      try (split; [lia | vm_compute; reflexivity]); lia.
Qed.

(** A successful update keeps a row well formed and adds 1 to both
    counters. *)
Lemma update_existing_author_ok
    d company symbol earnings_date contrarian_type was_correct score now d' :
  entry_ok d ->
  _update_existing_author d company symbol earnings_date contrarian_type
    was_correct score now = Py.Ok d' ->
  entry_ok d'
  /\ Total_Contrarian_Instances d' = (Total_Contrarian_Instances d + 1)%Z
  /\ Total_Earnings_Calls d' = (Total_Earnings_Calls d + 1)%Z.
Proof.
  intros [Hc Hi Hs Hf Hr Hk] Hd'.
  cbv zeta in Hd'. update_inv Hd'. subst d'.
  split; [| split; reflexivity].
  split; simpl.
  - lia.
  - lia.
  - destruct was_correct as [[|] |]; lia.
  - destruct was_correct as [[|] |]; lia.
  - match goal with
    | |- context [if ?b then _ else _] => destruct b eqn:E
    end.
    + split; [apply Z.ltb_lt in E; exact E | reflexivity].
    + apply Z.ltb_ge in E.
      destruct (Contrarian_Success_Rate d) as [[r |] |];
        [destruct Hr as [Hr _] | |];
        destruct was_correct as [[|] |]; lia.
  - rewrite Hc. apply full_consistency. lia.
Qed.

Lemma read_row_ok e : entry_ok e -> entry_ok (read_row e).
Proof.
  intros [Hc Hi Hs Hf Hr Hk]. split; simpl; try assumption.
  destruct (Contrarian_Success_Rate e) as [[r |] |]; exact Hr.
Qed.

End LedgerInvariant.

(** ** One step of the merge loop *)

Section MergeLoop.

Import MasterContrarianDatabase.

Lemma load_rows_keys_ok rows : forall t,
  keys_ok t ->
  keys_ok (foldl (fun existing_data row => <[Author_ID row := row]> existing_data)
             t rows).
Proof.
  induction rows as [| r rows IH]; intros t Ht; simpl; [exact Ht |].
  apply IH. intros id e. rewrite lookup_insert. case_decide.
  - intros [= <-]. assumption.
  - apply Ht.
Qed.

Lemma keys_ok_empty : keys_ok ∅.
Proof. intros id e. rewrite lookup_empty. discriminate. Qed.

Lemma load_keys_ok fs : keys_ok (_load_existing_data fs).
Proof.
  unfold _load_existing_data.
  destruct (master_csv fs) as [[rows |] |]; simpl; try apply keys_ok_empty.
  apply load_rows_keys_ok, keys_ok_empty.
Qed.

(** What holds of every row of the frame holds of every row of the
    dict. *)
Lemma load_rows_all (P : AuthorRecord -> Prop) rows :
  forall t : gmap string AuthorRecord,
  (forall id e, t !! id = Some e -> P e) ->
  Forall P rows ->
  forall id e,
    foldl (fun existing_data row => <[Author_ID row := row]> existing_data) t rows
      !! id = Some e ->
    P e.
Proof.
  induction rows as [| r rows IH]; intros t Ht Hrows; simpl; [exact Ht |].
  apply Forall_cons in Hrows as [Hr Hrows].
  apply IH; [| exact Hrows].
  intros id e. rewrite lookup_insert. case_decide.
  - intros [= <-]. exact Hr.
  - apply Ht.
Qed.

(** The rows of the dict are rows as [pd.read_csv] returns them. *)
Lemma load_read fs id e :
  _load_existing_data fs !! id = Some e -> read_row e = e.
Proof.
  unfold _load_existing_data.
  destruct (master_csv fs) as [[rows |] |]; simpl;
    try (rewrite lookup_empty; discriminate).
  apply (load_rows_all (fun e => read_row e = e)).
  - intros id' e'. rewrite lookup_empty. discriminate.
  - apply Forall_forall. intros r Hr. apply list_elem_of_In, in_map_iff in Hr.
    destruct Hr as (r0 & <- & _). apply read_row_idem.
Qed.

(** Rows with distinct ids load into the dict that lists them. *)
Lemma load_rows_distinct rows : forall t : gmap string AuthorRecord,
  NoDup (Author_ID <$> rows) ->
  foldl (fun existing_data row => <[Author_ID row := row]> existing_data) t rows
  = list_to_map (keyed <$> rows) ∪ t.
Proof.
  induction rows as [| r rows IH]; intros t Hnd; simpl.
  - rewrite (left_id_L ∅ (∪)). reflexivity.
  - rewrite fmap_cons in Hnd. apply NoDup_cons in Hnd as [Hr Hnd].
    rewrite (IH _ Hnd). rewrite <- insert_union_l.
    symmetry. apply insert_union_r.
    apply not_elem_of_list_to_map_1.
    rewrite <- list_fmap_compose. exact Hr.
Qed.

Lemma keyed_values (t : gmap string AuthorRecord) :
  keys_ok t -> keyed <$> (map_to_list t).*2 = map_to_list t.
Proof.
  intros Ht. rewrite <- list_fmap_compose.
  transitivity (id <$> map_to_list t); [| apply list_fmap_id].
  apply Forall_fmap_ext, Forall_forall. intros [k e] Hin.
  apply elem_of_map_to_list in Hin. unfold keyed. simpl.
  rewrite (Ht _ _ Hin). reflexivity.
Qed.

(** What is loaded next is what was saved, read row by row. *)
Lemma load_save fs t :
  keys_ok t -> _load_existing_data (_save_master_database fs t) = read_row <$> t.
Proof.
  intros Ht. unfold _load_existing_data, _save_master_database. simpl.
  change (map read_row (map_to_list t).*2) with (read_row <$> (map_to_list t).*2).
  rewrite load_rows_distinct.
  - rewrite (right_id_L ∅ (∪)).
    replace (keyed <$> (read_row <$> (map_to_list t).*2))
      with (prod_map id read_row <$> map_to_list t).
    + rewrite list_to_map_fmap, list_to_map_to_list. reflexivity.
    + rewrite <- (keyed_values t Ht) at 1. rewrite <- !list_fmap_compose.
      reflexivity.
  - replace (Author_ID <$> (read_row <$> (map_to_list t).*2))
      with (map_to_list t).*1.
    + apply NoDup_fst_map_to_list.
    + rewrite <- (keyed_values t Ht) at 1. rewrite <- !list_fmap_compose.
      reflexivity.
Qed.

Variables (company symbol earnings_date : string).
Variable actual_result : option ActualResult.
Variable now : string.

Abbreviation step := (process_contrarian company symbol earnings_date actual_result now).
Abbreviation steps := (process_contrarians company symbol earnings_date actual_result now).

(** A successful step writes exactly one row, the one of the contrarian's
    author: the updated row when the author is known, a new row
    otherwise; and it appends one row to the history of that author. *)
Lemma process_contrarian_inv t fs c t' fs' :
  step (t, fs) c = Py.Ok (t', fs') ->
  exists e',
    t' = <[contrarian_id c := e']> t
    /\ match t !! contrarian_id c with
       | Some d =>
           _update_existing_author d company symbol earnings_date
             (_determine_contrarian_type c)
             (_evaluate_contrarian_accuracy c actual_result)
             (get (contrarian_score c) 0%Q) now = Py.Ok e'
       | None =>
           e' = _create_new_author_record (get (author c) "Unknown")
                  (contrarian_id c) company symbol earnings_date
                  (_determine_contrarian_type c)
                  (_evaluate_contrarian_accuracy c actual_result)
                  (get (contrarian_score c) 0%Q) now
       end
    /\ master_csv fs' = master_csv fs.
Proof.
  unfold process_contrarian, contrarian_id, _save_author_history. intros H.
  destruct (Py.has_char "/" _) eqn:Eslash.
  { destruct (t !! _) as [d |]; simpl in H; [| discriminate].
    destruct (_update_existing_author _ _ _ _ _ _ _ _); discriminate. }
  destruct (t !! _) as [d |] eqn:Ed.
  - destruct (_update_existing_author _ _ _ _ _ _ _ _) as [e' | x] eqn:Eu;
      simpl in H; [| discriminate].
    injection H as <- <-. exists e'. auto.
  - simpl in H. injection H as <- <-. eexists. auto.
Qed.

(** A step succeeds only for an id that names a file of the directory of
    the histories. *)
Lemma process_contrarian_no_slash t fs c t' fs' :
  step (t, fs) c = Py.Ok (t', fs') -> Py.has_char "/" (contrarian_id c) = false.
Proof.
  unfold process_contrarian, contrarian_id, _save_author_history. intros H.
  destruct (Py.has_char "/" _) eqn:Eslash; [| reflexivity].
  destruct (t !! _) as [d |]; simpl in H; [| discriminate].
  destruct (_update_existing_author _ _ _ _ _ _ _ _); discriminate.
Qed.

Lemma process_contrarians_cons st c cs :
  steps st (c :: cs) = Py.bind (step st c) (fun st => steps st cs).
Proof. reflexivity. Qed.

Lemma process_contrarian_frame t fs c t' fs' id :
  step (t, fs) c = Py.Ok (t', fs') ->
  id <> contrarian_id c -> t' !! id = t !! id.
Proof.
  intros H Hne. apply process_contrarian_inv in H as (e' & -> & _).
  apply lookup_insert_ne. congruence.
Qed.

Lemma process_contrarians_frame cs : forall t fs t' fs' id,
  steps (t, fs) cs = Py.Ok (t', fs') ->
  id ∉ map contrarian_id cs -> t' !! id = t !! id.
Proof.
  induction cs as [| c cs IH]; intros t fs t' fs' id H Hid.
  - injection H as <- <-. reflexivity.
  - rewrite process_contrarians_cons in H.
    destruct (step (t, fs) c) as [[t1 fs1] | x] eqn:E; simpl in H; [| discriminate].
    simpl in Hid. apply not_elem_of_cons in Hid as [Hne Hid].
    rewrite (IH _ _ _ _ _ H Hid).
    eapply process_contrarian_frame; eauto.
Qed.

(** The update keeps the [Author_ID] of the row. *)
Lemma update_existing_author_id d co sy ed ty wc score nw d' :
  _update_existing_author d co sy ed ty wc score nw = Py.Ok d' ->
  Author_ID d' = Author_ID d.
Proof. intros H. cbv zeta in H. update_inv H. subst d'. reflexivity. Qed.

Lemma process_contrarian_keys t fs c t' fs' :
  keys_ok t -> step (t, fs) c = Py.Ok (t', fs') -> keys_ok t'.
Proof.
  intros Ht H. apply process_contrarian_inv in H as (e' & -> & He & _).
  intros id e. rewrite lookup_insert. case_decide; [| apply Ht].
  intros [= <-]. subst id.
  destruct (t !! contrarian_id c) as [d |] eqn:Ed.
  - rewrite (update_existing_author_id _ _ _ _ _ _ _ _ _ He). apply (Ht _ _ Ed).
  - subst e'. reflexivity.
Qed.

Lemma process_contrarians_keys cs : forall t fs t' fs',
  keys_ok t -> steps (t, fs) cs = Py.Ok (t', fs') -> keys_ok t'.
Proof.
  induction cs as [| c cs IH]; intros t fs t' fs' Ht H.
  - injection H as <- <-. exact Ht.
  - rewrite process_contrarians_cons in H.
    destruct (step (t, fs) c) as [[t1 fs1] | x] eqn:E; simpl in H; [| discriminate].
    eapply IH; [| exact H]. eapply process_contrarian_keys; eauto.
Qed.

(** A successful step keeps the rows well formed. *)
Lemma process_contrarian_ok t fs c t' fs' :
  table_ok t -> step (t, fs) c = Py.Ok (t', fs') -> table_ok t'.
Proof.
  intros Ht H. apply process_contrarian_inv in H as (e' & -> & He & _).
  intros id e. rewrite lookup_insert. case_decide; [| apply Ht].
  intros [= <-].
  destruct (t !! contrarian_id c) as [d |] eqn:Ed.
  - eapply update_existing_author_ok; [exact (Ht _ _ Ed) | exact He].
  - subst e'. apply create_new_author_record_ok.
Qed.

Lemma process_contrarians_ok cs : forall t fs t' fs',
  table_ok t -> steps (t, fs) cs = Py.Ok (t', fs') -> table_ok t'.
Proof.
  induction cs as [| c cs IH]; intros t fs t' fs' Ht H.
  - injection H as <- <-. exact Ht.
  - rewrite process_contrarians_cons in H.
    destruct (step (t, fs) c) as [[t1 fs1] | x] eqn:E; simpl in H; [| discriminate].
    eapply IH; [| exact H]. eapply process_contrarian_ok; eauto.
Qed.

(** A step succeeds when the id of the author names a history file and,
    if the author is known, the row lists its companies as a text. *)
Lemma process_contrarian_succeeds t fs c :
  table_ok t ->
  Py.has_char "/" (contrarian_id c) = false ->
  (forall d, t !! contrarian_id c = Some d -> exists s, Companies_List d = Py.Str s) ->
  exists t' fs', step (t, fs) c = Py.Ok (t', fs').
Proof.
  intros Ht Hslash Hco. unfold process_contrarian, _save_author_history.
  fold (contrarian_id c). rewrite Hslash.
  destruct (t !! contrarian_id c) as [d |] eqn:Ed.
  - destruct (Hco d eq_refl) as [s Hs].
    destruct (Ht _ _ Ed) as [Hc Hi _ _ _ _].
    destruct (update_existing_author_Ok d company symbol earnings_date
                (_determine_contrarian_type c)
                (_evaluate_contrarian_accuracy c actual_result)
                (get (contrarian_score c) 0%Q) now s Hs) as [d' Hd']; try lia.
    rewrite Hd'. simpl. eauto.
  - simpl. eauto.
Qed.

End MergeLoop.

(** ** Merging a batch *)

Section Merge.

Import MasterContrarianDatabase.

Lemma add_contrarian_analysis_inv fs report_data contrarians now fs' :
  add_contrarian_analysis fs report_data contrarians now = Py.Ok fs' ->
  exists t' fs1,
    process_contrarians (get (company report_data) "Unknown")
      (get (symbol report_data) "UNK") (get (earnings_date report_data) "")
      (actual_result report_data) now (_load_existing_data fs, fs) contrarians
    = Py.Ok (t', fs1)
    /\ fs' = _save_master_database fs1 t'
    /\ _load_existing_data fs' = read_row <$> t'.
Proof.
  unfold add_contrarian_analysis. cbv zeta.
  destruct (process_contrarians _ _ _ _ _ _ _) as [[t' fs1] | x] eqn:E;
    simpl; [| discriminate].
  intros [= <-]. exists t', fs1. split; [reflexivity |]. split; [reflexivity |].
  apply load_save. eapply process_contrarians_keys; [apply load_keys_ok | exact E].
Qed.

Lemma table_ok_read t : table_ok t -> table_ok (read_row <$> t).
Proof.
  intros Ht id e. rewrite lookup_fmap.
  destruct (t !! id) as [e0 |] eqn:E; simpl; [| discriminate].
  intros [= <-]. apply read_row_ok. exact (Ht _ _ E).
Qed.

Lemma add_contrarian_analysis_ok fs report_data contrarians now fs' :
  table_ok (_load_existing_data fs) ->
  add_contrarian_analysis fs report_data contrarians now = Py.Ok fs' ->
  table_ok (_load_existing_data fs').
Proof.
  intros Ht H. apply add_contrarian_analysis_inv in H as (t' & fs1 & Hs & _ & ->).
  apply table_ok_read. eapply process_contrarians_ok; eauto.
Qed.

(** Every ledger the code produces holds well-formed rows only. *)
Lemma reachable_table_ok fs : reachable fs -> table_ok (_load_existing_data fs).
Proof.
  induction 1 as [| fs report_data contrarians now fs' _ IH Hadd].
  - intros id e. change (_load_existing_data (_initialize_master_csv no_files))
      with (∅ : gmap string AuthorRecord).
    rewrite lookup_empty. discriminate.
  - eapply add_contrarian_analysis_ok; eauto.
Qed.


End Merge.

(** ** Properties of the ledger *)

Section LedgerClaims.

Import MasterContrarianDatabase.
#[local] Open Scope Q_scope.

Lemma after_aapl_reachable : reachable Demo.after_aapl.
Proof.
  eapply reachable_add; [apply reachable_init |].
  instantiate (1 := "2024-01-26 09:00:00").
  instantiate (1 := [Demo.john_smith_aapl; Demo.sarah_johnson_aapl]).
  instantiate (1 := Demo.aapl_report).
  vm_compute. reflexivity.
Defined.

(** A batch of one finding is merged when the id of its author names a
    history file and, if the author is known, the row lists its companies
    as a text. *)
Lemma add_one_succeeds fs report_data c now :
  table_ok (_load_existing_data fs) ->
  Py.has_char "/" (contrarian_id c) = false ->
  (forall d, _load_existing_data fs !! contrarian_id c = Some d ->
             exists s, Companies_List d = Py.Str s) ->
  exists fs', add_contrarian_analysis fs report_data [c] now = Py.Ok fs'.
Proof.
  intros Ht Hslash Hco. unfold add_contrarian_analysis. cbv zeta.
  destruct (process_contrarian_succeeds (get (company report_data) "Unknown")
              (get (symbol report_data) "UNK") (get (earnings_date report_data) "")
              (actual_result report_data) now (_load_existing_data fs) fs c
              Ht Hslash Hco) as (t' & fs1 & E).
  rewrite process_contrarians_cons, E. simpl. eauto.
Qed.

(** C5: starting from an empty ledger, merging the same single finding
    twice (two identical one-finding batches) is not the same as merging it
    once: the first merge leaves the author's appearance and
    contrarian-instance counters at 1, the second one at 2, and the two
    ledgers differ. Nothing is deduplicated. The author's id and the
    company are plain texts: the id names a history file, and both are read
    back from the master file as they were written. *)
Theorem C5_merging_twice_counts_twice :
  forall (report_data : ReportData) (finding : Contrarian) (now1 now2 : string),
    plain_id (contrarian_id finding) = true ->
    plain_text (get (company report_data) "Unknown") = true ->
    exists fs1 fs2 e1 e2,
      add_contrarian_analysis (_initialize_master_csv no_files) report_data
        [finding] now1 = Py.Ok fs1
      /\ add_contrarian_analysis fs1 report_data [finding] now2 = Py.Ok fs2
      /\ _load_existing_data fs1 !! contrarian_id finding = Some e1
      /\ _load_existing_data fs2 !! contrarian_id finding = Some e2
      /\ Total_Earnings_Calls e1 = 1%Z /\ Total_Contrarian_Instances e1 = 1%Z
      /\ Total_Earnings_Calls e2 = 2%Z /\ Total_Contrarian_Instances e2 = 2%Z
      /\ fs1 <> fs2.
Proof.
  intros report_data finding now1 now2 Hid Hco.
  pose proof (plain_id_no_slash _ Hid) as Hslash.
  assert (H0 : table_ok (_load_existing_data (_initialize_master_csv no_files)))
    by (apply reachable_table_ok, reachable_init).
  (* the first merge creates the row *)
  destruct (add_one_succeeds (_initialize_master_csv no_files) report_data
              finding now1 H0 Hslash) as [fs1 E1].
  { change (_load_existing_data (_initialize_master_csv no_files))
      with (∅ : gmap string AuthorRecord).
    intros d. rewrite lookup_empty. discriminate. }
  pose proof (add_contrarian_analysis_ok _ _ _ _ _ H0 E1) as H1.
  destruct (add_contrarian_analysis_inv _ _ _ _ _ E1) as (t1 & g1 & S1 & _ & L1).
  rewrite process_contrarians_cons in S1.
  destruct (process_contrarian _ _ _ _ _
              (_load_existing_data (_initialize_master_csv no_files), _) _)
    as [[u1 h1] | x] eqn:P1; simpl in S1; [| discriminate].
  injection S1 as -> ->.
  apply process_contrarian_inv in P1 as (e1 & U1 & C1 & _).
  change (_load_existing_data (_initialize_master_csv no_files))
    with (∅ : gmap string AuthorRecord) in C1, U1.
  rewrite lookup_empty in C1.
  assert (F1 : _load_existing_data fs1 !! contrarian_id finding
               = Some (read_row e1))
    by (rewrite L1, U1, lookup_fmap, lookup_insert_eq; reflexivity).
  (* the second merge finds it, with the company read back as a text *)
  destruct (add_one_succeeds fs1 report_data finding now2 H1 Hslash) as [fs2 E2].
  { intros d. rewrite F1. intros [= <-]. subst e1.
    exists (get (company report_data) "Unknown").
    exact (plain_text_read _ Hco). }
  destruct (add_contrarian_analysis_inv _ _ _ _ _ E2) as (t2 & g2 & S2 & _ & L2).
  rewrite process_contrarians_cons in S2.
  destruct (process_contrarian _ _ _ _ _ (_load_existing_data fs1, _) _)
    as [[u2 h2] | x] eqn:P2; simpl in S2; [| discriminate].
  injection S2 as -> ->.
  apply process_contrarian_inv in P2 as (e2 & U2 & C2 & _).
  rewrite F1 in C2. cbv zeta in C2. update_inv C2.
  assert (F2 : _load_existing_data fs2 !! contrarian_id finding
               = Some (read_row e2))
    by (rewrite L2, U2, lookup_fmap, lookup_insert_eq; reflexivity).
  exists fs1, fs2, (read_row e1), (read_row e2).
  split; [exact E1 |]. split; [exact E2 |].
  split; [exact F1 |]. split; [exact F2 |].
  subst e2 e1. simpl.
  repeat split.
  intros Heq.
  apply (f_equal (fun fs => Total_Earnings_Calls
                              <$> _load_existing_data fs !! contrarian_id finding))
    in Heq.
  rewrite F1, F2 in Heq. simpl in Heq. discriminate.
Qed.

Lemma C5_witness :
  exists fs1 fs2 e2,
    add_contrarian_analysis (_initialize_master_csv no_files) Demo.aapl_report
      [Demo.john_smith_aapl] "2024-01-26 09:00:00" = Py.Ok fs1
    /\ add_contrarian_analysis fs1 Demo.aapl_report [Demo.john_smith_aapl]
         "2024-01-27 09:00:00" = Py.Ok fs2
    /\ _load_existing_data fs2 !! "john_smith" = Some e2
    /\ Total_Contrarian_Instances e2 = 2%Z.
Proof.
  destruct (C5_merging_twice_counts_twice Demo.aapl_report Demo.john_smith_aapl
              "2024-01-26 09:00:00" "2024-01-27 09:00:00" eq_refl eq_refl)
    as (fs1 & fs2 & e1 & e2 & E1 & E2 & _ & F2 & _ & _ & _ & I2 & _).
  exists fs1, fs2, e2. repeat split; assumption.
Defined.

(** C7 fails in the code on a finding merged before the outcome is known.
    The row is created with the rate [None]; the master file holds an empty
    cell, and the row that the next merge (or any reader) loads has a
    success rate that is NaN with no resolved call at all. The code itself
    takes that NaN for a number: at the second merge of the same finding the
    test [success_rate is None] fails and the row, at 2 instances and a
    consistency score of 100, gets the tier [Medium_Risk] where an undefined
    rate gives [Unknown]. *)
Theorem C7_undefined_rate_is_reloaded_as_nan :
  exists fs1 e1 fs2 e2,
    add_contrarian_analysis Demo.fresh Demo.aapl_report_unresolved
      [Demo.john_smith_aapl] "2024-01-26 09:00:00" = Py.Ok fs1
    /\ _load_existing_data fs1 !! "john_smith" = Some e1
    /\ (Successful_Contrarian_Calls e1 + Failed_Contrarian_Calls e1 = 0)%Z
    /\ Contrarian_Success_Rate e1 = Some Py.NaN
    /\ add_contrarian_analysis fs1 Demo.aapl_report_unresolved
         [Demo.john_smith_aapl] "2024-01-27 09:00:00" = Py.Ok fs2
    /\ _load_existing_data fs2 !! "john_smith" = Some e2
    /\ (Successful_Contrarian_Calls e2 + Failed_Contrarian_Calls e2 = 0)%Z
    /\ Contrarian_Success_Rate e2 = Some Py.NaN
    /\ Total_Contrarian_Instances e2 = 2%Z
    /\ Risk_Level e2 = "Medium_Risk"
    /\ spec_risk_tier (defined_rate e2) (Total_Contrarian_Instances e2)
         (Consistency_Score e2) = "Unknown".
Proof.
  do 4 eexists.
  split; [vm_compute; reflexivity |].
  split; [vm_compute; reflexivity |].
  split; [reflexivity |]. split; [reflexivity |].
  split; [vm_compute; reflexivity |].
  split; [vm_compute; reflexivity |].
  repeat split.
Qed.

(** C8: in every ledger the code produces, the consistency score of an entry
    lies between 0 and 100 and equals its contrarian instances divided by
    its appearances, times 100, exactly (the divisor is not zero). *)
Theorem C8_consistency_score_exact :
  forall fs, reachable fs ->
    forall id e, _load_existing_data fs !! id = Some e ->
      0 <= Consistency_Score e <= 100
      /\ Total_Earnings_Calls e <> 0%Z
      /\ Consistency_Score e ==
         Py.truediv (Total_Contrarian_Instances e) (Total_Earnings_Calls e) * 100.
Proof.
  intros fs Hr id e He.
  destruct (reachable_table_ok fs Hr id e He) as [Hc Hi _ _ _ Hk].
  rewrite Hk, Hc. split; [split; discriminate |]. split; [lia |].
  unfold Py.truediv. field.
  change 0 with (inject_Z 0). rewrite inject_Z_injective. lia.
Qed.

Lemma C8_witness :
  exists e,
    _load_existing_data Demo.after_aapl !! "sarah_johnson" = Some e
    /\ Consistency_Score e ==
       Py.truediv (Total_Contrarian_Instances e) (Total_Earnings_Calls e) * 100.
Proof.
  eexists. split; [vm_compute; reflexivity |].
  eapply (C8_consistency_score_exact Demo.after_aapl after_aapl_reachable
            "sarah_johnson").
  vm_compute. reflexivity.
Defined.



End LedgerClaims.

(** ** Facts about the analyzers *)

Section AnalyzerFacts.

Import ProductionContrarianEarningsAnalyzer.

Lemma insert_by_score_elem x l y :
  y ∈ insert_by_score x l <-> y = x \/ y ∈ l.
Proof.
  induction l as [| z l IH]; simpl.
  - rewrite list_elem_of_singleton, elem_of_nil. tauto.
  - destruct (Py.ge _ _).
    + rewrite !elem_of_cons. tauto.
    + rewrite !elem_of_cons, IH. tauto.
Qed.

(** Sorting neither drops nor invents a finding. *)
Lemma sort_by_score_elem l y : y ∈ sort_by_score l <-> y ∈ l.
Proof.
  induction l as [| x l IH]; simpl.
  - reflexivity.
  - fold (sort_by_score l). rewrite insert_by_score_elem, IH, elem_of_cons.
    reflexivity.
Qed.

(** The findings are what the loop body yields on the valid articles. *)
Lemma identify_contrarians_elem analyzed_articles actual_result f :
  f ∈ identify_contrarians analyzed_articles actual_result <->
  exists entry,
    entry ∈ valid_articles analyzed_articles
    /\ examine_article
         (Py.Counter (map (fun e => Analysis.sentiment (snd e))
                        (valid_articles analyzed_articles)))
         (Py.Counter (map (fun e => Analysis.earnings_prediction (snd e))
                        (valid_articles analyzed_articles)))
         (Z.of_nat (length (valid_articles analyzed_articles)))
         actual_result entry = Some f.
Proof.
  unfold identify_contrarians. cbv zeta.
  destruct (valid_articles analyzed_articles) as [| e0 rest] eqn:E.
  - split.
    + intros H. apply elem_of_nil in H. destruct H.
    + intros (entry & H & _). apply elem_of_nil in H. destruct H.
  - rewrite sort_by_score_elem, list_elem_of_omap. reflexivity.
Qed.

(** [Counter([x])[x]] is 1. *)
Lemma Counter_singleton x : Py.Counter [x] x = 1.
Proof.
  unfold Py.Counter. simpl. destruct (string_dec x x); [reflexivity | congruence].
Qed.

Lemma most_common_singleton x d :
  SimplifiedContrarianAnalyzer.most_common [x] d = x.
Proof.
  unfold SimplifiedContrarianAnalyzer.most_common. simpl.
  destruct (_ <? _); reflexivity.
Qed.

End AnalyzerFacts.

(** ** Unresolved outcomes in the ledger *)

Section Unresolved.

Import MasterContrarianDatabase.

Lemma process_contrarian_unresolved company symbol earnings_date now t fs c t' fs' id :
  process_contrarian company symbol earnings_date None now (t, fs) c = Py.Ok (t', fs') ->
  tally t' id = tally t id.
Proof.
  intros H. apply process_contrarian_inv in H as (e' & -> & He & _).
  unfold tally. destruct (decide (id = contrarian_id c)) as [-> | Hne].
  - rewrite lookup_insert_eq.
    destruct (t !! contrarian_id c) as [d |].
    + cbv zeta in He. update_inv He. subst e'. reflexivity.
    + subst e'. reflexivity.
  - rewrite lookup_insert_ne by congruence. reflexivity.
Qed.

Lemma process_contrarians_unresolved company symbol earnings_date now cs :
  forall t fs t' fs' id,
    process_contrarians company symbol earnings_date None now (t, fs) cs
    = Py.Ok (t', fs') ->
    tally t' id = tally t id.
Proof.
  induction cs as [| c cs IH]; intros t fs t' fs' id H.
  - injection H as <- <-. reflexivity.
  - rewrite process_contrarians_cons in H.
    destruct (process_contrarian _ _ _ _ _ _ _) as [[t1 fs1] | x] eqn:E;
      simpl in H; [| discriminate].
    rewrite (IH _ _ _ _ _ H).
    eapply process_contrarian_unresolved; eauto.
Qed.

(** Reading a row leaves its counters as they are. *)
Lemma tally_read t id : tally (read_row <$> t) id = tally t id.
Proof.
  unfold tally. rewrite lookup_fmap. destruct (t !! id); reflexivity.
Qed.

End Unresolved.

(** ** Properties of the analyzers *)

Section AnalyzerClaims.

#[local] Open Scope Q_scope.

Lemma confidence_bonus_amended c :
  P.confidence_bonus c = amended_confidence_bonus c.
Proof. destruct c; reflexivity. Qed.

(** C6: a batch with exactly one validly analyzed article yields no
    contrarian. In the production analyzer the opinion holds a share of 1
    (100 percent) of both distributions, is minority on neither, and the list of
    contrarians is empty; in the simplified analyzer its one record has
    [was_contrarian = false]. *)
Theorem C6_single_opinion_never_contrarian :
  forall (analyzed_articles : list P.Article.t)
         (actual_result : option P.ActualResult.t)
         (analyzed_articles' : list S.Article.t)
         (actual_result' : option S.ActualResult.t) (today : string),
    length (P.valid_articles analyzed_articles) = 1%nat ->
    length (S.valid_articles analyzed_articles') = 1%nat ->
    (forall article analysis,
       (article, analysis) ∈ P.valid_articles analyzed_articles ->
       let valid := P.valid_articles analyzed_articles in
       sentiment_share valid analysis == 1
       /\ prediction_share valid analysis == 1
       /\ Py.lt (sentiment_share valid analysis) (4 # 10) = false
       /\ Py.lt (prediction_share valid analysis) (4 # 10) = false)
    /\ P.identify_contrarians analyzed_articles actual_result = []
    /\ length (S.identify_contrarians analyzed_articles' actual_result' today) = 1%nat
    /\ (forall r,
          r ∈ S.identify_contrarians analyzed_articles' actual_result' today ->
          S.ContrarianRecord.was_contrarian r = false).
Proof.
  intros arts ar arts' ar' today H H'.
  unfold P.identify_contrarians, S.identify_contrarians. cbv zeta.
  destruct (P.valid_articles arts) as [| [a an] [| ? ?]]; try discriminate H.
  destruct (S.valid_articles arts') as [| [a' an'] [| ? ?]]; try discriminate H'.
  clear H H'. split; [| split; [| split]].
  - intros article analysis Hin.
    apply list_elem_of_singleton in Hin. injection Hin as -> ->.
    unfold sentiment_share, prediction_share. simpl map.
    rewrite !Counter_singleton.
    repeat split.
  - unfold P.examine_article. simpl map. simpl omap.
    rewrite !Counter_singleton. reflexivity.
  - reflexivity.
  - intros r Hr. simpl map in Hr. apply list_elem_of_singleton in Hr. subst r.
    simpl. rewrite !most_common_singleton, !String.eqb_refl. reflexivity.
Qed.

Lemma C6_witness :
  P.identify_contrarians [Batch.alice] (Some Batch.rose) = []
  /\ forall r,
       r ∈ S.identify_contrarians [Batch.simple_article "Alice Moore" "bullish" "miss"]
             None "2024-11-02" ->
       S.ContrarianRecord.was_contrarian r = false.
Proof.
  pose proof (C6_single_opinion_never_contrarian
                [Batch.alice] (Some Batch.rose)
                [Batch.simple_article "Alice Moore" "bullish" "miss"] None
                "2024-11-02" eq_refl eq_refl) as (_ & H1 & _ & H2).
  split; [exact H1 | exact H2].
Defined.

(** C4, as the specification states it, fails: a lone bullish voice among
    five (share 20 percent), minority on sentiment only, with no confidence
    and no outcome, scores 85 = (1 - 0.2) x 100 + 5, not
    80 = (1 - 0.2) x 100 + 0. *)
Lemma C4_counterexample :
  exists f,
    P.identify_contrarians Batch.five_sentiment_only None = [f]
    /\ P.Contrarian.author f = "Alice Moore"
    /\ P.Contrarian.confidence f = "unknown"
    /\ P.Contrarian.was_minority_sentiment f = true
    /\ P.Contrarian.was_minority_prediction f = false
    /\ P.Contrarian.sentiment_percentage f == 20
    /\ P.Contrarian.contrarian_score f == 85
    /\ ~ P.Contrarian.contrarian_score f == (1 - (2 # 10)) * 100 + 0.
Proof.
  eexists. split; [vm_compute; reflexivity |].
  repeat split; try reflexivity. intros H. vm_compute in H. discriminate H.
Qed.

(** C4 (amended): in the production analyzer a dimension (sentiment or
    prediction) of an opinion is minority when its share of the batch is
    below 0.4. A minority dimension contributes (1 - share) x 100 plus a
    bonus of 20 for high, 10 for medium and 5 for any other or missing
    confidence (the sentiment dimension reads [confidence], the prediction
    dimension [prediction_confidence]), the whole times 1.5 when an outcome
    exists and that dimension is correct; a dimension that is not minority
    contributes nothing. Every finding carries the two minority flags of its
    opinion and, as its score, the sum of the two contributions rounded to
    two decimals: a value within one hundredth of that sum. Every opinion
    that is minority on a dimension has such a finding. *)
Theorem C4_score_is_sum_of_minority_dimensions :
  forall analyzed_articles actual_result,
    let valid := P.valid_articles analyzed_articles in
    (forall f,
       f ∈ P.identify_contrarians analyzed_articles actual_result ->
       exists article analysis,
         (article, analysis) ∈ valid
         /\ P.Contrarian.author f = P.Article.author article
         /\ P.Contrarian.was_minority_sentiment f
            = Py.lt (sentiment_share valid analysis) (4 # 10)
         /\ P.Contrarian.was_minority_prediction f
            = Py.lt (prediction_share valid analysis) (4 # 10)
         /\ P.Contrarian.was_minority_sentiment f
            || P.Contrarian.was_minority_prediction f = true
         /\ Qabs (P.Contrarian.contrarian_score f
                  - sum_of_contributions valid actual_result analysis)
            <= 1 # 100)
    /\ (forall article analysis,
          (article, analysis) ∈ valid ->
          Py.lt (sentiment_share valid analysis) (4 # 10)
          || Py.lt (prediction_share valid analysis) (4 # 10) = true ->
          exists f,
            f ∈ P.identify_contrarians analyzed_articles actual_result
            /\ P.Contrarian.author f = P.Article.author article
            /\ Qabs (P.Contrarian.contrarian_score f
                     - sum_of_contributions valid actual_result analysis)
               <= 1 # 100).
Proof.
  intros arts ar valid.
  assert (Hscore : forall entry f,
             P.examine_article
               (Py.Counter (map (fun e => P.Analysis.sentiment (snd e)) valid))
               (Py.Counter (map (fun e => P.Analysis.earnings_prediction (snd e)) valid))
               (Z.of_nat (length valid)) ar entry = Some f ->
             P.Contrarian.author f = P.Article.author (fst entry)
             /\ P.Contrarian.was_minority_sentiment f
                = Py.lt (sentiment_share valid (snd entry)) (4 # 10)
             /\ P.Contrarian.was_minority_prediction f
                = Py.lt (prediction_share valid (snd entry)) (4 # 10)
             /\ P.Contrarian.was_minority_sentiment f
                || P.Contrarian.was_minority_prediction f = true
             /\ Qabs (P.Contrarian.contrarian_score f
                      - sum_of_contributions valid ar (snd entry))
                <= 1 # 100).
  { intros entry f He. examine_inv He. subst f.
    split; [reflexivity |]. split; [reflexivity |]. split; [reflexivity |].
    split; [exact Eminority |].
    apply Qle_trans with (1 # 200); [| discriminate].
    cbn [P.Contrarian.contrarian_score snd].
    match goal with
    | |- Qabs (Py.round ?raw 2 - ?sum) <= _ =>
        assert (E : raw == sum)
    end.
    { unfold sum_of_contributions, sentiment_share, prediction_share. cbv zeta.
      unfold dimension_contribution.
      rewrite !confidence_bonus_amended.
      destruct (Py.lt _ (4 # 10)), (Py.lt _ (4 # 10));
        destruct (bool_decide (is_Some ar)), (P.sentiment_correct analysis ar),
          (P.prediction_correct analysis ar); simpl; ring. }
    rewrite (round_comp _ _ 2 E). apply round_close. }
  split.
  - intros f Hf. apply identify_contrarians_elem in Hf as ([article analysis] & Hin & He).
    exists article, analysis. split; [exact Hin |]. exact (Hscore _ _ He).
  - intros article analysis Hin Hmin.
    assert (He : exists f,
               P.examine_article
                 (Py.Counter (map (fun e => P.Analysis.sentiment (snd e)) valid))
                 (Py.Counter (map (fun e => P.Analysis.earnings_prediction (snd e)) valid))
                 (Z.of_nat (length valid)) ar (article, analysis) = Some f).
    { unfold P.examine_article. cbv zeta.
      unfold sentiment_share, prediction_share in Hmin. rewrite Hmin. eauto. }
    destruct He as [f He]. exists f. split.
    + apply identify_contrarians_elem. exists (article, analysis).
      split; [exact Hin | exact He].
    + destruct (Hscore _ _ He) as (Ha & _ & _ & _ & Hs). split; assumption.
Qed.

Lemma C4_witness :
  exists f,
    f ∈ P.identify_contrarians Batch.five (Some Batch.rose)
    /\ P.Contrarian.contrarian_score f == (425 # 2)
    /\ exists article analysis,
         (article, analysis) ∈ P.valid_articles Batch.five
         /\ P.Contrarian.author f = P.Article.author article
         /\ Qabs (P.Contrarian.contrarian_score f
                  - sum_of_contributions (P.valid_articles Batch.five)
                      (Some Batch.rose) analysis)
            <= 1 # 100.
Proof.
  assert (Hin : exists f, P.identify_contrarians Batch.five (Some Batch.rose) = [f])
    by (eexists; vm_compute; reflexivity).
  destruct Hin as [f Hf]. exists f.
  assert (Hel : f ∈ P.identify_contrarians Batch.five (Some Batch.rose))
    by (rewrite Hf; apply list_elem_of_singleton; reflexivity).
  split; [exact Hel |]. split.
  - vm_compute in Hf. injection Hf as <-. reflexivity.
  - destruct (C4_score_is_sum_of_minority_dimensions Batch.five (Some Batch.rose))
      as [H _].
    destruct (H f Hel) as (article & analysis & Hv & Ha & _ & _ & _ & Hs).
    exists article, analysis. split; [exact Hv |]. split; [exact Ha | exact Hs].
Defined.

(** C2, as the specification states it, fails in both analyzers: with no
    outcome, the finding of the production analyzer carries
    [sentiment_correct = False] and [prediction_correct = False], and the
    record of the simplified analyzer carries [was_correct = False]. *)
Lemma C2_counterexample :
  (exists f,
     P.identify_contrarians Batch.five None = [f]
     /\ P.Contrarian.author f = "Alice Moore"
     /\ P.Contrarian.sentiment_correct f = false
     /\ P.Contrarian.prediction_correct f = false)
  /\ (exists r,
        S.identify_contrarians [Batch.simple_article "Alice Moore" "bullish" "miss"]
          None "2024-11-02" = [r]
        /\ S.ContrarianRecord.was_correct r = false).
Proof.
  split; eexists; (split; [vm_compute; reflexivity |]); repeat split.
Qed.

(** C2 (amended): when the event has no outcome, the analyzers, whose
    correctness fields are booleans, report [False] next to a marker of the
    missing outcome ([actual_result_available = False] in the production
    analyzer, [actual_result = 'unknown'] in the simplified one); the ledger
    evaluates the correctness of every finding as unknown ([None]), and a
    merge leaves the success and failure counters found under every
    identity as they were (0 and 0 for an author it creates). *)
Theorem C2_unresolved_outcome_is_unknown_in_ledger :
  (forall analyzed_articles f,
     f ∈ P.identify_contrarians analyzed_articles None ->
     P.Contrarian.sentiment_correct f = false
     /\ P.Contrarian.prediction_correct f = false
     /\ P.Contrarian.actual_result_available f = false)
  /\ (forall analyzed_articles today r,
        r ∈ S.identify_contrarians analyzed_articles None today ->
        S.ContrarianRecord.was_correct r = false
        /\ S.ContrarianRecord.actual_result r = "unknown")
  /\ (forall contrarian, L._evaluate_contrarian_accuracy contrarian None = None)
  /\ (forall fs report_data contrarians now fs' id,
        L.actual_result report_data = None ->
        L.add_contrarian_analysis fs report_data contrarians now = Py.Ok fs' ->
        tally (L._load_existing_data fs') id = tally (L._load_existing_data fs) id).
Proof.
  split; [| split; [| split]].
  - intros arts f Hf.
    apply identify_contrarians_elem in Hf as (entry & _ & He).
    examine_inv He. subst f. repeat split.
  - intros arts today r Hr. unfold S.identify_contrarians in Hr. cbv zeta in Hr.
    destruct (S.valid_articles arts) as [| e0 rest].
    + apply elem_of_nil in Hr. destruct Hr.
    + apply list_elem_of_fmap in Hr as ([a an] & -> & _). split; reflexivity.
  - reflexivity.
  - intros fs report_data contrarians now fs' id Hnone Hadd.
    apply add_contrarian_analysis_inv in Hadd as (t' & fs1 & Hs & _ & ->).
    rewrite Hnone in Hs. rewrite tally_read.
    eapply process_contrarians_unresolved; eauto.
Qed.

Lemma C2_witness :
  exists fs',
    L.add_contrarian_analysis Demo.after_aapl Demo.aapl_report_unresolved
      [Demo.john_smith_aapl] "2024-01-27 09:00:00" = Py.Ok fs'
    /\ tally (L._load_existing_data Demo.after_aapl) "john_smith" = (1, 0)%Z
    /\ tally (L._load_existing_data fs') "john_smith" = (1, 0)%Z.
Proof.
  eexists. split; [vm_compute; reflexivity |].
  split; [vm_compute; reflexivity |].
  destruct C2_unresolved_outcome_is_unknown_in_ledger as (_ & _ & _ & H).
  rewrite (H Demo.after_aapl Demo.aapl_report_unresolved [Demo.john_smith_aapl]
             "2024-01-27 09:00:00" _ "john_smith" eq_refl);
    vm_compute; reflexivity.
Defined.

(** C3, as the specification states it, fails in its second half. The lone
    bullish voice that expected a miss is correct for the analyzer when the
    stock rises by 5 percent (the sentiment matches). Merged into the
    ledger, its finding is not counted as a success: the ledger evaluates it
    as unknown, since it looks for the prediction under a key the finding
    does not have; and once the prediction is supplied under that key, the
    ledger compares predictions only and counts a failure. *)
Lemma C3_counterexample :
  P.was_correct (Batch.analysis "bullish" "miss" None None) (Some Batch.rose) = true
  /\ (exists f,
        P.identify_contrarians Batch.five (Some Batch.rose) = [f]
        /\ P.Contrarian.author f = "Alice Moore"
        /\ P.Contrarian.sentiment_correct f = true
        /\ L._evaluate_contrarian_accuracy (X.ledger_contrarian f)
             (L.actual_result (X.ledger_report (Batch.report (Some Batch.rose))))
           = None)
  /\ tally (L._load_existing_data
              (X.update_master_contrarian_database Demo.fresh
                 (Batch.report (Some Batch.rose)) "2024-11-02 09:00:00"))
       "alice_moore" = (0, 0)%Z
  /\ L._evaluate_contrarian_accuracy Batch.alice_with_prediction_key
       (L.actual_result (X.ledger_report (Batch.report (Some Batch.rose))))
     = Some false
  /\ (exists fs',
        L.add_contrarian_analysis Demo.fresh
          (X.ledger_report (Batch.report (Some Batch.rose)))
          [Batch.alice_with_prediction_key] "2024-11-02 09:00:00" = Py.Ok fs'
        /\ tally (L._load_existing_data fs') "alice_moore" = (0, 1)%Z).
Proof.
  split; [reflexivity |].
  split; [eexists; split; [vm_compute; reflexivity | repeat split] |].
  split; [vm_compute; reflexivity |].
  split; [reflexivity |].
  eexists. split; vm_compute; reflexivity.
Qed.

(** C3 (amended): when the event has an outcome, an opinion is correct for
    the analyzers exactly when at least one comparison matches: its
    sentiment equals the sentiment read off the price move (bullish above
    +3 percent, bearish below -3 percent, neutral otherwise), or its
    prediction equals the outcome's result. The ledger applies its own,
    stricter test when it merges a finding: the finding counts as correct
    exactly when the prediction it reads under ['earnings_prediction'] and
    the outcome's result are, lower-cased, the same one of beat, miss and
    meet; the sentiment plays no part. *)
Theorem C3_correctness_analyzer_or_ledger_prediction_only :
  (forall analysis actual_result,
     P.was_correct analysis (Some actual_result) = true <->
     P.Analysis.sentiment analysis = P.actual_sentiment actual_result
     \/ P.Analysis.earnings_prediction analysis = P.ActualResult.result actual_result)
  /\ (forall analysis actual_result,
        S.was_correct analysis (Some actual_result) = true <->
        S.Analysis.sentiment analysis =
          (if Py.gt (S.ActualResult.price_change_percent actual_result) 3 then "bullish"
           else if Py.lt (S.ActualResult.price_change_percent actual_result) (-3)
                then "bearish" else "neutral")
        \/ S.Analysis.earnings_prediction analysis = S.ActualResult.result actual_result)
  /\ (forall contrarian actual_result,
        let prediction := Py.lower (L.get (L.earnings_prediction contrarian) "") in
        let actual_outcome := Py.lower (L.get (L.result actual_result) "") in
        L._evaluate_contrarian_accuracy contrarian (Some actual_result) = Some true <->
        (prediction = "beat" \/ prediction = "miss" \/ prediction = "meet")
        /\ actual_outcome = prediction).
Proof.
  split; [| split].
  - intros analysis ar. unfold P.was_correct, P.sentiment_correct, P.prediction_correct.
    rewrite orb_true_iff, !String.eqb_eq. reflexivity.
  - intros analysis ar. unfold S.was_correct. cbv zeta.
    rewrite orb_true_iff, !String.eqb_eq. tauto.
  - intros c ar. cbv zeta. unfold L._evaluate_contrarian_accuracy.
    set (p := Py.lower _). set (a := Py.lower _).
    destruct (String.eqb_spec p "beat") as [Hp1 | Hp1];
      destruct (String.eqb_spec a "beat") as [Ha1 | Ha1]; simpl;
      try (split; [intros _; split; [tauto | congruence] | reflexivity]);
      destruct (String.eqb_spec p "miss") as [Hp2 | Hp2];
      destruct (String.eqb_spec a "miss") as [Ha2 | Ha2]; simpl;
      try (split; [intros _; split; [tauto | congruence] | reflexivity]);
      destruct (String.eqb_spec p "meet") as [Hp3 | Hp3];
      destruct (String.eqb_spec a "meet") as [Ha3 | Ha3]; simpl;
      try (split; [intros _; split; [tauto | congruence] | reflexivity]);
      (split; [destruct (Py.truthy p && Py.truthy a); discriminate |]);
      intros [[E | [E | E]] Ea]; congruence.
Qed.

Lemma C3_witness :
  L._evaluate_contrarian_accuracy Demo.john_smith_msft
    (L.actual_result Demo.msft_report) = Some true
  /\ L._evaluate_contrarian_accuracy Demo.john_smith_msft
       (L.actual_result Demo.aapl_report) <> Some true.
Proof.
  destruct C3_correctness_analyzer_or_ledger_prediction_only as (_ & _ & H).
  split.
  - apply (H Demo.john_smith_msft {| L.result := Some "miss" |}).
    split; [right; left; reflexivity | reflexivity].
  - intros E. apply (H Demo.john_smith_msft {| L.result := Some "beat" |}) in E.
    destruct E as [_ E]. discriminate E.
Defined.

End AnalyzerClaims.

(** ** Properties of the risk tier and of the queries *)

Section TierAndQueryClaims.

Import MasterContrarianDatabase.

(** C1, as the specification states it, fails on a row that has just been
    created: John Smith's row after the first report has tier [New], where
    the function of (success rate, instances, consistency) gives
    [Unknown]. *)
Lemma C1_counterexample :
  ~ (forall fs id e,
       reachable fs -> _load_existing_data fs !! id = Some e ->
       Risk_Level e =
       spec_risk_tier (defined_rate e) (Total_Contrarian_Instances e)
         (Consistency_Score e)).
Proof.
  intros H.
  assert (E : exists e, _load_existing_data Demo.after_aapl !! "john_smith" = Some e
                        /\ Risk_Level e = "New"
                        /\ spec_risk_tier (defined_rate e)
                             (Total_Contrarian_Instances e) (Consistency_Score e)
                           = "Unknown")
    by (eexists; split; [vm_compute; reflexivity | split; reflexivity]).
  destruct E as (e & He & Hnew & Hspec).
  specialize (H Demo.after_aapl "john_smith" e after_aapl_reachable He).
  rewrite Hnew, Hspec in H. discriminate H.
Qed.

(** C1 (amended): on a success rate that is undefined ([None]) or a number,
    [_calculate_risk_level] is the function of the success rate, the
    contrarian instances and the consistency score that the specification
    gives: unknown with fewer than 2 instances or an undefined rate;
    low-risk from a rate of 70 with 3 instances; high-risk below a rate of
    30 or a consistency of 20; medium-risk otherwise. A merge step that
    finds the author in the table writes a row whose risk tier is that
    function of the row's new values, when the new success rate is undefined
    or a number; a step that creates the row gives it the tier [New],
    whatever the three inputs. *)
Theorem C1_risk_tier_written_by_merge_step :
  (forall author_data,
     Contrarian_Success_Rate author_data <> Some Py.NaN ->
     _calculate_risk_level author_data =
     spec_risk_tier (defined_rate author_data)
       (Total_Contrarian_Instances author_data) (Consistency_Score author_data))
  /\ (forall company symbol earnings_date actual_result now t fs contrarian t' fs',
        process_contrarian company symbol earnings_date actual_result now (t, fs)
          contrarian = Py.Ok (t', fs') ->
        exists e',
          t' !! contrarian_id contrarian = Some e'
          /\ (is_Some (t !! contrarian_id contrarian) ->
              Contrarian_Success_Rate e' <> Some Py.NaN ->
              Risk_Level e' =
              spec_risk_tier (defined_rate e') (Total_Contrarian_Instances e')
                (Consistency_Score e'))
          /\ (t !! contrarian_id contrarian = None -> Risk_Level e' = "New")).
Proof.
  split; [exact calculate_risk_level_refines |].
  intros company symbol earnings_date actual_result now t fs c t' fs' H.
  apply process_contrarian_inv in H as (e' & -> & He & _).
  exists e'. split; [apply lookup_insert_eq |].
  destruct (t !! contrarian_id c) as [d |].
  - split; [| discriminate]. intros _ Hn.
    cbv zeta in He. update_inv He. subst e'.
    rewrite Risk_Level_set.
    match goal with
    | |- _calculate_risk_level ?updated = _ =>
        exact (calculate_risk_level_refines updated Hn)
    end.
  - split; [intros [d Hd]; discriminate Hd |]. intros _. subst e'. reflexivity.
Qed.

(** John Smith's second report, both of his calls correct. *)
Lemma john_smith_after_msft t' fs' e' :
  process_contrarian "Microsoft Corporation" "MSFT" "2024-01-24"
    (actual_result Demo.msft_report) "2024-01-25 09:00:00"
    (_load_existing_data Demo.after_aapl, Demo.after_aapl) Demo.john_smith_msft
  = Py.Ok (t', fs') ->
  t' !! "john_smith" = Some e' ->
  Contrarian_Success_Rate e' = Some (Py.Float 100).
Proof.
  intros E He.
  apply process_contrarian_inv in E as (e'' & -> & Hu & _).
  change (contrarian_id Demo.john_smith_msft) with "john_smith" in He, Hu.
  rewrite lookup_insert_eq in He. injection He as ->.
  destruct (_load_existing_data Demo.after_aapl !! "john_smith") as [d |] eqn:Hd;
    [| vm_compute in Hd; discriminate Hd].
  revert Hu. vm_compute in Hd. injection Hd as <-.
  intros Hu. vm_compute in Hu. injection Hu as <-. reflexivity.
Qed.

Lemma C1_witness :
  exists t' fs' e',
    process_contrarian "Microsoft Corporation" "MSFT" "2024-01-24"
      (actual_result Demo.msft_report) "2024-01-25 09:00:00"
      (_load_existing_data Demo.after_aapl, Demo.after_aapl) Demo.john_smith_msft
    = Py.Ok (t', fs')
    /\ t' !! "john_smith" = Some e'
    /\ Contrarian_Success_Rate e' = Some (Py.Float 100)
    /\ Risk_Level e' =
       spec_risk_tier (defined_rate e') (Total_Contrarian_Instances e')
         (Consistency_Score e').
Proof.
  assert (E : exists st,
             process_contrarian "Microsoft Corporation" "MSFT" "2024-01-24"
               (actual_result Demo.msft_report) "2024-01-25 09:00:00"
               (_load_existing_data Demo.after_aapl, Demo.after_aapl)
               Demo.john_smith_msft = Py.Ok st)
    by (eexists; vm_compute; reflexivity).
  destruct E as [[t' fs'] E].
  assert (Hl : is_Some (_load_existing_data Demo.after_aapl
                          !! contrarian_id Demo.john_smith_msft))
    by (eexists; vm_compute; reflexivity).
  destruct (proj2 C1_risk_tier_written_by_merge_step _ _ _ _ _ _ _ _ _ _ E)
    as (e' & He & Hr & _).
  pose proof (john_smith_after_msft t' fs' e' E He) as Hrate.
  exists t', fs', e'. split; [exact E |]. split; [exact He |].
  split; [exact Hrate |].
  apply Hr; [exact Hl |]. rewrite Hrate. discriminate.
Defined.

(** C9 fails in the code for the top-N query on a ledger without rows. A
    fresh ledger is the master file that [_initialize_master_csv] writes:
    the header and no row. Read from it, the columns of the frame have no
    numeric type and [DataFrame.nlargest] raises a [TypeError], whatever
    the limit and the column, where the claim asks for an empty result. The
    files are as they were. *)
Theorem C9_top_contrarians_raises_on_fresh_ledger :
  master_csv Demo.fresh = Some (Rows [])
  /\ (forall limit sort_by,
        get_top_contrarians Demo.fresh limit sort_by
        = (Py.Raise Py.TypeError, Demo.fresh)).
Proof. split; reflexivity. Qed.

End TierAndQueryClaims.

(** * Further properties *)

(** ** The merge, counted *)

Section MergeCounting.

Import MasterContrarianDatabase.

Variables (company symbol earnings_date : string).
Variable actual_result : option ActualResult.
Variable now : string.

Abbreviation step1 :=
  (process_contrarian company symbol earnings_date actual_result now).
Abbreviation stepn :=
  (process_contrarians company symbol earnings_date actual_result now).

(** The files after a step: one more row at the end of the author's
    history. *)
Lemma process_contrarian_files t fs c t' fs' :
  step1 (t, fs) c = Py.Ok (t', fs') ->
  _save_author_history fs (contrarian_id c) (get (author c) "Unknown")
    company symbol earnings_date c
    (_evaluate_contrarian_accuracy c actual_result) now = Py.Ok fs'.
Proof.
  unfold process_contrarian, contrarian_id. intros H.
  destruct (_save_author_history _ _ _ _ _ _ _ _ _) as [fs1 | x].
  - destruct (t !! _) as [d |].
    + destruct (_update_existing_author _ _ _ _ _ _ _ _) as [e' | x];
        simpl in H; [| discriminate].
      injection H as _ <-. reflexivity.
    + simpl in H. injection H as _ <-. reflexivity.
  - destruct (t !! _) as [d |]; simpl in H; [| discriminate].
    destruct (_update_existing_author _ _ _ _ _ _ _ _); discriminate.
Qed.

(** The four counters of the author after a step. *)
Lemma process_contrarian_counts t fs c t' fs' :
  step1 (t, fs) c = Py.Ok (t', fs') ->
  let id := contrarian_id c in
  let verdict := _evaluate_contrarian_accuracy c actual_result in
  field_or_zero Total_Earnings_Calls t' id
  = field_or_zero Total_Earnings_Calls t id + 1
  /\ field_or_zero Total_Contrarian_Instances t' id
     = field_or_zero Total_Contrarian_Instances t id + 1
  /\ field_or_zero Successful_Contrarian_Calls t' id
     = field_or_zero Successful_Contrarian_Calls t id
       + (if bool_decide (verdict = Some true) then 1 else 0)
  /\ field_or_zero Failed_Contrarian_Calls t' id
     = field_or_zero Failed_Contrarian_Calls t id
       + (if bool_decide (verdict = Some false) then 1 else 0).
Proof.
  intros H. apply process_contrarian_inv in H as (e' & -> & He & _).
  cbv zeta. unfold field_or_zero. rewrite lookup_insert_eq.
  destruct (t !! contrarian_id c) as [d |].
  - cbv zeta in He. update_inv He. subst e'. simpl.
    destruct (_evaluate_contrarian_accuracy c actual_result) as [[|] |];
      simpl; repeat split; lia.
  - subst e'. simpl.
    destruct (_evaluate_contrarian_accuracy c actual_result) as [[|] |];
      simpl; repeat split; lia.
Qed.

Lemma findings_of_cons id c cs :
  findings_of id (c :: cs)
  = if String.eqb (contrarian_id c) id then c :: findings_of id cs
    else findings_of id cs.
Proof. reflexivity. Qed.

(** The four counters of every identity after the loop: each advances by
    the number of findings of the batch that concern it. *)
Lemma process_contrarians_counts cs : forall t fs t' fs' id,
  stepn (t, fs) cs = Py.Ok (t', fs') ->
  field_or_zero Total_Earnings_Calls t' id
  = field_or_zero Total_Earnings_Calls t id + Z.of_nat (length (findings_of id cs))
  /\ field_or_zero Total_Contrarian_Instances t' id
     = field_or_zero Total_Contrarian_Instances t id
       + Z.of_nat (length (findings_of id cs))
  /\ field_or_zero Successful_Contrarian_Calls t' id
     = field_or_zero Successful_Contrarian_Calls t id
       + Z.of_nat (length (findings_with_verdict actual_result (Some true) id cs))
  /\ field_or_zero Failed_Contrarian_Calls t' id
     = field_or_zero Failed_Contrarian_Calls t id
       + Z.of_nat (length (findings_with_verdict actual_result (Some false) id cs)).
Proof.
  induction cs as [| c cs IH]; intros t fs t' fs' id H.
  - injection H as <- <-. simpl. repeat split; lia.
  - rewrite process_contrarians_cons in H.
    destruct (step1 (t, fs) c) as [[t1 fs1] | x] eqn:E; simpl in H; [| discriminate].
    destruct (IH _ _ _ _ id H) as (I1 & I2 & I3 & I4).
    rewrite I1, I2, I3, I4. clear I1 I2 I3 I4.
    unfold findings_with_verdict. rewrite findings_of_cons.
    destruct (String.eqb_spec (contrarian_id c) id) as [Heq | Hne].
    + subst id. destruct (process_contrarian_counts _ _ _ _ _ E) as (C1 & C2 & C3 & C4).
      rewrite C1, C2, C3, C4. simpl List.filter.
      destruct (bool_decide (_ = Some true)) eqn:B1;
        destruct (bool_decide (_ = Some false)) eqn:B2;
        simpl length; repeat split; lia.
    + assert (F : t1 !! id = t !! id)
        by (eapply process_contrarian_frame; [exact E | congruence]).
      unfold field_or_zero. rewrite F. repeat split; reflexivity.
Qed.

Lemma findings_of_nil_iff id cs :
  findings_of id cs = [] <-> id ∉ map contrarian_id cs.
Proof.
  induction cs as [| c cs IH].
  - split; [intros _ H; apply elem_of_nil in H; destruct H | reflexivity].
  - rewrite findings_of_cons. cbn [map]. rewrite not_elem_of_cons.
    destruct (String.eqb_spec (contrarian_id c) id) as [Heq | Hne].
    + split; [discriminate | intros [H _]; congruence].
    + rewrite IH. split; [intros H; split; [congruence | exact H] | tauto].
Qed.

(** A row exists after the loop exactly when it existed before or the
    batch concerns its identity. *)
Lemma process_contrarians_dom cs : forall t fs t' fs' id,
  stepn (t, fs) cs = Py.Ok (t', fs') ->
  is_Some (t' !! id) <-> is_Some (t !! id) \/ id ∈ map contrarian_id cs.
Proof.
  induction cs as [| c cs IH]; intros t fs t' fs' id H.
  - injection H as <- <-. simpl. rewrite elem_of_nil. tauto.
  - rewrite process_contrarians_cons in H.
    destruct (step1 (t, fs) c) as [[t1 fs1] | x] eqn:E; simpl in H; [| discriminate].
    rewrite (IH _ _ _ _ id H). simpl. rewrite elem_of_cons.
    apply process_contrarian_inv in E as (e' & -> & _ & _).
    rewrite lookup_insert. case_decide as Hid.
    + split; [intros _; right; left; congruence | intros _; left; eauto].
    + split; [tauto | intros [? | [? | ?]]; [tauto | congruence | tauto]].
Qed.



Abbreviation latest := (latest_from company symbol earnings_date actual_result now).

Lemma process_contrarian_latest t fs c t' fs' :
  step1 (t, fs) c = Py.Ok (t', fs') ->
  exists e', t' !! contrarian_id c = Some e' /\ latest c e'.
Proof.
  intros H. apply process_contrarian_inv in H as (e' & -> & Hu & _).
  exists e'. split; [apply lookup_insert_eq |].
  destruct (t !! contrarian_id c) as [d |].
  - cbv zeta in Hu. update_inv Hu. subst e'. repeat split.
  - subst e'. repeat split.
Qed.

Lemma process_contrarians_latest cs : forall t fs t' fs' id c,
  stepn (t, fs) cs = Py.Ok (t', fs') ->
  last (findings_of id cs) = Some c ->
  exists e', t' !! id = Some e' /\ latest c e'.
Proof.
  induction cs as [| c0 cs IH]; intros t fs t' fs' id c H Hl.
  - discriminate Hl.
  - rewrite process_contrarians_cons in H.
    destruct (step1 (t, fs) c0) as [[t1 fs1] | x] eqn:E; simpl in H; [| discriminate].
    rewrite findings_of_cons in Hl.
    destruct (findings_of id cs) as [| c1 l] eqn:F.
    + destruct (String.eqb_spec (contrarian_id c0) id) as [Heq | Hne];
        [| discriminate Hl].
      injection Hl as <-. subst id.
      destruct (process_contrarian_latest _ _ _ _ _ E) as (e1 & H1 & L1).
      exists e1. split; [| exact L1].
      rewrite <- H1. eapply process_contrarians_frame; [exact H |].
      apply findings_of_nil_iff. exact F.
    + apply (IH _ _ _ _ id c H). rewrite F.
      destruct (String.eqb (contrarian_id c0) id); exact Hl.
Qed.

(** The history files after the loop: for every identity the old rows,
    then one row per finding of the batch that concerns it. *)
Lemma process_contrarians_history cs : forall t fs t' fs' id,
  stepn (t, fs) cs = Py.Ok (t', fs') ->
  (exists rows,
     history_of fs' id = (history_of fs id ++ rows)%list
     /\ length rows = length (findings_of id cs)
     /\ Forall (fun r => Company r = company /\ Symbol r = symbol
                         /\ Earnings_Date r = earnings_date /\ Date_Added r = now)
          rows)
  /\ (is_Some (author_histories fs' !! id) <->
      is_Some (author_histories fs !! id) \/ id ∈ map contrarian_id cs).
Proof.
  induction cs as [| c cs IH]; intros t fs t' fs' id H.
  - injection H as <- <-. split.
    + exists []. rewrite app_nil_r. repeat split. constructor.
    + simpl. rewrite elem_of_nil. tauto.
  - rewrite process_contrarians_cons in H.
    destruct (step1 (t, fs) c) as [[t1 fs1] | x] eqn:E; simpl in H; [| discriminate].
    destruct (IH _ _ _ _ id H) as ((rows & Hh & Hlen & Hall) & Hdom).
    apply process_contrarian_files in E. unfold _save_author_history in E.
    destruct (Py.has_char "/" (contrarian_id c)); [discriminate E |].
    injection E as <-.
    rewrite findings_of_cons. split.
    + unfold history_of in *. rewrite Hh. simpl author_histories.
      rewrite lookup_insert. case_decide as Hid.
      * subst id. rewrite String.eqb_refl. eexists (_ :: rows).
        split; [simpl; rewrite <- app_assoc; reflexivity |].
        split; [simpl; congruence |].
        constructor; [repeat split | exact Hall].
      * destruct (String.eqb_spec (contrarian_id c) id); [congruence |].
        exists rows. repeat split; assumption.
    + rewrite Hdom. simpl. rewrite lookup_insert, elem_of_cons.
      case_decide as Hid.
      * split; [intros _; right; left; congruence | intros _; left; eauto].
      * split; [tauto | intros [? | [? | ?]]; [tauto | congruence | tauto]].
Qed.

End MergeCounting.

Section MergeExtras.

Import MasterContrarianDatabase.

Lemma calculate_risk_level_not_new d : _calculate_risk_level d <> "New".
Proof.
  unfold _calculate_risk_level.
  destruct (Contrarian_Success_Rate d); [| discriminate].
  repeat (match goal with |- context [if ?b then _ else _] => destruct b end);
    discriminate.
Qed.

Lemma create_new_author_record_row_ok
    author_name company symbol earnings_date contrarian_type was_correct score now :
  row_ok (_generate_author_id author_name)
    (_create_new_author_record author_name (_generate_author_id author_name)
       company symbol earnings_date contrarian_type was_correct score now).
Proof. split; simpl; try reflexivity; try lia. split; reflexivity. Qed.

Lemma update_existing_author_row_ok
    id d company symbol earnings_date contrarian_type was_correct score now d' :
  entry_ok d -> row_ok id d ->
  _update_existing_author d company symbol earnings_date contrarian_type
    was_correct score now = Py.Ok d' ->
  row_ok id d'.
Proof.
  intros [_ Hi _ _ _ _] [Hk Hn Hr Hnew Hl Hc] H.
  cbv zeta in H. update_inv H. subst d'. split; simpl.
  - exact Hk.
  - exact Hn.
  - destruct (1 <? _) eqn:E; [reflexivity | apply Z.ltb_ge in E; lia].
  - split; [intros E; destruct (calculate_risk_level_not_new _ E) | lia].
  - reflexivity.
  - destruct (negb _); [| exact Hc].
    rewrite length_app. simpl. lia.
Qed.

Lemma process_contrarian_rows_ok company symbol earnings_date actual_result now
    t fs c t' fs' :
  (forall id e, t !! id = Some e -> entry_ok e /\ row_ok id e) ->
  process_contrarian company symbol earnings_date actual_result now (t, fs) c
  = Py.Ok (t', fs') ->
  forall id e, t' !! id = Some e -> row_ok id e.
Proof.
  intros Ht H. apply process_contrarian_inv in H as (e' & -> & Hu & _).
  intros id e. rewrite lookup_insert. case_decide as Hid; [| apply Ht].
  intros [= <-]. subst id.
  destruct (t !! contrarian_id c) as [d |] eqn:Ed.
  - destruct (Ht _ _ Ed) as [He Hr].
    eapply update_existing_author_row_ok; eauto.
  - subst e'. apply create_new_author_record_row_ok.
Qed.

Lemma process_contrarians_rows_ok company symbol earnings_date actual_result now cs :
  forall t fs t' fs',
    (forall id e, t !! id = Some e -> entry_ok e /\ row_ok id e) ->
    process_contrarians company symbol earnings_date actual_result now (t, fs) cs
    = Py.Ok (t', fs') ->
    forall id e, t' !! id = Some e -> entry_ok e /\ row_ok id e.
Proof.
  induction cs as [| c cs IH]; intros t fs t' fs' Ht H.
  - injection H as <- <-. exact Ht.
  - rewrite process_contrarians_cons in H.
    destruct (process_contrarian _ _ _ _ _ _ _) as [[t1 fs1] | x] eqn:E;
      simpl in H; [| discriminate].
    eapply IH; [| exact H]. intros id e He.
    split.
    + exact (process_contrarian_ok company symbol earnings_date actual_result
               now t fs c t1 fs1 (fun i x Hx => proj1 (Ht i x Hx)) E _ _ He).
    + exact (process_contrarian_rows_ok _ _ _ _ _ _ _ _ _ _ Ht E _ _ He).
Qed.

(** Reading a row leaves its counters and its identity as they are. *)
Lemma field_or_zero_read (field : AuthorRecord -> Z) t id :
  (forall e, field (read_row e) = field e) ->
  field_or_zero field (read_row <$> t) id = field_or_zero field t id.
Proof.
  intros Hf. unfold field_or_zero. rewrite lookup_fmap.
  destruct (t !! id); simpl; [apply Hf | reflexivity].
Qed.

Lemma read_row_row_ok id e : row_ok id e -> row_ok id (read_row e).
Proof. intros [H1 H2 H3 H4 H5 H6]. split; assumption. Qed.

Lemma is_Some_read (t : gmap string AuthorRecord) id :
  is_Some ((read_row <$> t) !! id) <-> is_Some (t !! id).
Proof. rewrite lookup_fmap. apply fmap_is_Some. Qed.

Lemma fresh_files_ok : files_ok (_initialize_master_csv no_files).
Proof.
  split.
  - exists ∅. split; [apply keys_ok_empty |].
    rewrite map_to_list_empty. reflexivity.
  - intros id e. change (_load_existing_data (_initialize_master_csv no_files))
      with (∅ : gmap string AuthorRecord).
    rewrite lookup_empty. discriminate.
  - intros id. reflexivity.
  - intros id. change (_load_existing_data (_initialize_master_csv no_files))
      with (∅ : gmap string AuthorRecord).
    simpl. rewrite !lookup_empty. split; intros [x Hx]; discriminate Hx.
Qed.

Lemma add_contrarian_analysis_files_ok fs report_data contrarians now fs' :
  files_ok fs ->
  add_contrarian_analysis fs report_data contrarians now = Py.Ok fs' ->
  files_ok fs'.
Proof.
  intros [Hm Hrows Hh Hd] Hadd.
  destruct (add_contrarian_analysis_inv _ _ _ _ _ Hadd) as (t' & fs1 & Hs & Hfs & Hl).
  assert (Hk : keys_ok t')
    by (eapply process_contrarians_keys; [apply load_keys_ok | exact Hs]).
  split.
  - exists t'. split; [exact Hk |]. rewrite Hfs. reflexivity.
  - rewrite Hl. intros id e. rewrite lookup_fmap.
    destruct (t' !! id) as [e0 |] eqn:E0; simpl; [| discriminate].
    intros [= <-].
    destruct (process_contrarians_rows_ok _ _ _ _ _ _ _ _ _ _ Hrows Hs _ _ E0)
      as [He Hr].
    split; [apply read_row_ok, He | apply read_row_row_ok, Hr].
  - intros id. rewrite Hl, field_or_zero_read by reflexivity.
    destruct (process_contrarians_history _ _ _ _ _ _ _ _ _ _ id Hs)
      as ((rows & Hrows' & Hlen & _) & _).
    destruct (process_contrarians_counts _ _ _ _ _ _ _ _ _ _ id Hs) as (_ & Hc & _).
    rewrite Hc, <- Hh. subst fs'. unfold history_of in *. simpl author_histories.
    rewrite Hrows', length_app, Hlen. lia.
  - intros id. rewrite Hl, is_Some_read.
    destruct (process_contrarians_history _ _ _ _ _ _ _ _ _ _ id Hs) as (_ & Hd').
    subst fs'. simpl author_histories.
    rewrite Hd', (process_contrarians_dom _ _ _ _ _ _ _ _ _ _ id Hs), Hd.
    reflexivity.
Qed.

(** Every ledger the code produces has well-formed files. *)
Lemma reachable_files_ok fs : reachable fs -> files_ok fs.
Proof.
  induction 1 as [| fs report_data contrarians now fs' _ IH Hadd].
  - apply fresh_files_ok.
  - eapply add_contrarian_analysis_files_ok; eauto.
Qed.

(** X1: a successful merge is additive for every plain identity:
    appearances and contrarian instances advance by the number of findings
    of the batch merged under it, successes by the number of those the
    ledger evaluates as correct, failures by the number it evaluates as
    wrong (counters of a missing row count as 0). *)
Theorem merge_is_additive :
  forall fs report_data contrarians now fs' id,
    add_contrarian_analysis fs report_data contrarians now = Py.Ok fs' ->
    plain_id id = true ->
    let before := _load_existing_data fs in
    let after := _load_existing_data fs' in
    let outcome := actual_result report_data in
    field_or_zero Total_Earnings_Calls after id
    = field_or_zero Total_Earnings_Calls before id
      + Z.of_nat (length (findings_of id contrarians))
    /\ field_or_zero Total_Contrarian_Instances after id
       = field_or_zero Total_Contrarian_Instances before id
         + Z.of_nat (length (findings_of id contrarians))
    /\ field_or_zero Successful_Contrarian_Calls after id
       = field_or_zero Successful_Contrarian_Calls before id
         + Z.of_nat (length (findings_with_verdict outcome (Some true) id contrarians))
    /\ field_or_zero Failed_Contrarian_Calls after id
       = field_or_zero Failed_Contrarian_Calls before id
         + Z.of_nat (length (findings_with_verdict outcome (Some false) id contrarians)).
Proof.
  intros fs report_data contrarians now fs' id Hadd _.
  apply add_contrarian_analysis_inv in Hadd as (t' & fs1 & Hs & _ & ->).
  cbv zeta. rewrite !field_or_zero_read by reflexivity.
  eapply process_contrarians_counts. exact Hs.
Qed.

Lemma merge_is_additive_witness :
  exists fs',
    add_contrarian_analysis Demo.after_aapl Demo.msft_report
      [Demo.john_smith_msft; Demo.john_smith_msft] "2024-01-25 09:00:00" = Py.Ok fs'
    /\ field_or_zero Total_Contrarian_Instances (_load_existing_data fs') "john_smith"
       = 3
    /\ field_or_zero Successful_Contrarian_Calls (_load_existing_data fs') "john_smith"
       = 3.
Proof.
  assert (A : exists fs',
             add_contrarian_analysis Demo.after_aapl Demo.msft_report
               [Demo.john_smith_msft; Demo.john_smith_msft] "2024-01-25 09:00:00"
             = Py.Ok fs')
    by (eexists; vm_compute; reflexivity).
  destruct A as [fs' A]. exists fs'. split; [exact A |].
  destruct (merge_is_additive _ _ _ _ _ "john_smith" A eq_refl) as (_ & H2 & H3 & _).
  split; [rewrite H2 | rewrite H3]; vm_compute; reflexivity.
Defined.

End MergeExtras.

(** ** Insertion sorts *)

Section InsertionSort.

Context {A : Type} (geb : A -> A -> bool).
Hypothesis geb_total : forall x y, geb x y = false -> geb y x = true.
Hypothesis geb_trans : forall x y z, geb x y = true -> geb y z = true -> geb x z = true.

Variable insert : A -> list A -> list A.
Hypothesis insert_nil : forall x, insert x [] = [x].
Hypothesis insert_cons : forall x y l,
  insert x (y :: l) = if geb x y then x :: y :: l else y :: insert x l.

Lemma insert_perm x l : insert x l ≡ₚ x :: l.
Proof.
  induction l as [| y l IH].
  - rewrite insert_nil. reflexivity.
  - rewrite insert_cons. destruct (geb x y); [reflexivity |].
    rewrite IH. apply Permutation_swap.
Qed.

Lemma insert_sorted x l :
  StronglySorted (fun a b => geb a b = true) l ->
  StronglySorted (fun a b => geb a b = true) (insert x l).
Proof.
  induction l as [| y l IH]; intros Hs.
  - rewrite insert_nil. repeat constructor.
  - rewrite insert_cons. destruct (geb x y) eqn:E.
    + constructor; [exact Hs |]. constructor; [exact E |].
      apply StronglySorted_inv in Hs as [_ Hy].
      eapply Forall_impl; [exact Hy |]. intros z Hz. eapply geb_trans; eauto.
    + apply StronglySorted_inv in Hs as [Hl Hy].
      constructor; [apply IH, Hl |].
      rewrite insert_perm. constructor; [apply geb_total, E | exact Hy].
Qed.

Lemma foldr_insert_sorted l :
  foldr insert [] l ≡ₚ l
  /\ StronglySorted (fun a b => geb a b = true) (foldr insert [] l).
Proof.
  induction l as [| x l [IHp IHs]]; simpl.
  - split; [reflexivity | constructor].
  - split; [rewrite insert_perm, IHp; reflexivity | apply insert_sorted, IHs].
Qed.

End InsertionSort.

Section Orders.

#[local] Open Scope Q_scope.

Lemma ge_total x y : Py.ge x y = false -> Py.ge y x = true.
Proof. rewrite ge_false, ge_true. apply Qlt_le_weak. Qed.

Lemma ge_trans x y z : Py.ge x y = true -> Py.ge y z = true -> Py.ge x z = true.
Proof. rewrite !ge_true. intros H1 H2. eapply Qle_trans; eauto. Qed.

Lemma cell_ge_total a b : L.cell_ge a b = false -> L.cell_ge b a = true.
Proof.
  destruct a, b; simpl; try discriminate; try reflexivity. apply ge_total.
Qed.

Lemma cell_ge_trans a b c :
  L.cell_ge a b = true -> L.cell_ge b c = true -> L.cell_ge a c = true.
Proof.
  destruct a, b, c; simpl; try discriminate; try reflexivity. apply ge_trans.
Qed.

(** [df.nlargest(n, column)] is the start of a sorted rearrangement of the
    rows. *)
Lemma nlargest_sorted n c df :
  df <> [] ->
  exists sorted,
    sorted ≡ₚ df /\ StronglySorted (by_cell_desc c) sorted
    /\ L.nlargest n c df = Py.Ok (firstn (Z.to_nat n) sorted).
Proof.
  intros Hdf.
  destruct (foldr_insert_sorted
              (fun x y => L.cell_ge (L.cell c x) (L.cell c y))
              (fun x y => cell_ge_total _ _)
              (fun x y z => cell_ge_trans _ _ _)
              (L.insert_desc c) (fun x => eq_refl) (fun x y l => eq_refl) df)
    as [Hp Hs].
  exists (foldr (L.insert_desc c) [] df). split; [exact Hp |].
  split; [exact Hs |]. destruct df; [congruence | reflexivity].
Qed.

(** [contrarians.sort(..., reverse=True)] rearranges the findings, highest
    score first. *)
Lemma sort_by_score_sorted l :
  P.sort_by_score l ≡ₚ l /\ StronglySorted by_score_desc (P.sort_by_score l).
Proof.
  apply (foldr_insert_sorted
           (fun x y => Py.ge (P.Contrarian.contrarian_score x)
                         (P.Contrarian.contrarian_score y))
           (fun x y => ge_total _ _) (fun x y z => ge_trans _ _ _)
           P.insert_by_score (fun x => eq_refl) (fun x y l => eq_refl)).
Qed.

End Orders.

(** ** Properties of the merge *)

Section MergeProperties.

Import MasterContrarianDatabase.

(** X2: after a successful merge a plain identity has a row exactly when it
    had one before or a finding of the batch is merged under it: rows are
    created for new authors and never deleted. *)
Theorem merge_creates_and_never_deletes_rows :
  forall fs report_data contrarians now fs' id,
    add_contrarian_analysis fs report_data contrarians now = Py.Ok fs' ->
    plain_id id = true ->
    (is_Some (_load_existing_data fs' !! id) <->
     is_Some (_load_existing_data fs !! id) \/ id ∈ map contrarian_id contrarians).
Proof.
  intros fs report_data contrarians now fs' id Hadd _.
  apply add_contrarian_analysis_inv in Hadd as (t' & fs1 & Hs & _ & ->).
  rewrite is_Some_read. eapply process_contrarians_dom. exact Hs.
Qed.

Lemma merge_creates_and_never_deletes_rows_witness :
  exists fs',
    add_contrarian_analysis Demo.after_aapl Demo.msft_report
      [Demo.john_smith_msft] "2024-01-25 09:00:00" = Py.Ok fs'
    /\ is_Some (_load_existing_data fs' !! "sarah_johnson")
    /\ ~ is_Some (_load_existing_data fs' !! "mike_davis").
Proof.
  eexists. split; [vm_compute; reflexivity |].
  pose proof (fun id => merge_creates_and_never_deletes_rows Demo.after_aapl
                          Demo.msft_report [Demo.john_smith_msft]
                          "2024-01-25 09:00:00" _ id eq_refl) as H.
  split.
  - apply H; [reflexivity |]. left. vm_compute. eauto.
  - intros Hs. apply H in Hs; [| reflexivity]. destruct Hs as [[x Hx] | Hin].
    + vm_compute in Hx. discriminate Hx.
    + apply list_elem_of_In in Hin. vm_compute in Hin.
      destruct Hin as [Hin | []]. discriminate Hin.
Defined.



(** X4: the loop of a merge leaves, in the row of every author of the
    batch, the report's date as [Last_Seen_Date] and
    [Latest_Earnings_Date] (no date is compared: an earlier report moves
    them back), the report's company and symbol, and the contrarian type
    and the correctness of the last finding of the batch merged under that
    identity. *)
Theorem merge_sets_latest_fields_from_last_finding :
  forall company symbol earnings_date actual_result now t fs contrarians t' fs' id c,
    process_contrarians company symbol earnings_date actual_result now (t, fs)
      contrarians = Py.Ok (t', fs') ->
    last (findings_of id contrarians) = Some c ->
    exists e',
      t' !! id = Some e'
      /\ Last_Seen_Date e' = earnings_date
      /\ Latest_Earnings_Date e' = earnings_date
      /\ Latest_Company e' = company
      /\ Latest_Symbol e' = symbol
      /\ Latest_Contrarian_Type e' = _determine_contrarian_type c
      /\ Latest_Was_Correct e' = _evaluate_contrarian_accuracy c actual_result
      /\ Last_Updated e' = now.
Proof.
  intros company symbol earnings_date actual_result now t fs contrarians t' fs'
    id c Hs Hl.
  destruct (process_contrarians_latest _ _ _ _ _ _ _ _ _ _ _ _ Hs Hl)
    as (e' & He' & L).
  exists e'. split; [exact He' | exact L].
Qed.

Lemma merge_sets_latest_fields_from_last_finding_witness :
  exists t' fs' e',
    process_contrarians "Microsoft Corporation" "MSFT" "2024-01-24"
      (actual_result Demo.msft_report) "2024-01-25 09:00:00"
      (_load_existing_data Demo.after_aapl, Demo.after_aapl)
      [Demo.john_smith_msft] = Py.Ok (t', fs')
    /\ t' !! "john_smith" = Some e'
    /\ Last_Seen_Date e' = "2024-01-24"
    /\ Latest_Was_Correct e' = Some true.
Proof.
  assert (A : exists st,
             process_contrarians "Microsoft Corporation" "MSFT" "2024-01-24"
               (actual_result Demo.msft_report) "2024-01-25 09:00:00"
               (_load_existing_data Demo.after_aapl, Demo.after_aapl)
               [Demo.john_smith_msft] = Py.Ok st)
    by (eexists; vm_compute; reflexivity).
  destruct A as [[t' fs'] A].
  destruct (merge_sets_latest_fields_from_last_finding _ _ _ _ _ _ _ _ _ _
              "john_smith" Demo.john_smith_msft A eq_refl)
    as (e' & He' & Hd & _ & _ & _ & _ & Hw & _).
  exists t', fs', e'. split; [exact A |]. split; [exact He' |].
  split; [exact Hd | exact Hw].
Defined.

(** X5: the history files are append-only: after a successful merge the history
    of every identity is its old history followed by one row per finding of
    the batch merged under it, each carrying the report's company, symbol
    and date; a history file exists afterwards exactly when it existed
    before or the batch concerns the identity. *)
Theorem merge_appends_to_histories :
  forall fs report_data contrarians now fs' id,
    add_contrarian_analysis fs report_data contrarians now = Py.Ok fs' ->
    (exists rows,
       history_of fs' id = (history_of fs id ++ rows)%list
       /\ length rows = length (findings_of id contrarians)
       /\ Forall (fun r => Company r = get (company report_data) "Unknown"
                           /\ Symbol r = get (symbol report_data) "UNK"
                           /\ Earnings_Date r = get (earnings_date report_data) ""
                           /\ Date_Added r = now) rows)
    /\ (is_Some (author_histories fs' !! id) <->
        is_Some (author_histories fs !! id) \/ id ∈ map contrarian_id contrarians).
Proof.
  intros fs report_data contrarians now fs' id Hadd.
  apply add_contrarian_analysis_inv in Hadd as (t' & fs1 & Hs & -> & _).
  apply (process_contrarians_history _ _ _ _ _ _ _ _ _ _ id Hs).
Qed.

Lemma merge_appends_to_histories_witness :
  exists fs',
    add_contrarian_analysis Demo.after_aapl Demo.msft_report
      [Demo.john_smith_msft] "2024-01-25 09:00:00" = Py.Ok fs'
    /\ length (history_of Demo.after_aapl "john_smith") = 1%nat
    /\ length (history_of fs' "john_smith") = 2%nat.
Proof.
  assert (A : exists fs',
             add_contrarian_analysis Demo.after_aapl Demo.msft_report
               [Demo.john_smith_msft] "2024-01-25 09:00:00" = Py.Ok fs')
    by (eexists; vm_compute; reflexivity).
  destruct A as [fs' A].
  destruct (merge_appends_to_histories _ _ _ _ _ "john_smith" A)
    as ((rows & Hh & Hlen & _) & _).
  exists fs'. split; [exact A |]. split; [vm_compute; reflexivity |].
  rewrite Hh, length_app, Hlen. vm_compute. reflexivity.
Defined.

(** No merge divides by zero. *)
Lemma update_existing_author_no_zero_division
    d company symbol earnings_date contrarian_type was_correct score now :
  entry_ok d ->
  _update_existing_author d company symbol earnings_date contrarian_type
    was_correct score now <> Py.Raise Py.ZeroDivisionError.
Proof.
  intros [Hc Hi _ _ _ _] H. unfold _update_existing_author in H.
  destruct (Companies_List d); [| discriminate H].
  unfold Py.bind in H.
  destruct (_ =? 0) eqn:E1 in H; [apply Z.eqb_eq in E1; lia |].
  destruct (_ =? 0) eqn:E2 in H; [apply Z.eqb_eq in E2; lia |].
  discriminate H.
Qed.

Lemma process_contrarian_no_zero_division
    company symbol earnings_date actual_result now t fs c :
  table_ok t ->
  process_contrarian company symbol earnings_date actual_result now (t, fs) c
  <> Py.Raise Py.ZeroDivisionError.
Proof.
  intros Ht. unfold process_contrarian, _save_author_history.
  destruct (t !! _) as [d |] eqn:Ed.
  - pose proof (update_existing_author_no_zero_division d company symbol
                  earnings_date (_determine_contrarian_type c)
                  (_evaluate_contrarian_accuracy c actual_result)
                  (get (contrarian_score c) 0%Q) now (Ht _ _ Ed)) as Hu.
    destruct (_update_existing_author _ _ _ _ _ _ _ _) as [e' | x]; simpl.
    + destruct (Py.has_char "/" _); discriminate.
    + congruence.
  - simpl. destruct (Py.has_char "/" _); discriminate.
Qed.

Lemma process_contrarians_no_zero_division
    company symbol earnings_date actual_result now cs : forall t fs,
  table_ok t ->
  process_contrarians company symbol earnings_date actual_result now (t, fs) cs
  <> Py.Raise Py.ZeroDivisionError.
Proof.
  induction cs as [| c cs IH]; intros t fs Ht; [discriminate |].
  rewrite process_contrarians_cons.
  destruct (process_contrarian _ _ _ _ _ (t, fs) c) as [[t1 fs1] | x] eqn:E; simpl.
  - apply IH. eapply process_contrarian_ok; eauto.
  - intros [= ->]. eapply process_contrarian_no_zero_division; eauto.
Qed.

End MergeProperties.

(** ** Properties of the ledgers the code produces *)

Section ReachableLedgers.

Import MasterContrarianDatabase.
#[local] Open Scope Q_scope.

(** What is loaded from a master file that lists a dict is that dict, read
    row by row, and its rows are the rows of the frame. *)
Lemma load_listed fs t :
  keys_ok t -> master_csv fs = Some (Rows (map_to_list t).*2) ->
  _load_existing_data fs = read_row <$> t
  /\ forall r, r ∈ map read_row (map_to_list t).*2
               <-> (read_row <$> t) !! Author_ID r = Some r.
Proof.
  intros Hk Hm. split.
  - rewrite <- (load_save fs t Hk). unfold _load_existing_data. rewrite Hm.
    reflexivity.
  - intros r. change (map read_row (map_to_list t).*2)
      with (read_row <$> (map_to_list t).*2).
    rewrite <- list_fmap_compose, list_elem_of_fmap, lookup_fmap. split.
    + intros ([k e] & -> & Hin). apply elem_of_map_to_list in Hin.
      simpl. rewrite (Hk _ _ Hin), Hin. reflexivity.
    + intros Hr. destruct (t !! Author_ID r) as [e |] eqn:E; [| discriminate].
      simpl in Hr. injection Hr as <-.
      exists (Author_ID (read_row e), e). split; [reflexivity |].
      apply elem_of_map_to_list. exact E.
Qed.

(** X6: in every ledger the code produces, a row found under a plain
    identity carries it as [Author_ID], and it is the normalized
    [Author_Name]; the [Repeat_Contrarian_Count] of the row is its
    contrarian instances minus one; its risk tier is [New] exactly while it
    has a single instance; its [Latest_Earnings_Date] is its
    [Last_Seen_Date]; and it covers at least one company. *)
Theorem reachable_rows_are_well_formed :
  forall fs, reachable fs ->
    forall id e, _load_existing_data fs !! id = Some e ->
      plain_id id = true ->
      Author_ID e = id
      /\ _generate_author_id (Author_Name e) = id
      /\ (Repeat_Contrarian_Count e = Total_Contrarian_Instances e - 1)%Z
      /\ (Risk_Level e = "New" <-> Total_Contrarian_Instances e = 1%Z)
      /\ Latest_Earnings_Date e = Last_Seen_Date e
      /\ (1 <= Total_Companies_Covered e)%Z.
Proof.
  intros fs Hr id e He _.
  destruct (files_rows _ (reachable_files_ok fs Hr) id e He) as [_ [H1 H2 H3 H4 H5 H6]].
  repeat split; try assumption; apply H4.
Qed.

Lemma reachable_rows_are_well_formed_witness :
  exists e,
    _load_existing_data Demo.after_aapl !! "sarah_johnson" = Some e
    /\ _generate_author_id (Author_Name e) = "sarah_johnson"
    /\ (Repeat_Contrarian_Count e = Total_Contrarian_Instances e - 1)%Z.
Proof.
  assert (E : exists e, _load_existing_data Demo.after_aapl !! "sarah_johnson" = Some e)
    by (eexists; vm_compute; reflexivity).
  destruct E as [e He]. exists e. split; [exact He |].
  destruct (reachable_rows_are_well_formed Demo.after_aapl after_aapl_reachable
              "sarah_johnson" e He eq_refl) as (_ & H2 & H3 & _).
  split; assumption.
Defined.

(** X7: in every ledger the code produces, the history log agrees with the
    master table on the plain identities: looking up the history of the
    author of a row, by the name stored in the row, returns a history with
    exactly as many rows as the row counts contrarian instances; and a name
    whose identity has no row has no history. *)
Theorem reachable_history_agrees_with_ledger :
  forall fs, reachable fs ->
    (forall id e, _load_existing_data fs !! id = Some e ->
       plain_id id = true ->
       exists h,
         fst (get_author_history fs (Author_Name e)) = Py.Ok (Some h)
         /\ Z.of_nat (length h) = Total_Contrarian_Instances e)
    /\ (forall author_name,
          plain_id (_generate_author_id author_name) = true ->
          _load_existing_data fs !! _generate_author_id author_name = None ->
          fst (get_author_history fs author_name) = Py.Ok None).
Proof.
  intros fs Hr. pose proof (reachable_files_ok fs Hr) as [_ Hrows Hh Hd]. split.
  - intros id e He _. destruct (Hrows id e He) as [_ [_ Hn _ _ _ _]].
    unfold get_author_history. simpl. rewrite Hn.
    assert (Hs : is_Some (author_histories fs !! id)) by (apply Hd; eauto).
    destruct Hs as [h Hs]. exists h. rewrite Hs. split; [reflexivity |].
    specialize (Hh id). unfold history_of, field_or_zero in Hh.
    rewrite Hs, He in Hh. exact Hh.
  - intros author_name _ Hn. unfold get_author_history. simpl.
    destruct (author_histories fs !! _generate_author_id author_name) eqn:E;
      [| reflexivity].
    assert (Hs : is_Some (_load_existing_data fs !! _generate_author_id author_name))
      by (apply Hd; eauto).
    rewrite Hn in Hs. destruct Hs as [x Hx]. discriminate Hx.
Qed.

Lemma reachable_history_agrees_with_ledger_witness :
  exists h,
    fst (get_author_history Demo.after_aapl "John Smith") = Py.Ok (Some h)
    /\ length h = 1%nat
    /\ fst (get_author_history Demo.after_aapl "Mike Davis") = Py.Ok None.
Proof.
  destruct (reachable_history_agrees_with_ledger Demo.after_aapl after_aapl_reachable)
    as [H1 H2].
  assert (E : exists e, _load_existing_data Demo.after_aapl !! "john_smith" = Some e
                        /\ Author_Name e = "John Smith"
                        /\ Total_Contrarian_Instances e = 1%Z)
    by (eexists; repeat split; vm_compute; reflexivity).
  destruct E as (e & He & Hname & Hinst).
  destruct (H1 _ _ He eq_refl) as (h & Hh & Hlen). rewrite Hname in Hh.
  exists h. split; [exact Hh |]. split; [lia |].
  apply H2; [reflexivity |]. vm_compute. reflexivity.
Defined.

(** X8: on a ledger the code produces, with plain identities only, the
    queries on the master table return rows of the ledger.
    [get_repeat_contrarians] returns exactly the rows with at least
    [min_instances] contrarian instances. When the ledger has a row,
    [get_top_contrarians] returns the first [limit] rows (none for a
    negative limit) of a rearrangement of all rows of the ledger in which
    every row has a cell at least as high as those of the rows after it,
    missing values last. *)
Theorem reachable_queries_return_ledger_rows :
  forall fs, reachable fs ->
    plain_ids (_load_existing_data fs) ->
    forall limit sort_by min_instances,
      (exists repeaters,
         fst (get_repeat_contrarians fs min_instances) = Py.Ok repeaters
         /\ forall r,
              r ∈ repeaters <->
              _load_existing_data fs !! Author_ID r = Some r
              /\ (min_instances <= Total_Contrarian_Instances r)%Z)
      /\ (_load_existing_data fs <> ∅ ->
          exists sorted,
            (forall r, r ∈ sorted <-> _load_existing_data fs !! Author_ID r = Some r)
            /\ length sorted = size (_load_existing_data fs)
            /\ StronglySorted (by_cell_desc sort_by) sorted
            /\ fst (get_top_contrarians fs limit sort_by)
               = Py.Ok (firstn (Z.to_nat limit) sorted)).
Proof.
  intros fs Hr _ limit sort_by min_instances.
  destruct (files_master _ (reachable_files_ok fs Hr)) as (t & Hk & Hm).
  destruct (load_listed fs t Hk Hm) as [Hl Hrows]. rewrite Hl.
  unfold get_repeat_contrarians, get_top_contrarians. rewrite Hm. simpl. split.
  - eexists. split; [reflexivity |]. intros r.
    rewrite list_elem_of_In, filter_In, <- list_elem_of_In, Hrows, Z.leb_le.
    reflexivity.
  - intros Hne.
    assert (Hdf : map read_row (map_to_list t).*2 <> []).
    { intros E. apply Hne. apply map_eq. intros i. rewrite lookup_empty.
      destruct ((read_row <$> t) !! i) as [r |] eqn:Ei; [| reflexivity].
      rewrite lookup_fmap in Ei.
      destruct (t !! i) as [e |] eqn:Et; [| discriminate].
      apply elem_of_map_to_list in Et.
      assert (Hin : read_row e ∈ map read_row (map_to_list t).*2).
      { apply list_elem_of_In, in_map, list_elem_of_In, list_elem_of_fmap.
        exists (i, e). split; [reflexivity | exact Et]. }
      rewrite E in Hin. apply elem_of_nil in Hin. destruct Hin. }
    destruct (nlargest_sorted limit sort_by _ Hdf) as (sorted & Hp & Hs & Hn).
    exists sorted. split; [| split; [| split]].
    + intros r. rewrite Hp. apply Hrows.
    + rewrite Hp, length_map, length_fmap, map_size_fmap.
      apply length_map_to_list.
    + exact Hs.
    + rewrite Hn. reflexivity.
Qed.

Lemma reachable_queries_return_ledger_rows_witness :
  exists top,
    fst (get_top_contrarians Demo.after_aapl 1 Col_Overall_Contrarian_Score) = Py.Ok top
    /\ length top = 1%nat.
Proof.
  assert (Hp : plain_ids (_load_existing_data Demo.after_aapl)).
  { apply map_Forall_to_list.
    assert (E : exists l, map_to_list (_load_existing_data Demo.after_aapl) = l
                          /\ Forall (fun p => plain_id (fst p) = true) l)
      by (eexists; split; [vm_compute; reflexivity | repeat constructor]).
    destruct E as (l & -> & Hl).
    eapply Forall_impl; [exact Hl |]. intros [id e] H. exact H. }
  assert (Hne : _load_existing_data Demo.after_aapl <> ∅).
  { intros E. apply (f_equal (fun t => t !! "john_smith")) in E.
    vm_compute in E. discriminate E. }
  destruct (reachable_queries_return_ledger_rows Demo.after_aapl after_aapl_reachable
              Hp 1 Col_Overall_Contrarian_Score 2)
    as (_ & Htop).
  destruct (Htop Hne) as (sorted & _ & Hlen & _ & Ht).
  eexists. split; [exact Ht |].
  rewrite length_take, Hlen.
  assert (Hsz : size (_load_existing_data Demo.after_aapl) = 2%nat)
    by (vm_compute; reflexivity).
  rewrite Hsz. reflexivity.
Defined.

(** X9: in every ledger the code produces, the success and failure counters
    of a row are not negative; a row with a resolved call (successes +
    failures > 0) has a success rate that is a number between 0 and 100;
    a row without one carries no number; and no further merge divides by
    zero. *)
Theorem reachable_success_rate_is_bounded :
  forall fs, reachable fs ->
    (forall id e, _load_existing_data fs !! id = Some e ->
       (0 <= Successful_Contrarian_Calls e)%Z
       /\ (0 <= Failed_Contrarian_Calls e)%Z
       /\ ((0 < Successful_Contrarian_Calls e + Failed_Contrarian_Calls e)%Z ->
           exists r, Contrarian_Success_Rate e = Some (Py.Float r) /\ 0 <= r <= 100)
       /\ ((Successful_Contrarian_Calls e + Failed_Contrarian_Calls e = 0)%Z ->
           defined_rate e = None))
    /\ (forall report_data contrarians now,
          add_contrarian_analysis fs report_data contrarians now
          <> Py.Raise Py.ZeroDivisionError).
Proof.
  intros fs Hr. pose proof (reachable_table_ok fs Hr) as Ht. split.
  - intros id e He. destruct (Ht id e He) as [_ _ Hs Hf Hrate _].
    split; [exact Hs |]. split; [exact Hf |]. unfold defined_rate.
    destruct (Contrarian_Success_Rate e) as [[r |] |]; split;
      try (intros Hpos; lia); try reflexivity.
    intros _. destruct Hrate as [Hpos ->]. eexists. split; [reflexivity |].
    apply (round_between 0 100). apply ratio_bounds; assumption.
  - intros report_data contrarians now. unfold add_contrarian_analysis. cbv zeta.
    pose proof (process_contrarians_no_zero_division
                  (get (company report_data) "Unknown")
                  (get (symbol report_data) "UNK")
                  (get (earnings_date report_data) "")
                  (actual_result report_data) now contrarians
                  (_load_existing_data fs) fs Ht) as Hz.
    destruct (process_contrarians _ _ _ _ _ _ _) as [st | x]; simpl;
      [discriminate | congruence].
Qed.

Lemma reachable_success_rate_is_bounded_witness :
  exists e r,
    _load_existing_data Demo.after_aapl !! "john_smith" = Some e
    /\ Contrarian_Success_Rate e = Some (Py.Float r) /\ 0 <= r <= 100.
Proof.
  assert (E : exists e, _load_existing_data Demo.after_aapl !! "john_smith" = Some e
                        /\ (0 < Successful_Contrarian_Calls e
                                + Failed_Contrarian_Calls e)%Z)
    by (eexists; split; vm_compute; reflexivity).
  destruct E as (e & He & Hpos).
  destruct (proj1 (reachable_success_rate_is_bounded Demo.after_aapl
                     after_aapl_reachable) _ _ He) as (_ & _ & H & _).
  destruct (H Hpos) as (r & Hrate & Hb).
  exists e, r. split; [exact He |]. split; [exact Hrate | exact Hb].
Defined.




End ReachableLedgers.

(** ** The verdict of the ledger *)

Section Verdict.

Import MasterContrarianDatabase.

Lemma truthy_false s : Py.truthy s = false <-> s = "".
Proof. destruct s; simpl; split; congruence. Qed.

Lemma truthy_true s : Py.truthy s = true <-> s <> "".
Proof. destruct s; simpl; split; congruence. Qed.

Lemma lower_truthy s : Py.truthy (Py.lower s) = Py.truthy s.
Proof. destruct s; reflexivity. Qed.

Lemma filter_none {A} (f : A -> bool) l :
  (forall x, In x l -> f x = false) -> List.filter f l = [].
Proof.
  induction l as [| x l IH]; intros H; [reflexivity |].
  simpl. rewrite (H x (or_introl eq_refl)). apply IH.
  intros y Hy. apply H. right. exact Hy.
Qed.

Lemma evaluate_without_prediction c actual_result :
  earnings_prediction c = None ->
  _evaluate_contrarian_accuracy c actual_result = None.
Proof.
  intros E. unfold _evaluate_contrarian_accuracy.
  destruct actual_result; [| reflexivity]. rewrite E. reflexivity.
Qed.

Lemma evaluate_against_unknown c :
  _evaluate_contrarian_accuracy c (Some {| result := Some "unknown" |})
  = if Py.truthy (get (earnings_prediction c) "") then Some false else None.
Proof.
  unfold _evaluate_contrarian_accuracy. cbn [result get].
  change (Py.lower "unknown") with "unknown".
  change (String.eqb "unknown" "beat") with false.
  change (String.eqb "unknown" "miss") with false.
  change (String.eqb "unknown" "meet") with false.
  rewrite !andb_false_r, lower_truthy, andb_true_r. reflexivity.
Qed.

(** X12: the verdict of the ledger on a finding is unknown exactly when
    there is no actual result, or the prediction or the result is missing
    or empty; it is a failure exactly when both are stated and they are
    not the same one of beat, miss and meet (compared in lower case): a
    result such as 'unknown' makes every stated prediction a failure. *)
Theorem verdict_unknown_or_failure :
  forall c actual_result,
    let prediction := Py.lower (get (earnings_prediction c) "") in
    let actual_outcome := Py.lower (get (result actual_result) "") in
    _evaluate_contrarian_accuracy c None = None
    /\ (_evaluate_contrarian_accuracy c (Some actual_result) = None
        <-> prediction = "" \/ actual_outcome = "")
    /\ (_evaluate_contrarian_accuracy c (Some actual_result) = Some false
        <-> prediction <> "" /\ actual_outcome <> ""
            /\ (prediction = actual_outcome ->
                prediction <> "beat" /\ prediction <> "miss" /\ prediction <> "meet")).
Proof.
  intros c actual_result. cbv zeta. unfold _evaluate_contrarian_accuracy.
  set (p := Py.lower _). set (a := Py.lower _).
  split; [reflexivity |].
  destruct (String.eqb_spec p "beat") as [Pb | Pb];
    destruct (String.eqb_spec a "beat") as [Ab | Ab];
    destruct (String.eqb_spec p "miss") as [Pm | Pm];
    destruct (String.eqb_spec a "miss") as [Am | Am];
    destruct (String.eqb_spec p "meet") as [Pe | Pe];
    destruct (String.eqb_spec a "meet") as [Ae | Ae];
    try congruence; simpl;
    destruct (Py.truthy p) eqn:Tp; destruct (Py.truthy a) eqn:Ta; simpl;
    try (apply truthy_true in Tp); try (apply truthy_false in Tp);
    try (apply truthy_true in Ta); try (apply truthy_false in Ta);
    (split; split; intros H; try discriminate H; try congruence; try tauto);
    try (destruct H as [H | H]; congruence);
    try (destruct H as (H1 & H2 & H3); try congruence;
         destruct H3 as (H4 & H5 & H6); congruence);
    try (repeat split; congruence).
Qed.

Lemma verdict_unknown_or_failure_witness :
  _evaluate_contrarian_accuracy Demo.john_smith_aapl
    (Some {| result := Some "unknown" |}) = Some false
  /\ _evaluate_contrarian_accuracy Demo.john_smith_aapl (Some {| result := None |})
     = None.
Proof.
  split.
  - apply (proj2 (proj2 (verdict_unknown_or_failure Demo.john_smith_aapl
                           {| result := Some "unknown" |}))).
    repeat split; try discriminate; intros E; discriminate E.
  - apply (proj1 (proj2 (verdict_unknown_or_failure Demo.john_smith_aapl
                           {| result := None |}))).
    right. reflexivity.
Defined.

End Verdict.

(** ** The paths into the ledger *)

Section Paths.

Import MasterContrarianDatabase.

Lemma verdicts_of_production_findings actual_result b id l :
  findings_with_verdict actual_result (Some b) id (map X.ledger_contrarian l) = [].
Proof.
  unfold findings_with_verdict. apply filter_none. intros c Hc.
  apply filter_In in Hc as [Hc _]. apply in_map_iff in Hc as (f & <- & _).
  rewrite evaluate_without_prediction by reflexivity.
  apply bool_decide_eq_false. discriminate.
Qed.

(** X13: the findings of the production analyzer never move a success or
    failure counter of the ledger: the exporter hands them over under the
    key ['prediction'], the ledger reads ['earnings_prediction'], so for
    every report and every plain identity both counters are after
    [update_master_contrarian_database] what they were before. *)
Theorem production_findings_never_move_the_counters :
  forall fs report now id,
    plain_id id = true ->
    let fs' := X.update_master_contrarian_database fs report now in
    field_or_zero Successful_Contrarian_Calls (_load_existing_data fs') id
    = field_or_zero Successful_Contrarian_Calls (_load_existing_data fs) id
    /\ field_or_zero Failed_Contrarian_Calls (_load_existing_data fs') id
       = field_or_zero Failed_Contrarian_Calls (_load_existing_data fs) id.
Proof.
  intros fs report now id _. cbv zeta.
  unfold X.update_master_contrarian_database.
  destruct (X.contrarian_analysts report) as [| f l] eqn:El; [split; reflexivity |].
  destruct (add_contrarian_analysis _ _ _ _) as [fs' | x] eqn:Hadd;
    [| split; reflexivity].
  apply add_contrarian_analysis_inv in Hadd as (t' & fs1 & Hs & _ & ->).
  rewrite !field_or_zero_read by reflexivity.
  destruct (process_contrarians_counts _ _ _ _ _ _ _ _ _ _ id Hs)
    as (_ & _ & H3 & H4).
  rewrite H3, H4, !verdicts_of_production_findings. simpl. split; lia.
Qed.

Lemma production_findings_never_move_the_counters_witness :
  field_or_zero Total_Contrarian_Instances
    (_load_existing_data
       (X.update_master_contrarian_database Demo.fresh
          (Batch.report (Some Batch.rose)) "2024-11-02 09:00:00"))
    "alice_moore" = 1
  /\ field_or_zero Successful_Contrarian_Calls
       (_load_existing_data
          (X.update_master_contrarian_database Demo.fresh
             (Batch.report (Some Batch.rose)) "2024-11-02 09:00:00"))
       "alice_moore" = 0.
Proof.
  split; [vm_compute; reflexivity |].
  rewrite (proj1 (production_findings_never_move_the_counters Demo.fresh
                    (Batch.report (Some Batch.rose)) "2024-11-02 09:00:00"
                    "alice_moore" eq_refl)).
  reflexivity.
Defined.

Lemma verdicts_against_unknown id cs :
  findings_with_verdict (Some {| result := Some "unknown" |}) (Some true) id cs = []
  /\ findings_with_verdict (Some {| result := Some "unknown" |}) (Some false) id cs
     = with_prediction (findings_of id cs).
Proof.
  unfold findings_with_verdict, with_prediction. split.
  - apply filter_none. intros c _. rewrite evaluate_against_unknown.
    apply bool_decide_eq_false. destruct (Py.truthy _); discriminate.
  - apply filter_ext. intros c. rewrite evaluate_against_unknown.
    destruct (Py.truthy _).
    + apply bool_decide_eq_true. reflexivity.
    + apply bool_decide_eq_false. discriminate.
Qed.

Lemma add_against_unknown fs report_data contrarians now fs' id :
  actual_result report_data = Some {| result := Some "unknown" |} ->
  add_contrarian_analysis fs report_data contrarians now = Py.Ok fs' ->
  field_or_zero Successful_Contrarian_Calls (_load_existing_data fs') id
  = field_or_zero Successful_Contrarian_Calls (_load_existing_data fs) id
  /\ field_or_zero Failed_Contrarian_Calls (_load_existing_data fs') id
     = field_or_zero Failed_Contrarian_Calls (_load_existing_data fs) id
       + Z.of_nat (length (with_prediction (findings_of id contrarians)))
  /\ field_or_zero Total_Contrarian_Instances (_load_existing_data fs') id
     = field_or_zero Total_Contrarian_Instances (_load_existing_data fs) id
       + Z.of_nat (length (findings_of id contrarians)).
Proof.
  intros Hr Hadd.
  apply add_contrarian_analysis_inv in Hadd as (t' & fs1 & Hs & _ & ->).
  rewrite !field_or_zero_read by reflexivity.
  destruct (process_contrarians_counts _ _ _ _ _ _ _ _ _ _ id Hs)
    as (_ & H2 & H3 & H4).
  rewrite Hr in H3, H4.
  destruct (verdicts_against_unknown id contrarians) as [V1 V2].
  rewrite V1 in H3. rewrite V2 in H4. simpl length in H3.
  repeat split; [lia | exact H4 | exact H2].
Qed.

(** X14: the ledger update of the pipeline can only record failures. It
    always reports the result 'unknown', so whatever the run holds no
    success counter moves; when the batch is merged, the failure counter
    of every plain identity advances by the number of its findings that
    state a prediction and its instance counter by the number of its
    findings; when nothing is merged (no finding, an empty list of target
    companies, or an exception) the master file is left as it was. *)
Theorem pipeline_update_records_failures_only :
  forall fs run now fs' outcome id,
    AutomatedPipeline._update_master_contrarian_database fs run now = (fs', outcome) ->
    plain_id id = true ->
    let before := _load_existing_data fs in
    let after := _load_existing_data fs' in
    let findings := findings_of id (AutomatedPipeline.contrarians run) in
    field_or_zero Successful_Contrarian_Calls after id
    = field_or_zero Successful_Contrarian_Calls before id
    /\ (outcome = AutomatedPipeline.Updated ->
        field_or_zero Failed_Contrarian_Calls after id
        = field_or_zero Failed_Contrarian_Calls before id
          + Z.of_nat (length (with_prediction findings))
        /\ field_or_zero Total_Contrarian_Instances after id
           = field_or_zero Total_Contrarian_Instances before id
             + Z.of_nat (length findings))
    /\ (outcome <> AutomatedPipeline.Updated -> master_csv fs' = master_csv fs)
    /\ (AutomatedPipeline.contrarians run = [] \/
        AutomatedPipeline.target_companies run = Some [] ->
        outcome <> AutomatedPipeline.Updated).
Proof.
  intros fs run now fs' outcome id H _. cbv zeta.
  unfold AutomatedPipeline._update_master_contrarian_database in H.
  destruct (AutomatedPipeline.contrarians run) as [| c cs] eqn:Ec.
  { injection H as <- <-. repeat split; try reflexivity; try discriminate. }
  destruct (AutomatedPipeline.report_data run) as [rd |] eqn:Er.
  - assert (Hr : actual_result rd = Some {| result := Some "unknown" |}).
    { unfold AutomatedPipeline.report_data in Er.
      destruct (head _); [| discriminate Er].
      destruct (head _); [| discriminate Er].
      injection Er as <-. reflexivity. }
    assert (Ht : AutomatedPipeline.target_companies run <> Some []).
    { intros E. unfold AutomatedPipeline.report_data in Er. rewrite E in Er.
      discriminate Er. }
    destruct (add_contrarian_analysis _ _ _ _) as [fs2 | x] eqn:Hadd;
      injection H as <- <-.
    + destruct (add_against_unknown _ _ _ _ _ id Hr Hadd) as (H1 & H2 & H3).
      repeat split; try assumption; try congruence.
      intros [? | ?]; congruence.
    + repeat split; try reflexivity; try discriminate.
  - injection H as <- <-. repeat split; try reflexivity; try discriminate.
Qed.

Lemma pipeline_update_records_failures_only_witness :
  exists fs',
    AutomatedPipeline._update_master_contrarian_database Demo.after_aapl
      {| AutomatedPipeline.contrarians := [Demo.john_smith_msft];
         AutomatedPipeline.target_companies := Some ["Apple"];
         AutomatedPipeline.start_time := Some "2024-02-01T08:30:00" |}
      "2024-02-01 08:31:00"
    = (fs', AutomatedPipeline.Updated)
    /\ field_or_zero Successful_Contrarian_Calls (_load_existing_data fs') "john_smith"
       = 1
    /\ field_or_zero Failed_Contrarian_Calls (_load_existing_data fs') "john_smith"
       = 1.
Proof.
  assert (A : exists fs',
             AutomatedPipeline._update_master_contrarian_database Demo.after_aapl
               {| AutomatedPipeline.contrarians := [Demo.john_smith_msft];
                  AutomatedPipeline.target_companies := Some ["Apple"];
                  AutomatedPipeline.start_time := Some "2024-02-01T08:30:00" |}
               "2024-02-01 08:31:00"
             = (fs', AutomatedPipeline.Updated))
    by (eexists; vm_compute; reflexivity).
  destruct A as [fs' A]. exists fs'. split; [exact A |].
  destruct (pipeline_update_records_failures_only _ _ _ _ _ "john_smith" A eq_refl)
    as (H1 & H2 & _).
  destruct (H2 eq_refl) as [H3 _].
  split; [rewrite H1 | rewrite H3]; vm_compute; reflexivity.
Defined.

End Paths.

(** ** Strings *)

Section Strings.

Lemma append_nil_r s : (s ++ "")%string = s.
Proof.
  induction s as [| c s IH]; [reflexivity |].
  change (String c (s ++ "") = String c s). rewrite IH. reflexivity.
Qed.

Lemma append_assoc a b c : ((a ++ b) ++ c)%string = (a ++ (b ++ c))%string.
Proof.
  induction a as [| x a IH]; [reflexivity |].
  change (String x ((a ++ b) ++ c) = String x (a ++ (b ++ c))). rewrite IH.
  reflexivity.
Qed.

Lemma all_chars_app p a b :
  all_chars p (a ++ b) = all_chars p a && all_chars p b.
Proof.
  induction a as [| x a IH]; simpl; [reflexivity |].
  rewrite IH. apply andb_assoc.
Qed.

Lemma replace_app old new a b :
  Py.replace old new (a ++ b)
  = (Py.replace old new a ++ Py.replace old new b)%string.
Proof.
  induction a as [| x a IH]; simpl; [reflexivity |].
  rewrite IH. destruct (Ascii.eqb x old); simpl; [rewrite append_assoc |];
    reflexivity.
Qed.

Lemma generate_author_id_cons c s :
  L._generate_author_id (String c s)
  = (L._generate_author_id (String c "") ++ L._generate_author_id s)%string.
Proof.
  unfold L._generate_author_id.
  change (Py.lower (String c s))
    with (String (Py.lower_ascii c) "" ++ Py.lower s)%string.
  rewrite !replace_app. reflexivity.
Qed.

Lemma generate_author_id_char c :
  all_chars id_char (L._generate_author_id (String c "")) = true.
Proof. destruct c as [[] [] [] [] [] [] [] []]; reflexivity. Qed.

Lemma generate_author_id_fixes c :
  id_char c = true -> L._generate_author_id (String c "") = String c "".
Proof.
  destruct c as [[] [] [] [] [] [] [] []]; intros H; vm_compute in H;
    try discriminate H; reflexivity.
Qed.

Lemma generate_author_id_clean s :
  all_chars id_char (L._generate_author_id s) = true.
Proof.
  induction s as [| c s IH]; [reflexivity |].
  rewrite generate_author_id_cons, all_chars_app, generate_author_id_char, IH.
  reflexivity.
Qed.

Lemma generate_author_id_fixed s :
  all_chars id_char s = true -> L._generate_author_id s = s.
Proof.
  induction s as [| c s IH]; [reflexivity |].
  simpl. intros H. apply andb_true_iff in H as [Hc Hs].
  rewrite generate_author_id_cons, (generate_author_id_fixes c Hc), (IH Hs).
  reflexivity.
Qed.

(** X15: the identity of an author is a normal form of the name. For a
    name of ASCII characters, it holds no upper-case letter, space, full
    stop or comma, a string is an identity exactly when it is already in
    that form, and generating the identity of an identity changes
    nothing. *)
Theorem author_id_is_a_normal_form :
  forall author_name,
    all_chars ascii_char author_name = true ->
    all_chars id_char (L._generate_author_id author_name) = true
    /\ L._generate_author_id (L._generate_author_id author_name)
       = L._generate_author_id author_name
    /\ (all_chars id_char author_name = true
        <-> L._generate_author_id author_name = author_name).
Proof.
  intros author_name _. split; [apply generate_author_id_clean |]. split.
  - apply generate_author_id_fixed, generate_author_id_clean.
  - split; [apply generate_author_id_fixed |].
    intros <-. apply generate_author_id_clean.
Qed.

Lemma author_id_is_a_normal_form_witness :
  L._generate_author_id "dr_j_smith" = "dr_j_smith".
Proof.
  apply (proj1 (proj2 (proj2 (author_id_is_a_normal_form "dr_j_smith" eq_refl)))).
  reflexivity.
Defined.

Variable sep : ascii.

Abbreviation no_sep := (no_separator sep).

Lemma split_acc_no_sep s : forall cur,
  no_sep s = true -> Py.split_acc sep cur s = [(cur ++ s)%string].
Proof.
  induction s as [| c s IH]; intros cur H; simpl.
  - rewrite append_nil_r. reflexivity.
  - simpl in H. apply andb_true_iff in H as [Hc Hs].
    apply negb_true_iff in Hc. rewrite Hc, (IH _ Hs), append_assoc.
    reflexivity.
Qed.

Lemma split_acc_app s t : forall cur,
  no_sep s = true ->
  Py.split_acc sep cur (s ++ String sep t)
  = (cur ++ s)%string :: Py.split_acc sep "" t.
Proof.
  induction s as [| c s IH]; intros cur H; simpl.
  - rewrite Ascii.eqb_refl, append_nil_r. reflexivity.
  - simpl in H. apply andb_true_iff in H as [Hc Hs].
    apply negb_true_iff in Hc. rewrite Hc, (IH _ Hs), append_assoc.
    reflexivity.
Qed.

Lemma split_acc_nonempty s : forall cur, Py.split_acc sep cur s <> [].
Proof.
  induction s as [| c s IH]; intros cur; simpl; [discriminate |].
  destruct (Ascii.eqb c sep); [discriminate | apply IH].
Qed.

Lemma split_acc_all s : forall cur,
  no_sep cur = true -> Forall (fun x => no_sep x = true) (Py.split_acc sep cur s).
Proof.
  induction s as [| c s IH]; intros cur H; simpl.
  - constructor; [exact H | constructor].
  - destruct (Ascii.eqb c sep) eqn:E.
    + constructor; [exact H | apply IH; reflexivity].
    + apply IH. unfold no_sep. rewrite all_chars_app. fold (no_sep cur).
      rewrite H. simpl. rewrite E. reflexivity.
Qed.

Lemma split_all s : Forall (fun x => no_sep x = true) (Py.split sep s).
Proof. apply split_acc_all. reflexivity. Qed.

(** Splitting what was joined gives the list back, when no entry holds
    the separator. *)
Lemma split_join l :
  l <> [] -> Forall (fun x => no_sep x = true) l ->
  Py.split sep (Py.join (String sep "") l) = l.
Proof.
  induction l as [| x l IH]; intros Hne Hl; [congruence |].
  apply Forall_cons in Hl as [Hx Hl].
  destruct l as [| y l].
  - simpl. unfold Py.split. rewrite (split_acc_no_sep _ _ Hx). reflexivity.
  - change (Py.join (String sep "") (x :: y :: l))
      with (x ++ String sep (Py.join (String sep "") (y :: l)))%string.
    unfold Py.split. rewrite (split_acc_app _ _ _ Hx).
    transitivity (x :: Py.split sep (Py.join (String sep "") (y :: l)));
      [reflexivity |].
    rewrite IH; [reflexivity | discriminate | exact Hl].
Qed.

Lemma contains_elem x (l : list string) : Py.contains x l = true <-> x ∈ l.
Proof.
  unfold Py.contains. rewrite existsb_exists, list_elem_of_In. split.
  - intros (y & Hy & E). apply String.eqb_eq in E. subst y. exact Hy.
  - intros H. exists x. split; [exact H | apply String.eqb_refl].
Qed.

End Strings.

(** ** The companies of an author *)

Section Companies.

Import MasterContrarianDatabase.

Lemma has_char_app c a b :
  Py.has_char c (a ++ b) = Py.has_char c a || Py.has_char c b.
Proof.
  induction a as [| x a IH]; [reflexivity |].
  change (Py.has_char c (String x (a ++ b))
          = Py.has_char c (String x a) || Py.has_char c b).
  simpl. rewrite IH. apply orb_assoc.
Qed.

(** A text with a semicolon is not taken for a missing value. *)
Lemma read_text_with_semicolon s :
  Py.has_char ";" s = true -> Py.read_text (Py.Str s) = Py.Str s.
Proof.
  intros Hs. unfold Py.read_text.
  destruct (Py.contains s Py.na_values) eqn:E; [| reflexivity].
  exfalso. unfold Py.contains in E. apply existsb_exists in E as (v & Hv & Ev).
  apply String.eqb_eq in Ev. subst v. simpl in Hv.
  repeat (destruct Hv as [<- | Hv]; [vm_compute in Hs; discriminate Hs |]).
  destruct Hv.
Qed.

Lemma join_has_semicolon x y l :
  Py.has_char ";" (Py.join ";" (x :: y :: l)) = true.
Proof.
  change (Py.join ";" (x :: y :: l))
    with (x ++ String ";" (Py.join ";" (y :: l)))%string.
  rewrite has_char_app. simpl. apply orb_true_r.
Qed.

Lemma companies_of_one company :
  no_semicolon company = true -> Py.split ";" company = [company].
Proof. intros H. unfold Py.split. rewrite (split_acc_no_sep ";" _ _ H). reflexivity. Qed.

Lemma companies_of_more l company :
  no_semicolon company = true ->
  Py.split ";" (Py.join ";" (Py.split ";" l ++ [company])%list)
  = (Py.split ";" l ++ [company])%list.
Proof.
  intros H. apply (split_join ";").
  - destruct (Py.split ";" l); discriminate.
  - apply Forall_app. split; [apply split_all |].
    constructor; [exact H | constructor].
Qed.

Lemma create_new_author_record_companies
    author_name author_id company symbol earnings_date contrarian_type was_correct
    score now :
  plain_text company = true ->
  no_semicolon company = true ->
  let e := _create_new_author_record author_name author_id company symbol
             earnings_date contrarian_type was_correct score now in
  companies_ok e /\ company ∈ companies_of e /\ companies_read_back e.
Proof.
  intros Hp H. cbv zeta. unfold companies_ok, companies_of, companies_read_back.
  cbn [Companies_List Total_Companies_Covered _create_new_author_record].
  rewrite (companies_of_one _ H). repeat split.
  - apply NoDup_singleton.
  - apply list_elem_of_singleton. reflexivity.
  - apply plain_text_read. exact Hp.
Qed.

Lemma update_existing_author_companies
    d company symbol earnings_date contrarian_type was_correct score now d' :
  plain_text company = true ->
  no_semicolon company = true ->
  _update_existing_author d company symbol earnings_date contrarian_type
    was_correct score now = Py.Ok d' ->
  (companies_ok d -> companies_ok d') /\ company ∈ companies_of d'
  /\ (companies_read_back d -> companies_read_back d').
Proof.
  intros Hp Hc H. cbv zeta in H. update_inv H. subst d'.
  unfold companies_ok, companies_of, companies_read_back.
  cbn [Companies_List Total_Companies_Covered set_Risk_Level].
  rewrite Ecompanies.
  destruct (Py.truthy companies) eqn:T.
  - destruct (Py.contains company (Py.split ";" companies)) eqn:C;
      cbn [negb].
    + split; [tauto |]. split; [apply contains_elem; exact C | tauto].
    + rewrite (companies_of_more _ _ Hc). split; [| split].
      * intros [_ Hnd]. split; [reflexivity |].
        apply NoDup_app. split; [exact Hnd |]. split; [| apply NoDup_singleton].
        intros x Hx Hx'. apply list_elem_of_singleton in Hx'. subst x.
        apply contains_elem in Hx. congruence.
      * apply elem_of_app. right. apply list_elem_of_singleton. reflexivity.
      * intros _. apply read_text_with_semicolon.
        destruct (Py.split ";" companies) as [| x l] eqn:Es;
          [destruct (split_acc_nonempty ";" _ _ Es) |].
        destruct l as [| y l]; [apply (join_has_semicolon x company []) |].
        apply (join_has_semicolon x y (l ++ [company])).
  - cbn [negb Py.contains existsb app length Py.join].
    rewrite (companies_of_one _ Hc). split; [| split].
    + intros _. split; [reflexivity | apply NoDup_singleton].
    + apply list_elem_of_singleton. reflexivity.
    + intros _. apply plain_text_read. exact Hp.
Qed.

Variables (company symbol earnings_date : string).
Variable actual_result : option ActualResult.
Variable now : string.
Hypothesis company_plain : plain_text company = true.
Hypothesis company_clean : no_semicolon company = true.

Lemma process_contrarian_companies t fs c t' fs' :
  process_contrarian company symbol earnings_date actual_result now (t, fs) c
  = Py.Ok (t', fs') ->
  ((forall id e, t !! id = Some e -> companies_fine e) ->
   forall id e, t' !! id = Some e -> companies_fine e)
  /\ exists e, t' !! contrarian_id c = Some e /\ company ∈ companies_of e.
Proof.
  intros H. apply process_contrarian_inv in H as (e' & -> & Hu & _).
  destruct (t !! contrarian_id c) as [d |] eqn:Ed.
  - destruct (update_existing_author_companies _ _ _ _ _ _ _ _ _ company_plain
                company_clean Hu) as (Hok & Hin & Hrb).
    split.
    + intros Ht id e. rewrite lookup_insert. case_decide; [| apply Ht].
      intros [= <-]. destruct (Ht _ _ Ed) as [H1 H2]. split; auto.
    + exists e'. split; [apply lookup_insert_eq | exact Hin].
  - subst e'.
    destruct (create_new_author_record_companies (get (author c) "Unknown")
                (contrarian_id c) company symbol earnings_date
                (_determine_contrarian_type c)
                (_evaluate_contrarian_accuracy c actual_result)
                (get (contrarian_score c) 0%Q) now company_plain company_clean)
      as (Hok & Hin & Hrb).
    split.
    + intros Ht id e. rewrite lookup_insert. case_decide; [| apply Ht].
      intros [= <-]. split; assumption.
    + eexists. split; [apply lookup_insert_eq | exact Hin].
Qed.

Lemma process_contrarians_companies cs : forall t fs t' fs',
  process_contrarians company symbol earnings_date actual_result now (t, fs) cs
  = Py.Ok (t', fs') ->
  ((forall id e, t !! id = Some e -> companies_fine e) ->
   forall id e, t' !! id = Some e -> companies_fine e)
  /\ forall id e, t' !! id = Some e -> id ∈ map contrarian_id cs ->
                  company ∈ companies_of e.
Proof.
  induction cs as [| c cs IH]; intros t fs t' fs' H.
  - injection H as <- <-. split; [tauto |].
    intros id e _ Hin. apply elem_of_nil in Hin. destruct Hin.
  - rewrite process_contrarians_cons in H.
    destruct (process_contrarian _ _ _ _ _ _ _) as [[t1 fs1] | x] eqn:E;
      simpl in H; [| discriminate].
    destruct (process_contrarian_companies _ _ _ _ _ E) as [Hok1 (e1 & He1 & Hin1)].
    destruct (IH _ _ _ _ H) as [Hok Hin].
    split; [intros Ht; apply Hok, Hok1, Ht |].
    intros id e He Hid.
    destruct (decide (id ∈ map contrarian_id cs)) as [Hcs | Hcs].
    + exact (Hin _ _ He Hcs).
    + simpl in Hid. apply elem_of_cons in Hid as [-> | Hid]; [| tauto].
      rewrite (process_contrarians_frame _ _ _ _ _ _ _ _ _ _ _ H Hcs) in He.
      rewrite He1 in He. injection He as <-. exact Hin1.
Qed.

End Companies.

Section CompaniesOfTheLedger.

Import MasterContrarianDatabase.

Lemma companies_of_read e :
  companies_read_back e -> companies_of (read_row e) = companies_of e.
Proof.
  unfold companies_read_back, companies_of. cbn [Companies_List read_row].
  intros ->. reflexivity.
Qed.

(** X16: the companies of an author are counted once each. When the
    company name of a report is a plain text without a semicolon, a merge
    keeps, for every row, [Total_Companies_Covered] equal to the number of
    entries of [Companies_List] and these entries distinct, and the company
    is listed in the row of every author of the batch. (A name with a
    semicolon is split into several companies by the next update.) *)
Theorem merge_counts_each_company_once :
  forall fs report_data contrarians now fs',
    add_contrarian_analysis fs report_data contrarians now = Py.Ok fs' ->
    plain_text (get (company report_data) "Unknown") = true ->
    no_semicolon (get (company report_data) "Unknown") = true ->
    (forall id e, _load_existing_data fs !! id = Some e -> companies_ok e) ->
    forall id e,
      _load_existing_data fs' !! id = Some e ->
      companies_ok e
      /\ (id ∈ map contrarian_id contrarians ->
          get (company report_data) "Unknown" ∈ companies_of e).
Proof.
  intros fs report_data contrarians now fs' Hadd Hp Hc Hfs id e He.
  apply add_contrarian_analysis_inv in Hadd as (t' & fs1 & Hs & _ & Hl).
  rewrite Hl, lookup_fmap in He.
  destruct (t' !! id) as [e0 |] eqn:E0; [| discriminate He].
  simpl in He. injection He as <-.
  destruct (process_contrarians_companies _ _ _ _ _ Hp Hc _ _ _ _ _ Hs) as [Hok Hin].
  assert (Hfine : forall i x, _load_existing_data fs !! i = Some x ->
                              companies_ok x /\ companies_read_back x).
  { intros i x Hx. split; [exact (Hfs _ _ Hx) |].
    unfold companies_read_back. rewrite <- (load_read _ _ _ Hx) at 2.
    reflexivity. }
  destruct (Hok Hfine _ _ E0) as [[Hn Hd] Hrb].
  unfold companies_ok. rewrite (companies_of_read _ Hrb).
  split; [split; [exact Hn | exact Hd] |].
  intros Hid. exact (Hin _ _ E0 Hid).
Qed.

Lemma merge_counts_each_company_once_witness :
  exists fs' e,
    add_contrarian_analysis Demo.fresh Demo.aapl_report
      [Demo.john_smith_aapl; Demo.sarah_johnson_aapl; Demo.john_smith_aapl]
      "2024-01-25 09:00:00" = Py.Ok fs'
    /\ _load_existing_data fs' !! "john_smith" = Some e
    /\ companies_ok e
    /\ get (company Demo.aapl_report) "Unknown" ∈ companies_of e.
Proof.
  assert (A : exists fs',
             add_contrarian_analysis Demo.fresh Demo.aapl_report
               [Demo.john_smith_aapl; Demo.sarah_johnson_aapl; Demo.john_smith_aapl]
               "2024-01-25 09:00:00" = Py.Ok fs')
    by (eexists; vm_compute; reflexivity).
  destruct A as [fs' A].
  assert (B : exists e, _load_existing_data fs' !! "john_smith" = Some e).
  { destruct (add_contrarian_analysis_inv _ _ _ _ _ A) as (t' & fs1 & Hs & _ & ->).
    apply is_Some_read.
    apply (process_contrarians_dom _ _ _ _ _ _ _ _ _ _ "john_smith" Hs).
    right. vm_compute. left. }
  destruct B as [e B]. exists fs', e. split; [exact A |]. split; [exact B |].
  assert (F : forall id x,
             _load_existing_data Demo.fresh !! id = Some x -> companies_ok x).
  { intros id x. change (_load_existing_data Demo.fresh)
      with (∅ : gmap string AuthorRecord).
    rewrite lookup_empty. discriminate. }
  destruct (merge_counts_each_company_once _ _ _ _ _ A eq_refl eq_refl F _ _ B)
    as [H1 H2].
  split; [exact H1 |]. apply H2. vm_compute. left.
Defined.

End CompaniesOfTheLedger.

(** ** Shares and scores of the production analyzer *)

Section Shares.

#[local] Open Scope Q_scope.

Lemma Counter_bounds (l : list string) x :
  x ∈ l -> (1 <= Py.Counter l x <= Z.of_nat (length l))%Z.
Proof.
  intros H. unfold Py.Counter. split.
  - apply list_elem_of_In in H. apply (count_occ_In string_dec) in H. lia.
  - pose proof (count_occ_bound string_dec x l). lia.
Qed.

Lemma inject_Z_pos n : (1 <= n)%Z -> 0 < inject_Z n.
Proof. intros H. change 0 with (inject_Z 0). rewrite <- Zlt_Qlt. lia. Qed.

Lemma truediv_bounds c n : (1 <= c <= n)%Z -> 0 < Py.truediv c n <= 1.
Proof.
  intros [Hc Hn]. unfold Py.truediv.
  assert (Hp : 0 < inject_Z n) by (apply inject_Z_pos; lia).
  split.
  - apply Qlt_shift_div_l; [exact Hp |]. rewrite Qmult_0_l.
    apply inject_Z_pos. exact Hc.
  - apply Qle_shift_div_r; [exact Hp |]. rewrite Qmult_1_l.
    rewrite <- Zle_Qle. exact Hn.
Qed.

(** One voice out of at most two is no minority. *)
Lemma truediv_small c n :
  (1 <= c)%Z -> (1 <= n <= 2)%Z -> Py.lt (Py.truediv c n) (4 # 10) = false.
Proof.
  intros Hc Hn. apply lt_false. unfold Py.truediv.
  apply Qle_shift_div_l; [apply inject_Z_pos; lia |].
  apply Qle_trans with (inject_Z 1).
  - assert (E : n = 1%Z \/ n = 2%Z) by lia.
    destruct E as [-> | ->]; discriminate.
  - rewrite <- Zle_Qle. exact Hc.
Qed.

Lemma lt_weaken x (a b : Q) : a <= b -> Py.lt x a = true -> Py.lt x b = true.
Proof. rewrite !lt_true. intros H1 H2. eapply Qlt_le_trans; eauto. Qed.

Lemma share_counts valid (article : P.Article.t) (analysis : P.Analysis.t) :
  (article, analysis) ∈ valid ->
  (1 <= Py.Counter (map (fun e => P.Analysis.sentiment (snd e)) valid)
          (P.Analysis.sentiment analysis) <= Z.of_nat (length valid))%Z
  /\ (1 <= Py.Counter (map (fun e => P.Analysis.earnings_prediction (snd e)) valid)
             (P.Analysis.earnings_prediction analysis) <= Z.of_nat (length valid))%Z.
Proof.
  intros H. apply list_elem_of_In in H.
  split.
  - rewrite <- (length_map (fun e => P.Analysis.sentiment (snd e)) valid).
    apply Counter_bounds, list_elem_of_In.
    apply (in_map (fun e => P.Analysis.sentiment (snd e)) _ _ H).
  - rewrite <- (length_map (fun e => P.Analysis.earnings_prediction (snd e)) valid).
    apply Counter_bounds, list_elem_of_In.
    apply (in_map (fun e => P.Analysis.earnings_prediction (snd e)) _ _ H).
Qed.

Lemma confidence_bonus_bounds c : 5 <= P.confidence_bonus c <= 20.
Proof.
  unfold P.confidence_bonus.
  destruct (P.get_eq c "high"); [split; discriminate |].
  destruct (P.get_eq c "medium"); split; discriminate.
Qed.

Lemma production_score_bounds_helper analyzed_articles actual_result f :
  f ∈ P.identify_contrarians analyzed_articles actual_result ->
  65 <= P.Contrarian.contrarian_score f <= 360.
Proof.
  intros Hf. rename analyzed_articles into arts, actual_result into ar.
  apply identify_contrarians_elem in Hf as ([article analysis] & Hin & He).
  destruct (share_counts _ _ _ Hin) as [Hs Hp].
  apply truediv_bounds in Hs, Hp.
  unfold P.examine_article in He. cbv zeta in He.
  set (s := Py.truediv _ _) in Hs, He. set (p := Py.truediv _ _) in Hp, He.
  pose proof (confidence_bonus_bounds (P.Analysis.confidence analysis)) as Bs.
  pose proof (confidence_bonus_bounds (P.Analysis.prediction_confidence analysis)) as Bp.
  set (bs := P.confidence_bonus _) in Bs, He.
  set (bp := P.confidence_bonus _) in Bp, He.
  destruct (Py.lt s (4 # 10)) eqn:Es; destruct (Py.lt p (4 # 10)) eqn:Ep;
    simpl in He; try discriminate He; injection He as <-; simpl;
    apply (round_between 65 360);
    try (apply lt_true in Es); try (apply lt_true in Ep);
    destruct (bool_decide (is_Some ar) && P.sentiment_correct analysis ar);
    destruct (bool_decide (is_Some ar) && P.prediction_correct analysis ar);
    change (inject_Z 65) with 65; change (inject_Z 360) with 360; lra.
Qed.

(** X17: a finding of the production analyzer scores between 65 and 360:
    a minority share lies above 0 and below 0.4, so a minority dimension
    contributes more than 60 + 5 and less than (100 + 20) x 1.5, and at
    least one of the two dimensions is minority. *)
Theorem production_score_is_bounded :
  forall analyzed_articles actual_result f,
    f ∈ P.identify_contrarians analyzed_articles actual_result ->
    65 <= P.Contrarian.contrarian_score f <= 360.
Proof. intros arts ar f. apply production_score_bounds_helper. Qed.

Lemma production_score_is_bounded_witness :
  exists f,
    f ∈ P.identify_contrarians Batch.five (Some Batch.rose)
    /\ 65 <= P.Contrarian.contrarian_score f <= 360.
Proof.
  assert (Hin : exists f, P.identify_contrarians Batch.five (Some Batch.rose) = [f])
    by (eexists; vm_compute; reflexivity).
  destruct Hin as [f Hf]. exists f.
  assert (Hel : f ∈ P.identify_contrarians Batch.five (Some Batch.rose))
    by (rewrite Hf; apply list_elem_of_singleton; reflexivity).
  split; [exact Hel |].
  exact (production_score_is_bounded _ _ _ Hel).
Defined.

Lemma omap_length_le {A B} (f : A -> option B) l :
  (length (omap f l) <= length l)%nat.
Proof.
  induction l as [| x l IH]; [reflexivity |].
  change (omap f (x :: l))
    with (match f x with Some y => y :: omap f l | None => omap f l end).
  destruct (f x); simpl; lia.
Qed.

Lemma nil_or_elem {A} (l : list A) : (forall x, x ∈ l -> False) -> l = [].
Proof.
  destruct l as [| x l]; [reflexivity |].
  intros H. destruct (H x). apply elem_of_cons. left. reflexivity.
Qed.

Lemma production_findings_ranked_helper analyzed_articles actual_result :
  StronglySorted by_score_desc (P.identify_contrarians analyzed_articles actual_result)
  /\ (length (P.identify_contrarians analyzed_articles actual_result)
      <= length (P.valid_articles analyzed_articles))%nat
  /\ (length (P.valid_articles analyzed_articles) <= length analyzed_articles)%nat.
Proof.
  rename analyzed_articles into arts, actual_result into ar.
  unfold P.identify_contrarians. cbv zeta.
  split; [| split].
  - destruct (P.valid_articles arts); [constructor | apply sort_by_score_sorted].
  - destruct (P.valid_articles arts) as [| e l] eqn:E; [reflexivity |].
    destruct (sort_by_score_sorted
                (omap (P.examine_article
                         (Py.Counter (map (fun e => P.Analysis.sentiment (snd e)) (e :: l)))
                         (Py.Counter (map (fun e => P.Analysis.earnings_prediction (snd e))
                                        (e :: l)))
                         (Z.of_nat (length (e :: l))) ar) (e :: l))) as [Hp _].
    rewrite (Permutation_length Hp). apply omap_length_le.
  - apply omap_length_le.
Qed.

(** X18: the findings of the production analyzer are ranked, highest
    score first, and there is at most one per analyzed article. *)
Theorem production_findings_are_ranked :
  forall analyzed_articles actual_result,
    let findings := P.identify_contrarians analyzed_articles actual_result in
    StronglySorted by_score_desc findings
    /\ (length findings <= length (P.valid_articles analyzed_articles))%nat
    /\ (length (P.valid_articles analyzed_articles) <= length analyzed_articles)%nat.
Proof. intros arts ar. apply production_findings_ranked_helper. Qed.

Lemma most_common_two x y d : S.most_common [x; y] d = x.
Proof.
  unfold S.most_common. cbn [fold_left hd]. rewrite Z.ltb_irrefl.
  destruct (string_dec x y) as [<- | N]; [destruct (_ <? _); reflexivity |].
  unfold Py.Counter. cbn [count_occ].
  destruct (string_dec x x) as [_ | N']; [| congruence].
  destruct (string_dec y y) as [_ | N']; [| congruence].
  destruct (string_dec y x) as [E | _]; [congruence |].
  destruct (string_dec x y) as [E | _]; [congruence |].
  reflexivity.
Qed.

(** X19: two voices. With at most two analyzed articles the production
    analyzer finds no contrarian, whatever they say. The simplified
    analyzer takes the first of two voices as the consensus: its first
    record is never contrarian, and the second is contrarian exactly when
    it differs from the first in sentiment or prediction. *)
Theorem two_voices :
  (forall analyzed_articles actual_result,
     (length (P.valid_articles analyzed_articles) <= 2)%nat ->
     P.identify_contrarians analyzed_articles actual_result = [])
  /\ (forall analyzed_articles actual_result today a1 an1 a2 an2,
        S.valid_articles analyzed_articles = [(a1, an1); (a2, an2)] ->
        exists r1 r2,
          S.identify_contrarians analyzed_articles actual_result today = [r1; r2]
          /\ S.ContrarianRecord.was_contrarian r1 = false
          /\ S.ContrarianRecord.was_contrarian r2
             = negb (String.eqb (S.Analysis.sentiment an2) (S.Analysis.sentiment an1))
               || negb (String.eqb (S.Analysis.earnings_prediction an2)
                          (S.Analysis.earnings_prediction an1))).
Proof.
  split.
  - intros arts ar Hlen. apply nil_or_elem. intros f Hf.
    apply identify_contrarians_elem in Hf as ([article analysis] & Hin & He).
    destruct (share_counts _ _ _ Hin) as [[Hs _] [Hp _]].
    assert (Hn : (1 <= Z.of_nat (length (P.valid_articles arts)) <= 2)%Z).
    { split; [| lia]. destruct (P.valid_articles arts); [| simpl; lia].
      apply elem_of_nil in Hin. destruct Hin. }
    unfold P.examine_article in He. cbv zeta in He.
    rewrite (truediv_small _ _ Hs Hn), (truediv_small _ _ Hp Hn) in He.
    discriminate He.
  - intros arts ar today a1 an1 a2 an2 Hv.
    unfold S.identify_contrarians. cbv zeta. rewrite Hv.
    do 2 eexists. split; [reflexivity |].
    simpl. rewrite !most_common_two, !String.eqb_refl. split; reflexivity.
Qed.

Lemma two_voices_witness :
  P.identify_contrarians [Batch.alice; Batch.crowd "Bob Stone"] (Some Batch.rose) = []
  /\ exists r1 r2,
       S.identify_contrarians
         [Batch.simple_article "Bob Stone" "bearish" "beat";
          Batch.simple_article "Alice Moore" "bullish" "beat"] None "2024-11-02"
       = [r1; r2]
       /\ S.ContrarianRecord.was_contrarian r1 = false
       /\ S.ContrarianRecord.was_contrarian r2 = true.
Proof.
  split.
  - apply (proj1 two_voices [Batch.alice; Batch.crowd "Bob Stone"] (Some Batch.rose)).
    simpl. lia.
  - destruct (proj2 two_voices
                [Batch.simple_article "Bob Stone" "bearish" "beat";
                 Batch.simple_article "Alice Moore" "bullish" "beat"]
                None "2024-11-02"
                (Batch.simple_article "Bob Stone" "bearish" "beat")
                {| S.Analysis.sentiment := "bearish";
                   S.Analysis.earnings_prediction := "beat" |}
                (Batch.simple_article "Alice Moore" "bullish" "beat")
                {| S.Analysis.sentiment := "bullish";
                   S.Analysis.earnings_prediction := "beat" |}
                eq_refl) as (r1 & r2 & H1 & H2 & H3).
    exists r1, r2. split; [exact H1 |]. split; [exact H2 |].
    rewrite H3. reflexivity.
Defined.

End Shares.

(** ** The actual result and its rounded move *)

Section Outcomes.

#[local] Open Scope Q_scope.

Lemma round_le (hi : Z) x n : x <= inject_Z hi -> Py.round x n <= inject_Z hi.
Proof.
  intros Hhi. unfold Py.round.
  set (s := inject_Z (10 ^ Z.of_nat n)).
  assert (Hs : 0 < s) by apply scale_pos.
  rewrite Qred_correct.
  assert (U : (Py.round_half_even (x * s) <= hi * 10 ^ Z.of_nat n)%Z).
  { apply round_half_even_upper. rewrite inject_Z_mult. fold s.
    apply Qmult_le_compat_r; [exact Hhi | apply Qlt_le_weak, Hs]. }
  rewrite Zle_Qle, inject_Z_mult in U. fold s in U.
  apply Qle_shift_div_r; assumption.
Qed.

Lemma round_ge (lo : Z) x n : inject_Z lo <= x -> inject_Z lo <= Py.round x n.
Proof.
  intros Hlo. unfold Py.round.
  set (s := inject_Z (10 ^ Z.of_nat n)).
  assert (Hs : 0 < s) by apply scale_pos.
  rewrite Qred_correct.
  assert (L : (lo * 10 ^ Z.of_nat n <= Py.round_half_even (x * s))%Z).
  { apply round_half_even_lower. rewrite inject_Z_mult. fold s.
    apply Qmult_le_compat_r; [exact Hlo | apply Qlt_le_weak, Hs]. }
  rewrite Zle_Qle, inject_Z_mult in L. fold s in L.
  apply Qle_shift_div_l; assumption.
Qed.

(** A value whose rounding lies above an integer lies above it, and
    likewise below. *)
Lemma rounded_above (k : Z) x n :
  Py.gt (Py.round x n) (inject_Z k) = true -> Py.gt x (inject_Z k) = true.
Proof.
  unfold Py.gt. rewrite !lt_true. intros H.
  destruct (Qlt_le_dec (inject_Z k) x) as [Hlt | Hle]; [exact Hlt |].
  apply (round_le k x n) in Hle. destruct (Qlt_not_le _ _ H Hle).
Qed.

Lemma rounded_below (k : Z) x n :
  Py.lt (Py.round x n) (inject_Z k) = true -> Py.lt x (inject_Z k) = true.
Proof.
  rewrite !lt_true. intros H.
  destruct (Qlt_le_dec x (inject_Z k)) as [Hlt | Hle]; [exact Hlt |].
  apply (round_ge k x n) in Hle. destruct (Qlt_not_le _ _ H Hle).
Qed.

Lemma above_and_below (a b y : Q) :
  b <= a -> Py.gt y a = true -> Py.lt y b = true -> False.
Proof.
  unfold Py.gt. rewrite !lt_true. intros Hab H1 H2.
  apply (Qlt_irrefl y). eapply Qlt_trans; [exact H2 |].
  eapply Qle_lt_trans; [exact Hab | exact H1].
Qed.

Lemma classify_of_rounded x :
  (Py.gt (Py.round x 2) 3 = true -> ActualEarnings.classify x = "beat")
  /\ (Py.lt (Py.round x 2) (-3) = true -> ActualEarnings.classify x = "miss")
  /\ (ActualEarnings.classify x = "meet" ->
      Py.gt (Py.round x 2) 3 = false /\ Py.lt (Py.round x 2) (-3) = false).
Proof.
  unfold ActualEarnings.classify.
  pose proof (rounded_above 3 x 2) as Ha.
  pose proof (rounded_below (-3) x 2) as Hb.
  change (inject_Z 3) with 3 in Ha. change (inject_Z (-3)) with (-3) in Hb.
  destruct (Py.gt (Py.round x 2) 3) eqn:E1.
  - rewrite (Ha eq_refl). repeat split; try discriminate.
    intros H. destruct (above_and_below 3 (-3) _ ltac:(discriminate) E1 H).
  - destruct (Py.lt (Py.round x 2) (-3)) eqn:E2.
    + rewrite (Hb eq_refl). destruct (Py.gt x 3) eqn:E3.
      * destruct (above_and_below 3 (-3) _ ltac:(discriminate) E3 (Hb eq_refl)).
      * repeat split; try discriminate.
    + repeat split; try discriminate.
Qed.

(** X20: the outcome of the production and of the simplified analyzer
    agrees with its own rounded price move. The result is classified on
    the exact move and the sentiment is read from the move rounded to two
    decimals: a move that reads as bullish (above 3) is a beat, one that
    reads as bearish (below -3) is a miss, and a meet reads as neutral.
    The converse fails: a move of 3.004 percent is a beat that reads as
    neutral. *)
Theorem outcome_agrees_with_its_rounded_move :
  (forall close earnings_price_idx r,
     ProductionActualEarnings.get_actual_earnings_result close earnings_price_idx
     = Some r ->
     (P.actual_sentiment r = "bullish" -> P.ActualResult.result r = "beat")
     /\ (P.actual_sentiment r = "bearish" -> P.ActualResult.result r = "miss")
     /\ (P.ActualResult.result r = "meet" -> P.actual_sentiment r = "neutral"))
  /\ (forall close earnings_price_idx r,
        SimplifiedActualEarnings.get_actual_earnings_result close earnings_price_idx
        = Some r ->
        (Py.gt (S.ActualResult.price_change_percent r) 3 = true ->
         S.ActualResult.result r = "beat")
        /\ (Py.lt (S.ActualResult.price_change_percent r) (-3) = true ->
            S.ActualResult.result r = "miss")
        /\ (S.ActualResult.result r = "meet" ->
            Py.gt (S.ActualResult.price_change_percent r) 3 = false
            /\ Py.lt (S.ActualResult.price_change_percent r) (-3) = false))
  /\ (exists r,
        ProductionActualEarnings.get_actual_earnings_result
          [100000; 100000; 103004] 1 = Some r
        /\ P.ActualResult.result r = "beat" /\ P.actual_sentiment r = "neutral").
Proof.
  split; [| split].
  - intros close idx r H.
    unfold ProductionActualEarnings.get_actual_earnings_result in H.
    destruct (2 <=? length close)%nat; [| discriminate H].
    destruct (0 <? idx)%nat; [| discriminate H].
    destruct (close !! _) as [pre |]; [| discriminate H].
    destruct (close !! _) as [post |]; [| discriminate H].
    cbv zeta in H. injection H as <-.
    destruct (classify_of_rounded (ActualEarnings.price_change pre post))
      as (H1 & H2 & H3).
    unfold P.actual_sentiment. simpl.
    destruct (Py.gt _ 3) eqn:E1.
    + repeat split; intros; try discriminate; auto.
      destruct (H3 H); discriminate.
    + destruct (Py.lt _ (-3)) eqn:E2.
      * repeat split; intros; try discriminate; auto.
        destruct (H3 H); discriminate.
      * repeat split; intros; try discriminate; auto.
  - intros close idx r H.
    unfold SimplifiedActualEarnings.get_actual_earnings_result in H.
    destruct (2 <=? length close)%nat; [| discriminate H].
    destruct (0 <? idx)%nat; [| discriminate H].
    destruct (close !! _) as [pre |]; [| discriminate H].
    destruct (close !! _) as [post |]; [| discriminate H].
    cbv zeta in H. injection H as <-. simpl.
    apply classify_of_rounded.
  - eexists. split; [vm_compute; reflexivity |]. split; reflexivity.
Qed.

Lemma outcome_agrees_with_its_rounded_move_witness :
  exists r,
    ProductionActualEarnings.get_actual_earnings_result [200; 210; 220] 1 = Some r
    /\ P.actual_sentiment r = "bullish" /\ P.ActualResult.result r = "beat".
Proof.
  assert (A : exists r,
             ProductionActualEarnings.get_actual_earnings_result [200; 210; 220] 1
             = Some r /\ P.actual_sentiment r = "bullish")
    by (eexists; split; vm_compute; reflexivity).
  destruct A as (r & A & B). exists r. split; [exact A |]. split; [exact B |].
  destruct (proj1 outcome_agrees_with_its_rounded_move _ _ _ A) as (H & _).
  exact (H B).
Defined.



End Outcomes.

(** ** The first analyzer *)

Section FirstAnalyzer.

#[local] Open Scope Q_scope.

Lemma omap_cons {A B} (f : A -> option B) x l :
  omap f (x :: l) = match f x with Some y => y :: omap f l | None => omap f l end.
Proof. reflexivity. Qed.

Lemma omap_length_mono {A B C} (f : A -> option B) (g : A -> option C) l :
  (forall x, g x = None -> f x = None) ->
  (length (omap f l) <= length (omap g l))%nat.
Proof.
  intros H. induction l as [| x l IH]; [reflexivity |].
  rewrite !omap_cons. destruct (g x) eqn:E.
  - destruct (f x); simpl; lia.
  - rewrite (H x E). exact IH.
Qed.

Lemma first_sort_by_score_sorted l :
  O.sort_by_score l ≡ₚ l
  /\ StronglySorted by_first_score_desc (O.sort_by_score l).
Proof.
  apply (foldr_insert_sorted
           (fun x y => Py.ge (O.Contrarian.contrarian_score x)
                         (O.Contrarian.contrarian_score y))
           (fun x y => ge_total _ _) (fun x y z => ge_trans _ _ _)
           O.insert_by_score (fun x => eq_refl) (fun x y l => eq_refl)).
Qed.

(** The findings are what the loop body yields on the articles. *)
Lemma first_identify_contrarians_elem analyzed_articles actual_result f :
  f ∈ O.identify_contrarians analyzed_articles actual_result <->
  exists article,
    article ∈ analyzed_articles
    /\ O.examine_article
         (Py.Counter (map O.Analysis.sentiment (O.valid_analyses analyzed_articles)))
         (Py.Counter (map O.Analysis.earnings_prediction
                        (O.valid_analyses analyzed_articles)))
         (Z.of_nat (length (O.valid_analyses analyzed_articles)))
         actual_result article = Some f.
Proof.
  unfold O.identify_contrarians. cbv zeta.
  rewrite (proj1 (first_sort_by_score_sorted _)), list_elem_of_omap. reflexivity.
Qed.

Lemma first_share_counts analyzed_articles (article : O.Article.t) analysis :
  article ∈ analyzed_articles -> O.Article.analysis article = Some analysis ->
  let valid := O.valid_analyses analyzed_articles in
  (1 <= Py.Counter (map O.Analysis.sentiment valid) (O.Analysis.sentiment analysis)
   <= Z.of_nat (length valid))%Z
  /\ (1 <= Py.Counter (map O.Analysis.earnings_prediction valid)
             (O.Analysis.earnings_prediction analysis)
      <= Z.of_nat (length valid))%Z.
Proof.
  intros Hin Ha valid.
  assert (Hv : In analysis valid).
  { apply list_elem_of_In, list_elem_of_omap. exists article. split; assumption. }
  split.
  - rewrite <- (length_map O.Analysis.sentiment valid).
    apply Counter_bounds, list_elem_of_In.
    apply (in_map O.Analysis.sentiment _ _ Hv).
  - rewrite <- (length_map O.Analysis.earnings_prediction valid).
    apply Counter_bounds, list_elem_of_In.
    apply (in_map O.Analysis.earnings_prediction _ _ Hv).
Qed.

(** X22: the first analyzer reports correct minorities only: without an
    actual result it reports nothing; every finding is minority on a
    dimension (share below 0.3); the findings are ranked, highest score
    first, at most one per analyzed article. *)
Theorem first_analyzer_reports_correct_minorities :
  forall analyzed_articles actual_result,
    let findings := O.identify_contrarians analyzed_articles actual_result in
    (actual_result = None -> findings = [])
    /\ (forall f,
          f ∈ findings ->
          is_Some actual_result
          /\ O.Contrarian.was_minority_sentiment f
             || O.Contrarian.was_minority_prediction f = true)
    /\ StronglySorted by_first_score_desc findings
    /\ (length findings <= length (O.valid_analyses analyzed_articles))%nat.
Proof.
  intros arts ar findings.
  assert (H2 : forall f,
             f ∈ findings ->
             is_Some ar
             /\ O.Contrarian.was_minority_sentiment f
                || O.Contrarian.was_minority_prediction f = true).
  { intros f Hf. apply first_identify_contrarians_elem in Hf as (a & _ & He).
    unfold O.examine_article in He.
    destruct (O.Article.analysis a) as [an |]; [| discriminate He].
    cbv zeta in He.
    match type of He with
    | (if ?m && ?w then _ else _) = _ => destruct m eqn:Em; destruct w eqn:Ew
    end; simpl in He; try discriminate He.
    injection He as <-. simpl. split; [| exact Em].
    destruct ar; [eauto | discriminate Ew]. }
  split; [| split; [exact H2 | split]].
  - intros ->. apply nil_or_elem. intros f Hf.
    destruct (H2 f Hf) as [[x Hx] _]. discriminate Hx.
  - apply first_sort_by_score_sorted.
  - unfold findings, O.identify_contrarians. cbv zeta.
    rewrite (Permutation_length (proj1 (first_sort_by_score_sorted _))).
    apply omap_length_mono. intros a Ha. unfold O.examine_article.
    rewrite Ha. reflexivity.
Qed.

Lemma first_analyzer_reports_correct_minorities_witness :
  O.identify_contrarians
    [ {| O.Article.author := "Ann"; O.Article.headline := "Earnings preview";
         O.Article.date := "2024-10-20"; O.Article.url := "https://example.org/preview";
         O.Article.analysis :=
           Some {| O.Analysis.sentiment := "bullish";
                   O.Analysis.earnings_prediction := "beat";
                   O.Analysis.reasoning := "";
                   O.Analysis.key_concerns := [] |} |} ] None
  = [].
Proof.
  apply (proj1 (first_analyzer_reports_correct_minorities _ None)).
  reflexivity.
Defined.

(** X23: a finding of the first analyzer scores 0, or between 70 and 200.
    A dimension adds (1 - share) x 100 only when it is both minority and
    right, so an author who is minority on one dimension and right on the
    other is reported with a score of 0. *)
Theorem first_score_is_zero_or_large :
  (forall analyzed_articles actual_result f,
     f ∈ O.identify_contrarians analyzed_articles actual_result ->
     O.Contrarian.contrarian_score f = 0
     \/ 70 <= O.Contrarian.contrarian_score f <= 200)
  /\ (exists analyzed_articles actual_result f,
        f ∈ O.identify_contrarians analyzed_articles actual_result
        /\ O.Contrarian.contrarian_score f = 0).
Proof.
  split.
  - intros arts ar f Hf.
    apply first_identify_contrarians_elem in Hf as (a & Hin & He).
    unfold O.examine_article in He.
    destruct (O.Article.analysis a) as [an |] eqn:Ea; [| discriminate He].
    destruct (first_share_counts _ _ _ Hin Ea) as [Hs Hp].
    apply truediv_bounds in Hs, Hp.
    cbv zeta in He.
    set (s := Py.truediv _ _) in Hs, He. set (p := Py.truediv _ _) in Hp, He.
    match type of He with
    | (if ?c then _ else _) = _ => destruct c; [| discriminate He]
    end.
    injection He as <-. simpl.
    destruct (Py.lt s (3 # 10)) eqn:Es; destruct (Py.lt p (3 # 10)) eqn:Ep;
      try (apply lt_true in Es); try (apply lt_true in Ep); simpl;
      repeat match goal with
             | |- context [if ?b then _ else _] => destruct b
             end;
      try (left; reflexivity);
      right; apply (round_between 70 200);
      change (inject_Z 70) with 70; change (inject_Z 200) with 200; lra.
  - exists [ {| O.Article.author := "Ann"; O.Article.headline := "h";
                O.Article.date := "d"; O.Article.url := "u";
                O.Article.analysis :=
                  Some {| O.Analysis.sentiment := "bullish";
                          O.Analysis.earnings_prediction := "miss";
                          O.Analysis.reasoning := "";
                          O.Analysis.key_concerns := [] |} |};
              {| O.Article.author := "Bo"; O.Article.headline := "h";
                 O.Article.date := "d"; O.Article.url := "u";
                 O.Article.analysis :=
                   Some {| O.Analysis.sentiment := "bearish";
                           O.Analysis.earnings_prediction := "miss";
                           O.Analysis.reasoning := "";
                           O.Analysis.key_concerns := [] |} |};
              {| O.Article.author := "Cy"; O.Article.headline := "h";
                 O.Article.date := "d"; O.Article.url := "u";
                 O.Article.analysis :=
                   Some {| O.Analysis.sentiment := "bearish";
                           O.Analysis.earnings_prediction := "miss";
                           O.Analysis.reasoning := "";
                           O.Analysis.key_concerns := [] |} |};
              {| O.Article.author := "Di"; O.Article.headline := "h";
                 O.Article.date := "d"; O.Article.url := "u";
                 O.Article.analysis :=
                   Some {| O.Analysis.sentiment := "bearish";
                           O.Analysis.earnings_prediction := "miss";
                           O.Analysis.reasoning := "";
                           O.Analysis.key_concerns := [] |} |} ],
      (Some {| O.ActualResult.price_change_percent := -5;
               O.ActualResult.result := "miss" |}).
    eexists. split; [vm_compute; apply list_elem_of_here | reflexivity].
Qed.

Lemma first_score_is_zero_or_large_witness :
  let voice author sentiment prediction :=
    {| O.Article.author := author; O.Article.headline := "Earnings preview";
       O.Article.date := "2024-10-20"; O.Article.url := "https://example.org/preview";
       O.Article.analysis :=
         Some {| O.Analysis.sentiment := sentiment;
                 O.Analysis.earnings_prediction := prediction;
                 O.Analysis.reasoning := "";
                 O.Analysis.key_concerns := [] |} |} in
  let batch :=
    [voice "Ann" "bullish" "beat"; voice "Bo" "bearish" "miss";
     voice "Cy" "bearish" "miss"; voice "Di" "bearish" "miss"] in
  let rose :=
    {| O.ActualResult.price_change_percent := 5; O.ActualResult.result := "beat" |} in
  exists f,
    f ∈ O.identify_contrarians batch (Some rose)
    /\ (O.Contrarian.contrarian_score f = 0
        \/ 70 <= O.Contrarian.contrarian_score f <= 200).
Proof.
  intros voice batch rose.
  assert (A : exists f, f ∈ O.identify_contrarians batch (Some rose))
    by (eexists; vm_compute; apply list_elem_of_here).
  destruct A as (f & Hf). exists f. split; [exact Hf |].
  exact (proj1 first_score_is_zero_or_large _ _ _ Hf).
Defined.

Lemma valid_as_production analyzed_articles :
  map (fun e => P.Analysis.sentiment (snd e))
    (P.valid_articles (map as_production_article analyzed_articles))
  = map O.Analysis.sentiment (O.valid_analyses analyzed_articles)
  /\ map (fun e => P.Analysis.earnings_prediction (snd e))
       (P.valid_articles (map as_production_article analyzed_articles))
     = map O.Analysis.earnings_prediction (O.valid_analyses analyzed_articles)
  /\ length (P.valid_articles (map as_production_article analyzed_articles))
     = length (O.valid_analyses analyzed_articles).
Proof.
  unfold P.valid_articles, O.valid_analyses.
  induction analyzed_articles as [| a l (IH1 & IH2 & IH3)]; [repeat split |].
  cbn [map]. rewrite !omap_cons. cbn [as_production_article P.Article.analysis].
  destruct (O.Article.analysis a) as [an |]; cbn [fmap option_fmap option_map map length].
  - rewrite IH1, IH2, IH3. repeat split.
  - repeat split; assumption.
Qed.

(** X24: whatever the first analyzer reports, the production analyzer
    flags too. On the same articles, and whatever the outcome, every
    finding of the first analyzer (share below 0.3, and right) has a
    finding of the production analyzer (share below 0.4, right or wrong)
    for the same article and opinion, minority on at least the same
    dimensions. *)
Theorem production_flags_what_the_first_analyzer_reports :
  forall analyzed_articles actual_result actual_result' f,
    f ∈ O.identify_contrarians analyzed_articles actual_result ->
    exists g,
      g ∈ P.identify_contrarians (map as_production_article analyzed_articles)
            actual_result'
      /\ P.Contrarian.author g = O.Contrarian.author f
      /\ P.Contrarian.headline g = O.Contrarian.headline f
      /\ P.Contrarian.url g = O.Contrarian.url f
      /\ P.Contrarian.sentiment g = O.Contrarian.sentiment f
      /\ P.Contrarian.prediction g = O.Contrarian.prediction f
      /\ (O.Contrarian.was_minority_sentiment f = true ->
          P.Contrarian.was_minority_sentiment g = true)
      /\ (O.Contrarian.was_minority_prediction f = true ->
          P.Contrarian.was_minority_prediction g = true).
Proof.
  intros arts ar ar' f Hf.
  apply first_identify_contrarians_elem in Hf as (a & Hin & He).
  unfold O.examine_article in He.
  destruct (O.Article.analysis a) as [an |] eqn:Ea; [| discriminate He].
  cbv zeta in He.
  set (s := Py.truediv _ _) in He. set (p := Py.truediv _ _) in He.
  destruct (Py.lt s (3 # 10) || Py.lt p (3 # 10)) eqn:Em;
    [| discriminate He].
  match type of He with
  | (if ?c then _ else _) = _ => destruct c; [| discriminate He]
  end.
  injection He as <-. cbn.
  destruct (valid_as_production arts) as (V1 & V2 & V3).
  assert (Hentry : (as_production_article a, as_production_analysis an)
                   ∈ P.valid_articles (map as_production_article arts)).
  { apply list_elem_of_omap. exists (as_production_article a). split.
    - apply list_elem_of_In, in_map, list_elem_of_In, Hin.
    - cbn. rewrite Ea. reflexivity. }
  assert (Ws : Py.lt s (3 # 10) = true -> Py.lt s (4 # 10) = true)
    by (apply lt_weaken; discriminate).
  assert (Wp : Py.lt p (3 # 10) = true -> Py.lt p (4 # 10) = true)
    by (apply lt_weaken; discriminate).
  assert (Hm : Py.lt s (4 # 10) || Py.lt p (4 # 10) = true).
  { apply orb_true_iff in Em as [E | E]; apply orb_true_iff; [left | right]; auto. }
  assert (Hg : exists g,
             P.examine_article
               (Py.Counter (map (fun e => P.Analysis.sentiment (snd e))
                              (P.valid_articles (map as_production_article arts))))
               (Py.Counter (map (fun e => P.Analysis.earnings_prediction (snd e))
                              (P.valid_articles (map as_production_article arts))))
               (Z.of_nat (length (P.valid_articles (map as_production_article arts))))
               ar' (as_production_article a, as_production_analysis an) = Some g
             /\ P.Contrarian.author g = O.Article.author a
             /\ P.Contrarian.headline g = O.Article.headline a
             /\ P.Contrarian.url g = O.Article.url a
             /\ P.Contrarian.sentiment g = O.Analysis.sentiment an
             /\ P.Contrarian.prediction g = O.Analysis.earnings_prediction an
             /\ P.Contrarian.was_minority_sentiment g = Py.lt s (4 # 10)
             /\ P.Contrarian.was_minority_prediction g = Py.lt p (4 # 10)).
  { rewrite V1, V2, V3. unfold P.examine_article. cbv zeta.
    cbn [as_production_analysis P.Analysis.sentiment P.Analysis.earnings_prediction].
    fold s. fold p. rewrite Hm. eexists. split; [reflexivity |].
    repeat split. }
  destruct Hg as (g & Hg & G1 & G2 & G3 & G4 & G5 & G6 & G7).
  exists g. split.
  - apply identify_contrarians_elem. eexists. split; [exact Hentry | exact Hg].
  - rewrite G1, G2, G3, G4, G5, G6, G7. repeat split; auto.
Qed.

Lemma production_flags_what_the_first_analyzer_reports_witness :
  let batch :=
    [ {| O.Article.author := "Ann"; O.Article.headline := "h";
         O.Article.date := "d"; O.Article.url := "u";
         O.Article.analysis :=
           Some {| O.Analysis.sentiment := "bullish";
                   O.Analysis.earnings_prediction := "beat";
                   O.Analysis.reasoning := "";
                   O.Analysis.key_concerns := [] |} |};
      {| O.Article.author := "Bo"; O.Article.headline := "h";
         O.Article.date := "d"; O.Article.url := "u";
         O.Article.analysis :=
           Some {| O.Analysis.sentiment := "bearish";
                   O.Analysis.earnings_prediction := "miss";
                   O.Analysis.reasoning := "";
                   O.Analysis.key_concerns := [] |} |};
      {| O.Article.author := "Cy"; O.Article.headline := "h";
         O.Article.date := "d"; O.Article.url := "u";
         O.Article.analysis :=
           Some {| O.Analysis.sentiment := "bearish";
                   O.Analysis.earnings_prediction := "miss";
                   O.Analysis.reasoning := "";
                   O.Analysis.key_concerns := [] |} |};
      {| O.Article.author := "Di"; O.Article.headline := "h";
         O.Article.date := "d"; O.Article.url := "u";
         O.Article.analysis :=
           Some {| O.Analysis.sentiment := "bearish";
                   O.Analysis.earnings_prediction := "miss";
                   O.Analysis.reasoning := "";
                   O.Analysis.key_concerns := [] |} |} ] in
  exists g,
    g ∈ P.identify_contrarians (map as_production_article batch) None
    /\ P.Contrarian.author g = "Ann".
Proof.
  intros batch.
  assert (A : exists f,
             f ∈ O.identify_contrarians batch
                   (Some {| O.ActualResult.price_change_percent := 5;
                            O.ActualResult.result := "beat" |})
             /\ O.Contrarian.author f = "Ann")
    by (eexists; split; [vm_compute; apply list_elem_of_here | reflexivity]).
  destruct A as (f & Hf & Ha).
  destruct (production_flags_what_the_first_analyzer_reports _ _ None _ Hf)
    as (g & Hg & G1 & _).
  exists g. split; [exact Hg | congruence].
Defined.

End FirstAnalyzer.

(** ** Sums and distinct values *)

Section Sums.

Context {A : Type}.

Lemma sum_over_ext (g g' : A -> Z) l :
  (forall a, g a = g' a) -> sum_over g l = sum_over g' l.
Proof.
  intros H. induction l as [| a l IH]; [reflexivity |].
  unfold sum_over in *. simpl. rewrite H, IH. reflexivity.
Qed.

Lemma sum_over_map {B} (g : B -> Z) (h : A -> B) l :
  sum_over g (map h l) = sum_over (fun a => g (h a)) l.
Proof.
  induction l as [| a l IH]; [reflexivity |].
  unfold sum_over in *. simpl. rewrite IH. reflexivity.
Qed.

Lemma sum_over_add (g g' : A -> Z) l :
  sum_over (fun a => g a + g' a) l = sum_over g l + sum_over g' l.
Proof.
  induction l as [| a l IH]; [reflexivity |].
  unfold sum_over in *. simpl. rewrite IH. lia.
Qed.

Lemma sum_over_zero l : sum_over (fun _ : A => 0) l = 0.
Proof. induction l as [| a l IH]; [reflexivity |]. unfold sum_over in *. simpl. lia. Qed.

Lemma sum_over_filter_le (g : A -> Z) (p : A -> bool) l :
  (forall a, In a l -> 0 <= g a) -> sum_over g (List.filter p l) <= sum_over g l.
Proof.
  induction l as [| a l IH]; intros H; [reflexivity |].
  assert (H1 : 0 <= g a) by (apply H; left; reflexivity).
  assert (H2 : sum_over g (List.filter p l) <= sum_over g l)
    by (apply IH; intros b Hb; apply H; right; exact Hb).
  simpl. destruct (p a); unfold sum_over in *; simpl; lia.
Qed.

Lemma sum_over_ge (g : A -> Z) k l :
  (forall a, In a l -> k <= g a) -> k * Z.of_nat (length l) <= sum_over g l.
Proof.
  induction l as [| a l IH]; intros H; [simpl; lia |].
  assert (H1 : k <= g a) by (apply H; left; reflexivity).
  assert (H2 : k * Z.of_nat (length l) <= sum_over g l)
    by (apply IH; intros b Hb; apply H; right; exact Hb).
  unfold sum_over in *. simpl length. simpl foldr. lia.
Qed.

End Sums.

Section Distinct.

Lemma sum_over_indicator_out (x : string) (k : Z) u :
  x ∉ u -> sum_over (fun a => if String.eqb x a then k else 0) u = 0.
Proof.
  induction u as [| a u IH]; intros Hx; [reflexivity |].
  apply not_elem_of_cons in Hx as [Hne Hx].
  unfold sum_over in *. simpl. rewrite (IH Hx).
  destruct (String.eqb_spec x a); [congruence | reflexivity].
Qed.

Lemma sum_over_indicator (x : string) (k : Z) u :
  NoDup u -> x ∈ u ->
  sum_over (fun a => if String.eqb x a then k else 0) u = k.
Proof.
  induction 1 as [| a u Ha Hu IH]; intros Hx.
  - apply elem_of_nil in Hx. destruct Hx.
  - change (sum_over (fun a0 => if String.eqb x a0 then k else 0) (a :: u))
      with ((if String.eqb x a then k else 0)
            + sum_over (fun a0 => if String.eqb x a0 then k else 0) u).
    destruct (String.eqb_spec x a) as [-> | Hne].
    + rewrite (sum_over_indicator_out _ _ _ Ha). lia.
    + apply elem_of_cons in Hx as [-> | Hx]; [congruence |]. rewrite (IH Hx). lia.
Qed.

End Distinct.

(** ** The database of the simplified analyzer *)

Section SimplifiedDatabase.

Import SimplifiedContrarianDatabase.

Lemma unique_from_spec l : forall seen x,
  x ∈ Pandas.unique_from seen l <-> x ∈ l /\ x ∉ seen.
Proof.
  induction l as [| y l IH]; intros seen x; simpl.
  - rewrite elem_of_nil. tauto.
  - destruct (Py.contains y seen) eqn:C.
    + apply contains_elem in C. rewrite IH, elem_of_cons. split; [tauto |].
      intros [[-> | H] Hn]; [contradiction | tauto].
    + assert (Hy : y ∉ seen) by (rewrite <- contains_elem; congruence).
      rewrite !elem_of_cons, IH, elem_of_cons. split.
      * intros [-> | [H1 H2]]; tauto.
      * intros [[-> | H1] H2]; [tauto |].
        destruct (decide (x = y)); [left; assumption | right; tauto].
Qed.

Lemma unique_from_NoDup l : forall seen, NoDup (Pandas.unique_from seen l).
Proof.
  induction l as [| y l IH]; intros seen; simpl; [constructor |].
  destruct (Py.contains y seen); [apply IH |].
  constructor; [| apply IH].
  rewrite unique_from_spec. intros [_ H]. apply H, elem_of_cons. left. reflexivity.
Qed.

Lemma unique_from_length l : forall seen,
  (length (Pandas.unique_from seen l) <= length l)%nat.
Proof.
  induction l as [| y l IH]; intros seen; simpl; [lia |].
  destruct (Py.contains y seen); [specialize (IH seen) | specialize (IH (y :: seen))];
    simpl; lia.
Qed.

Lemma unique_spec l x : x ∈ Pandas.unique l <-> x ∈ l.
Proof.
  unfold Pandas.unique. rewrite unique_from_spec. split; [tauto |].
  intros H. split; [exact H |]. apply not_elem_of_nil.
Qed.

Lemma filter_all {A} (l : list A) : List.filter (fun _ => true) l = l.
Proof. induction l as [| x l IH]; simpl; [| rewrite IH]; reflexivity. Qed.

Lemma filter_length_mono {A} (f g : A -> bool) l :
  (forall x, f x = true -> g x = true) ->
  (length (List.filter f l) <= length (List.filter g l))%nat.
Proof.
  intros H. induction l as [| x l IH]; simpl; [lia |].
  destruct (f x) eqn:F.
  - rewrite (H x F). simpl. lia.
  - destruct (g x); simpl; lia.
Qed.

Lemma filter_skipn_length {A} (f : A -> bool) n l :
  (length (List.filter f (skipn n l)) <= length (List.filter f l))%nat.
Proof.
  rewrite <- (firstn_skipn n l) at 2. rewrite List.filter_app, length_app. lia.
Qed.

(** The records of one author, counted over all authors, are the records:
    each row is counted under its own author and no other. *)
Lemma count_partition (q : S.ContrarianRecord.t -> bool) u :
  NoDup u -> forall l,
  (forall r, In r l -> S.ContrarianRecord.author r ∈ u) ->
  sum_over
    (fun a =>
       Z.of_nat (length (List.filter q
                           (List.filter
                              (fun r => String.eqb (S.ContrarianRecord.author r) a) l))))
    u
  = Z.of_nat (length (List.filter q l)).
Proof.
  intros Hu. induction l as [| r l IH]; intros Hl.
  - simpl. apply sum_over_zero.
  - rewrite (sum_over_ext _
               (fun a =>
                  Z.of_nat (length (List.filter q
                                      (List.filter
                                         (fun r => String.eqb (S.ContrarianRecord.author r) a)
                                         l)))
                  + (if String.eqb (S.ContrarianRecord.author r) a
                     then (if q r then 1 else 0) else 0))).
    + rewrite sum_over_add, IH by (intros r' Hr'; apply Hl; right; exact Hr').
      rewrite (sum_over_indicator _ _ _ Hu) by (apply Hl; left; reflexivity).
      simpl. destruct (q r); simpl length; lia.
    + intros a. simpl.
      destruct (String.eqb (S.ContrarianRecord.author r) a); simpl; [| lia].
      destruct (q r); simpl length; lia.
Qed.

Lemma author_stats_author df today a :
  AuthorStats.author (author_stats df today a) = a.
Proof. reflexivity. Qed.

Lemma stats_authors df today :
  map AuthorStats.author (update_author_statistics df today)
  = Pandas.unique (map S.ContrarianRecord.author df).
Proof.
  unfold update_author_statistics. rewrite map_map.
  rewrite (map_ext _ (fun a => a)) by (intros a; apply author_stats_author).
  apply map_id.
Qed.

Lemma stats_sum (q : S.ContrarianRecord.t -> bool) (f : AuthorStats.t -> Z) df today :
  (forall a,
     f (author_stats df today a)
     = Z.of_nat (length (List.filter q
                           (List.filter
                              (fun r => String.eqb (S.ContrarianRecord.author r) a) df)))) ->
  sum_over f (update_author_statistics df today) = Z.of_nat (length (List.filter q df)).
Proof.
  intros H. unfold update_author_statistics.
  rewrite sum_over_map, (sum_over_ext _ _ _ H).
  apply count_partition; [apply unique_from_NoDup |].
  intros r Hr. apply unique_spec, list_elem_of_In.
  apply (in_map S.ContrarianRecord.author _ _ Hr).
Qed.

Lemma stats_sums df today :
  sum_over AuthorStats.total_predictions (update_author_statistics df today)
  = Z.of_nat (length df)
  /\ sum_over AuthorStats.contrarian_predictions (update_author_statistics df today)
     = Z.of_nat (length (contrarian_rows df))
  /\ sum_over AuthorStats.correct_predictions (update_author_statistics df today)
     = Z.of_nat (length (List.filter S.ContrarianRecord.was_correct df))
  /\ sum_over AuthorStats.correct_contrarian_predictions
       (update_author_statistics df today)
     = Z.of_nat (length (correct_contrarian_rows df)).
Proof.
  split; [| split; [| split]].
  - rewrite <- (filter_all df) at 2. apply stats_sum. intros a. simpl.
    rewrite filter_all. reflexivity.
  - apply stats_sum. reflexivity.
  - apply stats_sum. reflexivity.
  - apply stats_sum. reflexivity.
Qed.

(** X25: the author statistics partition the records file. When the
    authors of the file are plain texts, there is one row per author of the
    file, no author twice, and the columns [total_predictions],
    [contrarian_predictions], [correct_predictions] and
    [correct_contrarian_predictions] add up to the numbers of rows,
    contrarian rows, correct rows and correct contrarian rows of the
    file. *)
Theorem author_statistics_partition_the_records :
  forall df today,
    Forall (fun r => plain_text (S.ContrarianRecord.author r) = true) df ->
    let stats := update_author_statistics df today in
    NoDup (map AuthorStats.author stats)
    /\ (forall a,
          a ∈ map AuthorStats.author stats <-> a ∈ map S.ContrarianRecord.author df)
    /\ sum_over AuthorStats.total_predictions stats = Z.of_nat (length df)
    /\ sum_over AuthorStats.contrarian_predictions stats
       = Z.of_nat (length (contrarian_rows df))
    /\ sum_over AuthorStats.correct_predictions stats
       = Z.of_nat (length (List.filter S.ContrarianRecord.was_correct df))
    /\ sum_over AuthorStats.correct_contrarian_predictions stats
       = Z.of_nat (length (correct_contrarian_rows df)).
Proof.
  intros df today _ stats. unfold stats. rewrite stats_authors.
  split; [apply unique_from_NoDup |]. split; [intros a; apply unique_spec |].
  apply stats_sums.
Qed.

Lemma author_statistics_partition_the_records_witness :
  let record author :=
    {| S.ContrarianRecord.author := author;
       S.ContrarianRecord.company := "Apple";
       S.ContrarianRecord.symbol := "AAPL";
       S.ContrarianRecord.earnings_date := "2024-11-01";
       S.ContrarianRecord.prediction := "beat";
       S.ContrarianRecord.sentiment := "bullish";
       S.ContrarianRecord.was_contrarian := true;
       S.ContrarianRecord.was_correct := false;
       S.ContrarianRecord.actual_result := "miss";
       S.ContrarianRecord.date_analyzed := "2024-11-02";
       S.ContrarianRecord.headline := "Earnings preview";
       S.ContrarianRecord.url := "https://example.org/preview" |} in
  let df := [record "Ann"; record "Bo"; record "Ann"] in
  "Ann" ∈ map AuthorStats.author (update_author_statistics df "2024-11-02")
  /\ sum_over AuthorStats.total_predictions (update_author_statistics df "2024-11-02")
     = 3.
Proof.
  intros record df.
  assert (Hp : Forall (fun r => plain_text (S.ContrarianRecord.author r) = true) df)
    by (repeat constructor).
  destruct (author_statistics_partition_the_records df "2024-11-02" Hp)
    as (_ & H & H3 & _).
  split; [| exact H3].
  apply H. apply list_elem_of_here.
Defined.

Lemma percent_bounds c n :
  (0 <= c <= n)%Z -> (1 <= n)%Z ->
  (inject_Z 0 <= Py.truediv c n * 100 <= inject_Z 100)%Q.
Proof.
  intros [H0 Hc] Hn.
  replace n with (c + (n - c))%Z by lia. apply ratio_bounds; lia.
Qed.

Lemma accuracy_bounds c n :
  (0 <= c <= n)%Z ->
  (0 <= Py.round (if 0 <? n then (Py.truediv c n * 100)%Q else 0%Q) 1 <= 100)%Q.
Proof.
  intros H. apply (round_between 0 100).
  destruct (Z.ltb_spec 0 n) as [Hn | Hn].
  - apply percent_bounds; lia.
  - split; discriminate.
Qed.

(** X26: every row of the author statistics is consistent, when the
    authors and the companies of the records file are plain texts: it
    counts at least one prediction; the correct contrarian predictions are
    among the
    contrarian and among the correct ones, and these among all; the recent
    streak counts correct predictions among the last five; the author
    covers between one company and as many as predictions; both
    accuracies lie between 0 and 100, and the contrarian accuracy is 0
    without a contrarian prediction. *)
Theorem author_statistics_rows_are_consistent :
  forall df today r,
    Forall (fun r => plain_text (S.ContrarianRecord.author r) = true
                     /\ plain_text (S.ContrarianRecord.company r) = true) df ->
    r ∈ update_author_statistics df today ->
    1 <= AuthorStats.total_predictions r
    /\ 0 <= AuthorStats.correct_contrarian_predictions r
       <= AuthorStats.contrarian_predictions r
    /\ AuthorStats.correct_contrarian_predictions r <= AuthorStats.correct_predictions r
    /\ AuthorStats.contrarian_predictions r <= AuthorStats.total_predictions r
    /\ AuthorStats.correct_predictions r <= AuthorStats.total_predictions r
    /\ 0 <= AuthorStats.recent_streak r <= 5
    /\ AuthorStats.recent_streak r <= AuthorStats.correct_predictions r
    /\ 1 <= AuthorStats.companies_covered r <= AuthorStats.total_predictions r
    /\ (0 <= AuthorStats.overall_accuracy r <= 100)%Q
    /\ (0 <= AuthorStats.contrarian_accuracy r <= 100)%Q
    /\ (AuthorStats.contrarian_predictions r = 0 ->
        AuthorStats.contrarian_accuracy r = 0%Q).
Proof.
  intros df today r _ Hr. unfold update_author_statistics in Hr.
  apply list_elem_of_In, in_map_iff in Hr as (a & <- & Ha).
  apply list_elem_of_In, unique_spec, list_elem_of_In, in_map_iff in Ha
    as (r0 & Hr0 & Hin).
  unfold author_stats. cbv zeta. simpl.
  set (records := List.filter _ df).
  assert (Hne : In r0 records).
  { apply filter_In. split; [exact Hin |]. rewrite Hr0. apply String.eqb_refl. }
  assert (H1 : (1 <= length records)%nat)
    by (destruct records; [destruct Hne | simpl; lia]).
  pose proof (filter_length_le S.ContrarianRecord.was_contrarian records) as C1.
  pose proof (filter_length_le S.ContrarianRecord.was_correct records) as C2.
  pose proof (filter_length_mono
                (fun r => S.ContrarianRecord.was_contrarian r
                          && S.ContrarianRecord.was_correct r)
                S.ContrarianRecord.was_contrarian records
                (fun x H => proj1 (andb_prop _ _ H))) as C3.
  pose proof (filter_length_mono
                (fun r => S.ContrarianRecord.was_contrarian r
                          && S.ContrarianRecord.was_correct r)
                S.ContrarianRecord.was_correct records
                (fun x H => proj2 (andb_prop _ _ H))) as C4.
  pose proof (filter_skipn_length S.ContrarianRecord.was_correct
                (length records - 5) records) as C5.
  pose proof (filter_length_le S.ContrarianRecord.was_correct
                (Pandas.tail 5 records)) as C6.
  assert (C7 : (length (Pandas.tail 5 records) <= 5)%nat)
    by (unfold Pandas.tail; rewrite length_skipn; lia).
  pose proof (unique_from_length (map S.ContrarianRecord.company records) []) as C8.
  rewrite length_map in C8.
  assert (C9 : (1 <= length (Pandas.unique (map S.ContrarianRecord.company records)))%nat)
    by (destruct records; [destruct Hne | simpl; lia]).
  fold (Pandas.unique (map S.ContrarianRecord.company records)) in C8.
  unfold Pandas.tail in *.
  repeat split; try lia.
  - apply accuracy_bounds. lia.
  - apply accuracy_bounds. lia.
  - apply accuracy_bounds. lia.
  - apply accuracy_bounds. lia.
  - intros E. assert (E' : length (List.filter S.ContrarianRecord.was_contrarian records)
                           = 0%nat) by lia.
    rewrite E'. reflexivity.
Qed.

Lemma author_statistics_rows_are_consistent_witness :
  let record author was_contrarian was_correct :=
    {| S.ContrarianRecord.author := author;
       S.ContrarianRecord.company := "Apple";
       S.ContrarianRecord.symbol := "AAPL";
       S.ContrarianRecord.earnings_date := "2024-11-01";
       S.ContrarianRecord.prediction := "beat";
       S.ContrarianRecord.sentiment := "bullish";
       S.ContrarianRecord.was_contrarian := was_contrarian;
       S.ContrarianRecord.was_correct := was_correct;
       S.ContrarianRecord.actual_result := "beat";
       S.ContrarianRecord.date_analyzed := "2024-11-02";
       S.ContrarianRecord.headline := "Earnings preview";
       S.ContrarianRecord.url := "https://example.org/preview" |} in
  let df := [record "Ann" true true; record "Bo" false true; record "Ann" true false] in
  exists r,
    r ∈ update_author_statistics df "2024-11-02"
    /\ AuthorStats.author r = "Ann"
    /\ AuthorStats.correct_contrarian_predictions r <= AuthorStats.contrarian_predictions r
    /\ (AuthorStats.contrarian_accuracy r == 50)%Q.
Proof.
  intros record df.
  assert (A : exists r,
             r ∈ update_author_statistics df "2024-11-02"
             /\ AuthorStats.author r = "Ann"
             /\ (AuthorStats.contrarian_accuracy r == 50)%Q)
    by (eexists; split; [vm_compute; apply list_elem_of_here | split; reflexivity]).
  destruct A as (r & Hr & Ha & Hc). exists r.
  split; [exact Hr |]. split; [exact Ha |]. split; [| exact Hc].
  assert (Hp : Forall (fun r => plain_text (S.ContrarianRecord.author r) = true
                               /\ plain_text (S.ContrarianRecord.company r) = true) df)
    by (repeat constructor).
  destruct (author_statistics_rows_are_consistent _ _ _ Hp Hr) as (_ & [_ H] & _).
  exact H.
Defined.

End SimplifiedDatabase.

(** ** Signals and the report of the simplified analyzer *)

Section Signals.

Import SimplifiedContrarianDatabase.

Lemma sort_by_accuracy_sorted l :
  sort_by_accuracy l ≡ₚ l /\ StronglySorted by_accuracy_desc (sort_by_accuracy l).
Proof.
  apply (foldr_insert_sorted
           (fun x y => Py.ge (AuthorStats.contrarian_accuracy x)
                         (AuthorStats.contrarian_accuracy y))
           (fun x y => ge_total _ _) (fun x y z => ge_trans _ _ _)
           insert_by_accuracy (fun x => eq_refl) (fun x y l => eq_refl)).
Qed.

(** An accuracy above 60 on at least three contrarian predictions takes
    two correct ones. *)
Lemma accuracy_above_sixty c n :
  Py.gt (Py.round (if 0 <? n then (Py.truediv c n * 100)%Q else 0%Q) 1) 60 = true ->
  3 <= n -> 2 <= c.
Proof.
  intros H Hn. apply (rounded_above 60) in H.
  destruct (Z.ltb_spec 0 n) as [_ | ?]; [| lia].
  unfold Py.gt in H. apply lt_true in H.
  destruct (Z.le_gt_cases (c * 10) (6 * n)) as [Hle | Hgt]; [| lia].
  exfalso. apply (Qlt_not_le _ _ H).
  assert (Hp : (0 < inject_Z n)%Q) by (apply inject_Z_pos; lia).
  rewrite Zle_Qle, !inject_Z_mult in Hle.
  change (inject_Z 10) with 10%Q in Hle. change (inject_Z 6) with 6%Q in Hle.
  apply Qle_trans with ((6 # 10) * 100)%Q; [| discriminate].
  apply Qmult_le_compat_r; [| discriminate].
  unfold Py.truediv. apply Qle_shift_div_r; [exact Hp |]. lra.
Qed.

Lemma reliable_counts df today r :
  In r (update_author_statistics df today) -> reliable r = true ->
  3 <= AuthorStats.contrarian_predictions r
  /\ 2 <= AuthorStats.correct_contrarian_predictions r.
Proof.
  intros Hr Hrel. unfold update_author_statistics in Hr.
  apply in_map_iff in Hr as (a & <- & _).
  unfold reliable in Hrel. apply andb_true_iff in Hrel as [Hacc Hn].
  apply Z.leb_le in Hn. split; [exact Hn |].
  unfold author_stats in *. cbv zeta in *. simpl in *.
  eapply accuracy_above_sixty; eauto.
Qed.

Lemma stats_nonneg df today r :
  In r (update_author_statistics df today) ->
  0 <= AuthorStats.contrarian_predictions r
  /\ 0 <= AuthorStats.correct_contrarian_predictions r.
Proof.
  intros Hr. unfold update_author_statistics in Hr.
  apply in_map_iff in Hr as (a & <- & _). simpl. lia.
Qed.

(** The reliable authors account for three contrarian rows of the records
    file each, two of them correct. *)
Lemma reliable_rows df today :
  let count :=
    Z.of_nat (length (List.filter reliable (update_author_statistics df today))) in
  3 * count <= Z.of_nat (length (contrarian_rows df))
  /\ 2 * count <= Z.of_nat (length (correct_contrarian_rows df)).
Proof.
  cbv zeta. destruct (stats_sums df today) as (_ & S2 & _ & S4).
  rewrite <- S2, <- S4. split.
  - etransitivity; [apply (sum_over_ge AuthorStats.contrarian_predictions) |].
    + intros r Hr. apply filter_In in Hr as [Hr Hrel].
      apply (reliable_counts _ _ _ Hr Hrel).
    + apply sum_over_filter_le. intros r Hr. apply (stats_nonneg _ _ _ Hr).
  - etransitivity; [apply (sum_over_ge AuthorStats.correct_contrarian_predictions) |].
    + intros r Hr. apply filter_In in Hr as [Hr Hrel].
      apply (reliable_counts _ _ _ Hr Hrel).
    + apply sum_over_filter_le. intros r Hr. apply (stats_nonneg _ _ _ Hr).
Qed.

(** X27: a signal takes a track record. A run of the simplified analyzer
    appends its records to the records file and derives the signal from
    the whole file: the recommendation and its confidence are MONITOR and
    LOW, CONSIDER and MEDIUM, or STRONG_SIGNAL and HIGH; anything above
    MONITOR takes at least 9 contrarian rows in the file, 6 of them
    correct, and STRONG_SIGNAL takes 15, 10 of them correct; at most five
    top contrarians are listed. *)
Theorem signal_takes_a_track_record :
  forall records_file analyzed_articles actual_result today report records_file',
    analyze_company_earnings records_file analyzed_articles actual_result today
    = Py.Ok (report, records_file') ->
    let signals := investment_signals report in
    records_file'
    = (records_file ++ S.identify_contrarians analyzed_articles actual_result today)%list
    /\ ((recommendation signals = "MONITOR" /\ confidence signals = "LOW")
        \/ (recommendation signals = "CONSIDER" /\ confidence signals = "MEDIUM")
        \/ (recommendation signals = "STRONG_SIGNAL" /\ confidence signals = "HIGH"))
    /\ (recommendation signals <> "MONITOR" ->
        9 <= Z.of_nat (length (contrarian_rows records_file'))
        /\ 6 <= Z.of_nat (length (correct_contrarian_rows records_file')))
    /\ (recommendation signals = "STRONG_SIGNAL" ->
        15 <= Z.of_nat (length (contrarian_rows records_file'))
        /\ 10 <= Z.of_nat (length (correct_contrarian_rows records_file')))
    /\ (length (top_contrarians signals) <= 5)%nat.
Proof.
  intros records arts ar today report records' H.
  unfold analyze_company_earnings in H. cbv zeta in H.
  match type of H with
  | match ?stats with _ => _ end = _ =>
      destruct stats as [| row0 rows0] eqn:Es; [discriminate H |]
  end.
  cbv beta iota in H. rewrite <- Es in H. injection H as <- <-. cbv zeta. cbn [investment_signals].
  unfold save_records.
  set (df := (records ++ S.identify_contrarians arts ar today)%list).
  destruct (reliable_rows df today) as [R1 R2]. cbv zeta in R1, R2.
  unfold get_investment_signals. cbv zeta.
  cbn [recommendation confidence top_contrarians].
  rewrite (Permutation_length (proj1 (sort_by_accuracy_sorted _))).
  set (count := Z.of_nat (length (List.filter reliable (update_author_statistics df today))))
    in *.
  split; [reflexivity |].
  assert (Htop : (length
                    (map (fun r => (AuthorStats.author r, AuthorStats.contrarian_accuracy r,
                                    AuthorStats.contrarian_predictions r))
                       (Pandas.head 5
                          (sort_by_accuracy
                             (List.filter reliable (update_author_statistics df today)))))
                  <= 5)%nat).
  { rewrite length_map. unfold Pandas.head. rewrite length_firstn. lia. }
  destruct (Z.leb_spec 5 count) as [H5 | H5]; destruct (Z.leb_spec 3 count) as [H3 | H3];
    cbn [fst snd]; (split; [auto |]);
    (split; [intros; try congruence; split; lia |]);
    (split; [intros; try discriminate; try congruence; split; lia | exact Htop]).
Qed.

Lemma signal_takes_a_track_record_witness :
  exists report records_file',
    analyze_company_earnings []
      [Batch.simple_article "Bob Stone" "bearish" "beat";
       Batch.simple_article "Alice Moore" "bullish" "beat"] None "2024-11-02"
    = Py.Ok (report, records_file')
    /\ length records_file' = 2%nat
    /\ recommendation (investment_signals report) = "MONITOR".
Proof.
  assert (A : exists report records_file',
             analyze_company_earnings []
               [Batch.simple_article "Bob Stone" "bearish" "beat";
                Batch.simple_article "Alice Moore" "bullish" "beat"] None "2024-11-02"
             = Py.Ok (report, records_file')
             /\ recommendation (investment_signals report) = "MONITOR")
    by (do 2 eexists; split; vm_compute; reflexivity).
  destruct A as (report & records' & A & B). exists report, records'.
  split; [exact A |]. split; [| exact B].
  destruct (signal_takes_a_track_record _ _ _ _ _ _ A) as (H & _).
  rewrite H. reflexivity.
Defined.

Lemma identify_without_outcome analyzed_articles today r :
  In r (S.identify_contrarians analyzed_articles None today) ->
  S.ContrarianRecord.was_correct r = false.
Proof.
  unfold S.identify_contrarians. cbv zeta.
  destruct (S.valid_articles analyzed_articles) as [| e l]; [intros [] |].
  intros H. apply in_map_iff in H as ([a an] & <- & _). reflexivity.
Qed.

Lemma identify_length analyzed_articles actual_result today :
  (length (S.identify_contrarians analyzed_articles actual_result today)
   <= length analyzed_articles)%nat.
Proof.
  unfold S.identify_contrarians. cbv zeta.
  pose proof (omap_length_le
                (fun article => pair article <$> S.Article.analysis article)
                analyzed_articles) as H.
  fold (S.valid_articles analyzed_articles) in H.
  destruct (S.valid_articles analyzed_articles) as [| e l]; [simpl; lia |].
  rewrite length_map. exact H.
Qed.

(** A first run without any record raises. With an empty records file
    and no analyzed article that yields a record,
    [update_author_statistics] leaves the statistics file empty and
    [get_investment_signals] cannot read it. *)
Theorem analysis_without_records_raises :
  forall analyzed_articles actual_result today,
    S.identify_contrarians analyzed_articles actual_result today = [] ->
    analyze_company_earnings [] analyzed_articles actual_result today
    = Py.Raise Py.EmptyDataError.
Proof.
  intros arts ar today H. unfold analyze_company_earnings. cbv zeta.
  rewrite H. reflexivity.
Qed.

Lemma analysis_without_records_raises_witness :
  analyze_company_earnings [] [] None "2024-11-02" = Py.Raise Py.EmptyDataError.
Proof. apply analysis_without_records_raises. reflexivity. Defined.

(** X28: the summary of the report of the simplified analyzer is
    consistent: the correct contrarians are among the contrarians
    identified, these among the articles analyzed; the contrarian accuracy
    lies between 0 and 100 and is 0 when no contrarian is identified;
    without an actual result no contrarian is correct and the accuracy is
    0. *)
Theorem report_summary_is_consistent :
  forall records_file analyzed_articles actual_result today report records_file',
    analyze_company_earnings records_file analyzed_articles actual_result today
    = Py.Ok (report, records_file') ->
    let s := summary report in
    0 <= correct_contrarians s <= contrarians_identified s
    /\ contrarians_identified s <= total_articles_analyzed s
    /\ contrarians_identified s = Z.of_nat (length (contrarian_authors report))
    /\ (0 <= summary_contrarian_accuracy s <= 100)%Q
    /\ (contrarians_identified s = 0 -> summary_contrarian_accuracy s = 0%Q)
    /\ (actual_result = None ->
        correct_contrarians s = 0 /\ summary_contrarian_accuracy s = 0%Q).
Proof.
  intros records arts ar today report records' H.
  unfold analyze_company_earnings in H. cbv zeta in H.
  match type of H with
  | match ?stats with _ => _ end = _ =>
      destruct stats as [| row0 rows0] eqn:Es; [discriminate H |]
  end.
  cbv beta iota in H. rewrite <- Es in H. injection H as <- <-. cbv zeta.
  cbn [summary contrarian_authors correct_contrarians contrarians_identified
       total_articles_analyzed summary_contrarian_accuracy].
  set (found := List.filter S.ContrarianRecord.was_contrarian
                  (S.identify_contrarians arts ar today)).
  pose proof (filter_length_le S.ContrarianRecord.was_correct found) as C1.
  pose proof (filter_length_le S.ContrarianRecord.was_contrarian
                (S.identify_contrarians arts ar today)) as C2.
  fold found in C2.
  pose proof (identify_length arts ar today) as C3.
  assert (Hacc : (0 <= match found with
                       | [] => 0
                       | _ :: _ =>
                           Py.round
                             (Py.truediv
                                (Z.of_nat (length (List.filter S.ContrarianRecord.was_correct
                                                     found)))
                                (Z.of_nat (length found)) * 100) 1
                       end <= 100)%Q).
  { destruct found as [| x l] eqn:E; [split; discriminate |].
    apply (round_between 0 100). apply percent_bounds; [lia | simpl; lia]. }
  split; [lia |]. split; [lia |]. split; [reflexivity |]. split; [exact Hacc |].
  split.
  - intros E. destruct found; [reflexivity | simpl in E; lia].
  - intros ->.
    assert (Hnone : List.filter S.ContrarianRecord.was_correct found = []).
    { apply filter_none. intros r Hr. apply filter_In in Hr as [Hr _].
      apply (identify_without_outcome _ _ _ Hr). }
    rewrite Hnone. split; [reflexivity |].
    destruct found; [reflexivity |].
    apply (round_integer 0). unfold Py.truediv, Qdiv. simpl length.
    change (inject_Z (Z.of_nat 0)) with 0%Q. ring.
Qed.

Lemma report_summary_is_consistent_witness :
  exists report records_file',
    analyze_company_earnings []
      [Batch.simple_article "Bob Stone" "bearish" "beat";
       Batch.simple_article "Alice Moore" "bullish" "beat"] None "2024-11-02"
    = Py.Ok (report, records_file')
    /\ contrarians_identified (summary report) = 1
    /\ correct_contrarians (summary report) = 0.
Proof.
  assert (A : exists report records_file',
             analyze_company_earnings []
               [Batch.simple_article "Bob Stone" "bearish" "beat";
                Batch.simple_article "Alice Moore" "bullish" "beat"] None "2024-11-02"
             = Py.Ok (report, records_file')
             /\ contrarians_identified (summary report) = 1)
    by (do 2 eexists; split; vm_compute; reflexivity).
  destruct A as (report & records' & A & B). exists report, records'.
  split; [exact A |]. split; [exact B |].
  destruct (report_summary_is_consistent _ _ _ _ _ _ A) as (_ & _ & _ & _ & _ & H).
  exact (proj1 (H eq_refl)).
Defined.

End Signals.

(** ** The signal generator *)

Section SignalGeneratorFacts.

Import SignalGenerator.
#[local] Open Scope Q_scope.






End SignalGeneratorFacts.

(** ** The report of the production analyzer *)

Section ProductionReportFacts.

Import ProductionReport.
#[local] Open Scope Q_scope.

Lemma valid_articles_length analyzed_articles :
  Z.of_nat (length (P.valid_articles analyzed_articles))
  = (Z.of_nat (length analyzed_articles)
     - Z.of_nat (length (List.filter
                           (fun article =>
                              match P.Article.analysis article with
                              | None => true
                              | Some _ => false
                              end)
                           analyzed_articles)))%Z.
Proof.
  unfold P.valid_articles.
  induction analyzed_articles as [| a l IH]; [reflexivity |].
  rewrite omap_cons. simpl List.filter.
  destruct (P.Article.analysis a); simpl fmap; cbn [length]; lia.
Qed.

Lemma fold_left_sum_bounds (lo hi : Q) l : forall acc n,
  Forall (fun x => lo <= x <= hi) l ->
  lo * inject_Z n <= acc <= hi * inject_Z n ->
  lo * inject_Z (n + Z.of_nat (length l)) <= fold_left Qplus l acc
  <= hi * inject_Z (n + Z.of_nat (length l)).
Proof.
  induction l as [| x l IH]; intros acc n Hl Hacc.
  - simpl. rewrite Z.add_0_r. exact Hacc.
  - apply Forall_cons in Hl as [[Hx1 Hx2] Hl].
    replace (n + Z.of_nat (length (x :: l)))%Z
      with ((n + 1) + Z.of_nat (length l))%Z by (simpl length; lia).
    simpl fold_left. apply IH; [exact Hl |].
    rewrite inject_Z_plus. change (inject_Z 1) with 1. destruct Hacc. split; lra.
Qed.

Lemma head_is_largest (t : P.Contrarian.t) l :
  StronglySorted by_score_desc (t :: l) ->
  forall f, f ∈ t :: l ->
            P.Contrarian.contrarian_score f <= P.Contrarian.contrarian_score t.
Proof.
  intros Hs f Hf. apply StronglySorted_inv in Hs as [_ Hall].
  apply elem_of_cons in Hf as [-> | Hf]; [apply Qle_refl |].
  rewrite Forall_forall in Hall. apply ge_true, Hall, Hf.
Qed.

(** X30: the report of the production analyzer is consistent with its
    findings. They are the ranked findings of [identify_contrarians] and
    [contrarians_found] is their number; successful and failed analyses
    add up to the articles analyzed and no more findings than successful
    analyses exist; the top contrarian is the first finding and no finding
    scores higher; the average score is 0 without a finding and lies
    between 65 and 360 otherwise; every entry of the two distributions
    counts at least one and at most all successful analyses. *)
Theorem production_report_is_consistent :
  forall company_name company_symbol earnings_date analyzed_articles actual_result,
    let report :=
      analyze_company_earnings company_name company_symbol earnings_date
        analyzed_articles actual_result in
    let collection := data_collection report in
    contrarian_analysts report
    = P.identify_contrarians analyzed_articles actual_result
    /\ contrarians_found report = Z.of_nat (length (contrarian_analysts report))
    /\ (successful_analyses collection + failed_analyses collection
        = articles_analyzed collection)%Z
    /\ (0 <= contrarians_found report <= successful_analyses collection)%Z
    /\ match top_contrarian (summary report) with
       | None =>
           contrarian_analysts report = []
           /\ avg_contrarian_score (summary report) = 0
       | Some top =>
           head (contrarian_analysts report) = Some top
           /\ (forall f,
                 f ∈ contrarian_analysts report ->
                 P.Contrarian.contrarian_score f <= P.Contrarian.contrarian_score top)
           /\ 65 <= avg_contrarian_score (summary report) <= 360
       end
    /\ (forall key count,
          (key, count) ∈ sentiment_distribution (summary report)
          \/ (key, count) ∈ prediction_distribution (summary report) ->
          (1 <= count <= successful_analyses collection)%Z).
Proof.
  intros cn cs ed arts ar. cbv zeta. unfold analyze_company_earnings. cbv zeta.
  cbn [contrarian_analysts contrarians_found data_collection successful_analyses
       failed_analyses articles_analyzed summary top_contrarian avg_contrarian_score
       sentiment_distribution prediction_distribution].
  rewrite <- (valid_articles_length arts).
  split; [reflexivity |]. split; [reflexivity |].
  split; [rewrite (valid_articles_length arts); lia |].
  split.
  { split; [lia |].
    pose proof (production_findings_ranked_helper arts ar) as (_ & H & _). lia. }
  split.
  - destruct (P.identify_contrarians arts ar) as [| t l] eqn:E; [split; reflexivity |].
    cbn [head]. split; [reflexivity |]. split.
    + apply head_is_largest. rewrite <- E.
      apply (production_findings_ranked_helper arts ar).
    + apply (round_between 65 360).
      assert (Hall : Forall (fun x => 65 <= x <= 360)
                       (map P.Contrarian.contrarian_score (t :: l))).
      { apply Forall_forall. intros x Hx.
        apply list_elem_of_In, in_map_iff in Hx as (f & <- & Hf).
        apply (production_score_bounds_helper arts ar). rewrite E.
        apply list_elem_of_In, Hf. }
      pose proof (fold_left_sum_bounds 65 360 _ 0 0 Hall ltac:(split; discriminate)) as [B1 B2].
      rewrite Z.add_0_l, length_map in B1, B2.
      fold (sum (map P.Contrarian.contrarian_score (t :: l))) in B1, B2.
      assert (Hp : 0 < inject_Z (Z.of_nat (length (t :: l))))
        by (apply inject_Z_pos; simpl length; lia).
      change (inject_Z 65) with 65. change (inject_Z 360) with 360. split.
      * apply Qle_shift_div_l; assumption.
      * apply Qle_shift_div_r; assumption.
  - intros key count H. unfold counter_dict in H.
    destruct H as [H | H]; apply list_elem_of_In, in_map_iff in H as (k & [= <- <-] & Hk);
      apply list_elem_of_In in Hk; apply (proj1 (unique_spec _ _)) in Hk;
      pose proof (Counter_bounds _ _ Hk) as B; rewrite length_map in B; exact B.
Qed.

Lemma production_report_is_consistent_witness :
  let report :=
    analyze_company_earnings "Apple Inc." "AAPL" "2024-11-01" Batch.five
      (Some Batch.rose) in
  match top_contrarian (summary report) with
  | None =>
      contrarian_analysts report = [] /\ avg_contrarian_score (summary report) = 0
  | Some top =>
      head (contrarian_analysts report) = Some top
      /\ (forall f,
            f ∈ contrarian_analysts report ->
            P.Contrarian.contrarian_score f <= P.Contrarian.contrarian_score top)
      /\ 65 <= avg_contrarian_score (summary report) <= 360
  end.
Proof.
  intros report.
  destruct (production_report_is_consistent "Apple Inc." "AAPL" "2024-11-01"
              Batch.five (Some Batch.rose)) as (_ & _ & _ & _ & H & _).
  exact H.
Defined.

End ProductionReportFacts.
